(** * lenovoconsole: the console session and its asset relay

    A shallow embedding of package [lenovoconsole] (the Go library behind
    the [lenovo-console] command): the [Console] session with its
    [Initialize] / [Start] / [Stop] life cycle, the handlers it installs on
    its [http.ServeMux], and the page it renders from [htmlTemplate].

    Go values are modelled as the code has them: [int] as [Z], [string] as
    [string], [http.Header] as a finite map from header names to their
    value lists, a nil pointer or nil error as [None].  What the code asks
    of the outside world (the network, the operating system, the JSON
    decoder) is collected in a [Platform] record; every function that
    talks to the world takes one. *)

From Stdlib Require Import ZArith Lia Ascii String DecimalString.
From stdpp Require Import base option list strings gmap fin_maps relations.

Local Open Scope Z_scope.

(** ** Package [strings] *)

Module Strings.

(** [strings.HasPrefix(s, prefix)] *)
Fixpoint HasPrefix (s prefix : string) {struct prefix} : bool :=
  match prefix, s with
  | EmptyString, _ => true
  | String p prefix', String c s' =>
      if Ascii.eqb c p then HasPrefix s' prefix' else false
  | String _ _, EmptyString => false
  end.

(** [strings.HasSuffix(s, suffix)]: some tail of [s] is [suffix]. *)
Fixpoint HasSuffix (s suffix : string) : bool :=
  if String.eqb s suffix then true
  else match s with
       | EmptyString => false
       | String _ s' => HasSuffix s' suffix
       end.

(** [strings.Contains(s, substr)] *)
Fixpoint Contains (s substr : string) : bool :=
  if HasPrefix s substr then true
  else match s with
       | EmptyString => false
       | String _ s' => Contains s' substr
       end.

(** [strings.Join(elems, sep)] *)
Fixpoint Join (elems : list string) (sep : string) : string :=
  match elems with
  | [] => ""
  | [e] => e
  | e :: rest => e +:+ sep +:+ Join rest sep
  end.

(** The last byte of a string, [s[len(s)-1]]. *)
Fixpoint last (s : string) : option ascii :=
  match s with
  | EmptyString => None
  | String c EmptyString => Some c
  | String _ s' => last s'
  end.

(** [strings.Split(s, "/")]: the stretches of [s] between slashes. *)
Fixpoint SplitSlash (s : string) : list string :=
  match s with
  | EmptyString => [EmptyString]
  | String c s' =>
      if Ascii.eqb c "/" then EmptyString :: SplitSlash s'
      else match SplitSlash s' with
           | [] => [String c EmptyString]
           | e :: rest => String c e :: rest
           end
  end.

End Strings.

(** ** Package [net/http]: the data the handlers see *)

(** [http.Header] is [map[string][]string].  Keys are in canonical MIME form,
    as the readers of [net/http] produce them; [Add], [Set] and [Values]
    canonicalise their key argument, which leaves such keys as they are. *)
Abbreviation Header := (gmap string (list string)).

Module Header.

Definition Values (h : Header) (key : string) : list string :=
  default [] (h !! key).

Definition Add (key value : string) (h : Header) : Header :=
  <[key := Values h key ++ [value]]> h.

Definition Set_ (key value : string) (h : Header) : Header :=
  <[key := [value]]> h.

(** The loop the relay runs in both directions:
    [for key, values := range src { for _, value := range values {
       dst.Add(key, value) } }].
    Go visits the keys in no fixed order; [map_fold] picks one. *)
Definition copy_into (dst src : Header) : Header :=
  map_fold (fun key values acc => foldl (fun a v => Add key v a) acc values)
           dst src.

End Header.

(** An incoming request, as the server hands it to a handler:
    [r.Method], [r.URL.Path], [r.Header] and the bytes of [r.Body]. *)
Record Request : Type := {
  Method : string;
  URL_Path : string;
  ReqHeader : Header;
  ReqBody : string
}.

(** An outgoing request, [*http.Request] as built by [http.NewRequest]. A nil
    body is [None]. *)
Record ClientRequest : Type := {
  cMethod : string;
  cURL : string;
  cHeader : Header;
  cBody : option string
}.

(** What reading [resp.Body] to its end yields: the bytes received and the
    error that ended the read, if any. *)
Record BodyStream : Type := {
  received : string;
  readErr : option string
}.

(** [io.ReadAll(resp.Body)] *)
Definition io_ReadAll (b : BodyStream) : string * option string :=
  (received b, readErr b).

(** [*http.Response] *)
Record Response : Type := {
  StatusCode : Z;
  RespHeader : Header;
  RespBody : BodyStream
}.

(** [http.ResponseWriter], as the server implements it: the header map the
    handler edits, and what has gone out (status line, a snapshot of the
    header map taken by the first [WriteHeader], and the body). *)
Record ResponseWriter : Type := {
  handlerHeader : Header;
  wroteHeader : bool;
  status : Z;
  sentHeader : Header;
  written : string
}.

Module ResponseWriter.

Definition fresh : ResponseWriter :=
  {| handlerHeader := ∅; wroteHeader := false; status := 0;
     sentHeader := ∅; written := "" |}.

(** [w.Header().Set(key, value)] and [w.Header().Add(key, value)] *)
Definition with_Header (f : Header -> Header) (w : ResponseWriter)
  : ResponseWriter :=
  {| handlerHeader := f (handlerHeader w); wroteHeader := wroteHeader w;
     status := status w; sentHeader := sentHeader w; written := written w |}.

(** [w.WriteHeader(code)]; a second call is ignored. *)
Definition WriteHeader (code : Z) (w : ResponseWriter) : ResponseWriter :=
  if wroteHeader w then w
  else {| handlerHeader := handlerHeader w; wroteHeader := true;
          status := code; sentHeader := handlerHeader w;
          written := written w |}.

(** [w.Write(data)]; sends the header with status 200 first when no
    [WriteHeader] came before. *)
Definition Write (data : string) (w : ResponseWriter) : ResponseWriter :=
  let w' := WriteHeader 200 w in
  {| handlerHeader := handlerHeader w'; wroteHeader := wroteHeader w';
     status := status w'; sentHeader := sentHeader w';
     written := written w' +:+ data |}.

End ResponseWriter.

Definition StatusOK : Z := 200.
Definition StatusMovedPermanently : Z := 301.
Definition StatusNotFound : Z := 404.
Definition StatusInternalServerError : Z := 500.

(** [http.Error(w, error, code)] *)
Definition http_Error (msg : string) (code : Z) (w : ResponseWriter)
  : ResponseWriter :=
  let w1 := ResponseWriter.with_Header
              (Header.Set_ "Content-Type" "text/plain; charset=utf-8") w in
  let w2 := ResponseWriter.with_Header
              (Header.Set_ "X-Content-Type-Options" "nosniff") w1 in
  let w3 := ResponseWriter.WriteHeader code w2 in
  ResponseWriter.Write (msg +:+ String (ascii_of_nat 10) "") w3.

(** ** Package [path] and the request multiplexer of [net/http]

    [http.ServeMux] for patterns without host, method or wildcard (the
    only kind this package registers), as Go 1.21 has it, the oldest
    version the README allows.  It routes on the decoded path
    [r.URL.Path]: a pattern ending in a slash names a subtree, any other
    pattern a single path; the longest matching pattern wins; a request
    whose path is not in canonical form is answered with a redirect to the
    canonical path.  The mux that came with Go 1.22 cleans and matches the
    path as it was sent, escapes and all, so the two differ on a request
    whose path holds escaped dots or slashes; a later toolchain runs the
    mux modelled here when the module asks for it (GODEBUG
    [httpmuxgo121=1], the default under a go.mod that says [go 1.21]). *)

Import Strings.

(** The elements of a rooted path after [path.Clean]: empty and [.] elements
    dropped, each [..] dropped together with the element before it. [stack]
    holds the elements kept so far, last first. *)
Fixpoint cleanElems (elems stack : list string) : list string :=
  match elems with
  | [] => rev stack
  | e :: rest =>
      if bool_decide (e = "") || bool_decide (e = ".") then cleanElems rest stack
      else if bool_decide (e = "..") then cleanElems rest (tail stack)
      else cleanElems rest (e :: stack)
  end.

(** [path.Clean(p)] for a rooted [p] (one that starts with a slash), which is
    how [cleanPath] calls it. *)
Definition path_Clean (p : string) : string :=
  "/" +:+ Join (cleanElems (SplitSlash p) []) "/".

(** [cleanPath] of [net/http]: the canonical form of a request path; a
    trailing slash is kept. *)
Definition cleanPath (p : string) : string :=
  if bool_decide (p = "") then "/"
  else
    let p := if HasPrefix p "/" then p else "/" +:+ p in
    let np := path_Clean p in
    if bool_decide (Strings.last p = Some "/"%char) && negb (bool_decide (np = "/"))
    then if (String.length p =? String.length np + 1)%nat && HasPrefix p np
         then p else np +:+ "/"
    else np.

(** The three handlers the console registers. *)
Inductive HandlerFunc : Type :=
| H_consoleHandler
| H_certHandler
| H_proxySDKHandler.

(** Results of Go calls that may return an error or panic. *)
Inductive Res (A : Type) : Type :=
| Ret (a : A)
| Err (e : string)
| Panic (msg : string).
Arguments Ret {A} a.
Arguments Err {A} e.
Arguments Panic {A} msg.

(** [http.ServeMux]: the pattern table [m] and [es], the subtree patterns
    from longest to shortest. *)
Record ServeMux : Type := {
  mux_m : gmap string HandlerFunc;
  mux_es : list (string * HandlerFunc)
}.

(** [http.NewServeMux()] *)
Definition NewServeMux : ServeMux := {| mux_m := ∅; mux_es := [] |}.

(** [appendSorted]: insert before the first shorter pattern. *)
Fixpoint appendSorted (es : list (string * HandlerFunc))
    (e : string * HandlerFunc) : list (string * HandlerFunc) :=
  match es with
  | [] => [e]
  | x :: xs =>
      if (String.length (fst x) <? String.length (fst e))%nat then e :: x :: xs
      else x :: appendSorted xs e
  end.

(** [mux.HandleFunc(pattern, handler)]; registering a pattern twice panics. *)
Definition HandleFunc (pattern : string) (h : HandlerFunc) (mux : ServeMux)
  : Res ServeMux :=
  if bool_decide (pattern = "") then Panic "http: invalid pattern"
  else match mux_m mux !! pattern with
       | Some _ => Panic ("http: multiple registrations for " +:+ pattern)
       | None =>
           Ret {| mux_m := <[pattern := h]> (mux_m mux);
                  mux_es := if bool_decide (Strings.last pattern = Some "/"%char)
                            then appendSorted (mux_es mux) (pattern, h)
                            else mux_es mux |}
       end.

(** [mux.match(path)]: an exact entry first, then the longest subtree
    pattern that is a prefix of the path. *)
Definition mux_match (mux : ServeMux) (path : string) : option HandlerFunc :=
  match mux_m mux !! path with
  | Some h => Some h
  | None => snd <$> List.find (fun e => HasPrefix path (fst e)) (mux_es mux)
  end.

(** What the mux decides for a request: one of the registered handlers, a
    redirect to a path (the query string, left out here, goes along), or
    the not-found handler. *)
Inductive Dispatch : Type :=
| Serve (h : HandlerFunc)
| RedirectHandler (url : string) (code : Z)
| NotFoundHandler.

(** [mux.handler(host, path)] *)
Definition mux_handler (mux : ServeMux) (path : string) : Dispatch :=
  match mux_match mux path with
  | Some h => Serve h
  | None => NotFoundHandler
  end.

(** [mux.shouldRedirectRLocked(host, path)]: [path] itself is not registered
    but [path/] is. *)
Definition shouldRedirect (mux : ServeMux) (path : string) : bool :=
  match mux_m mux !! path with
  | Some _ => false
  | None =>
      if bool_decide (path = "") then false
      else match mux_m mux !! (path +:+ "/") with
           | Some _ => negb (bool_decide (Strings.last path = Some "/"%char))
           | None => false
           end
  end.

(** [mux.Handler(r)] of Go 1.21: CONNECT requests are not canonicalised;
    every other request is redirected when its decoded path is not
    clean. *)
Definition mux_Handler (mux : ServeMux) (r : Request) : Dispatch :=
  if bool_decide (Method r = "CONNECT") then
    if shouldRedirect mux (URL_Path r)
    then RedirectHandler (URL_Path r +:+ "/") StatusMovedPermanently
    else mux_handler mux (URL_Path r)
  else
    let path := cleanPath (URL_Path r) in
    if shouldRedirect mux path
    then RedirectHandler (path +:+ "/") StatusMovedPermanently
    else if negb (bool_decide (path = URL_Path r))
    then RedirectHandler path StatusMovedPermanently
    else mux_handler mux (URL_Path r).

(** ** The page template ([template.go]) and package [html/template]

    [htmlTemplate] holds five actions: [{{.BMCIP}}] in the text of a list
    item, then, inside the script element, [{{.BMCIP}}], [{{.BMCUsername}}]
    and [{{.BMCPassword}}] between single quotes and [{{.RPPort}}] as a bare
    JavaScript value.  The literal text around them is kept here as the six
    stretches [text0] .. [text5], byte for byte as in the source file; what
    the library makes of them when it parses the template comes further
    down ([escapeText]). *)

Module Template.

(** The double quote character. *)
Definition dq : string := String (ascii_of_nat 34) EmptyString.

Definition text0 : string :=
  "<!DOCTYPE html>
<html>
<head>
    <title>Lenovo XCC Remote Console</title>
    <style>
        body {
            margin: 0;
            padding: 0;
            background-color: #000;
            overflow: hidden;
            font-family: Arial, sans-serif;
        }
        #status {
            position: absolute;
            top: 10px;
            left: 10px;
            color: #fff;
            background: rgba(0,0,0,0.7);
            padding: 10px;
            border-radius: 5px;
            z-index: 1000;
            max-width: 500px;
        }
        #kvmCanvas {
            display: block;
            margin: 0 auto;
        }
        .error {
            color: #ff4444;
            font-weight: bold;
        }
        #certInstructions {
            position: absolute;
            top: 10px;
            right: 10px;
            color: #fff;
            background: rgba(0,0,50,0.9);
            padding: 15px;
            border-radius: 5px;
            z-index: 1001;
            max-width: 400px;
            border: 2px solid #4444ff;
            display: none;
        }
        #certInstructions h3 {
            margin-top: 0;
            color: #88aaff;
        }
        #certInstructions a {
            color: #88aaff;
            text-decoration: underline;
        }
        #certInstructions ol {
            padding-left: 20px;
        }
        #certInstructions li {
            margin-bottom: 10px;
        }
        #certInstructions button {
            background: #4444ff;
            color: white;
            border: none;
            padding: 8px 15px;
            border-radius: 3px;
            cursor: pointer;
            margin-top: 10px;
        }
        #certInstructions button:hover {
            background: #5555ff;
        }
    </style>
</head>
<body>
    <div id="
  +:+ dq
  +:+ "status"
  +:+ dq
  +:+ ">Initializing console...</div>
    <canvas id="
  +:+ dq
  +:+ "kvmCanvas"
  +:+ dq
  +:+ "></canvas>
    
    <div id="
  +:+ dq
  +:+ "certInstructions"
  +:+ dq
  +:+ ">
        <h3>⚠️ Certificate Issue Detected</h3>
        <p>The BMC server is using a self-signed certificate that needs to be accepted.</p>
        <p><strong>To fix this issue:</strong></p>
        <ol>
            <li>Click the button below to open the BMC certificate page</li>
            <li>You'll see a browser warning about the certificate</li>
            <li>Click "
  +:+ dq
  +:+ "Advanced"
  +:+ dq
  +:+ " or "
  +:+ dq
  +:+ "Show Details"
  +:+ dq
  +:+ "</li>
            <li>Click "
  +:+ dq
  +:+ "Proceed to ".

Definition text1 : string :=
  dq
  +:+ " or "
  +:+ dq
  +:+ "Accept the Risk and Continue"
  +:+ dq
  +:+ "</li>
            <li>Come back to this tab and click "
  +:+ dq
  +:+ "Retry Connection"
  +:+ dq
  +:+ "</li>
        </ol>
        <button onclick="
  +:+ dq
  +:+ "acceptCertificate()"
  +:+ dq
  +:+ ">Open BMC Certificate Page</button>
        <button onclick="
  +:+ dq
  +:+ "retryConnection()"
  +:+ dq
  +:+ ">Retry Connection</button>
        <button onclick="
  +:+ dq
  +:+ "document.getElementById('certInstructions').style.display='none'"
  +:+ dq
  +:+ ">Close</button>
    </div>

    <script>
        // Console configuration
        const config = {
            bmcIP: '".

Definition text2 : string :=
  "',
            rpPort: ".

Definition text3 : string :=
  ",
            bmcUsername: '".

Definition text4 : string :=
  "',
            bmcPassword: '".

Definition text5 : string :=
  "'
        };

        const statusDiv = document.getElementById('status');
        let scriptsLoaded = 0;
        const requiredScripts = [
            '/SDK_Pilot4/utility.js',
            '/SDK_Pilot4/rpimage.js', 
            '/SDK_Pilot4/rprecorder.js',
            '/SDK_Pilot4/rpviewer.js',
			'/SDK_Pilot4/rphandlers.js',
			'/SDK_Pilot4/websockethandler.js',
			'/SDK_Pilot4/virtualkeyboard.js',
			'/SDK_Pilot4/mediaTypes.js',
			'/SDK_Pilot4/mediaworkerhandler.js'
        ];

        function updateStatus(message, isError) {
            statusDiv.innerHTML = message;
            if (isError) {
                statusDiv.className = 'error';
            }
        }

        function loadScript(src, callback, errorCallback) {
            const script = document.createElement('script');
            script.src = 'https://' + config.bmcIP + src;
            script.onload = callback;
            script.onerror = errorCallback || function() {
                console.error('Failed to load:', src);
            };
            document.head.appendChild(script);
        }

        function loadNextScript(index) {
            if (index >= requiredScripts.length) {
                initializeViewer();
                return;
            }

            const scriptName = requiredScripts[index].split('/').pop();
            updateStatus('Loading ' + scriptName + '... (' + (index + 1) + '/' + requiredScripts.length + ')');

            loadScript(
                requiredScripts[index],
                function() {
                    console.log('Loaded:', requiredScripts[index]);
                    loadNextScript(index + 1);
                },
                function() {
                    // Try alternative path without /designs/imm
                    const altPath = requiredScripts[index].replace('/designs/imm', '');
                    console.log('Trying alternative path:', altPath);
                    
                    loadScript(
                        altPath,
                        function() {
                            console.log('Loaded from alt path:', altPath);
                            loadNextScript(index + 1);
                        },
                        function() {
                            updateStatus('❌ ERROR: Could not load ' + scriptName + '<br>' +
                                       'Tried paths:<br>' +
                                       '- https://' + config.bmcIP + requiredScripts[index] + '<br>' +
                                       '- https://' + config.bmcIP + altPath + '<br><br>' +
                                       'Please check browser console for details.', true);
                        }
                    );
                }
            );
        }

        updateStatus('⚠️ Loading Lenovo RPViewer libraries...');
        loadNextScript(0);

        // Certificate acceptance handler
        function handleCertificateAcceptance(viewer) {
            // Note: Direct iframe approach won't work due to CSP restrictions
            // The user will need to manually accept the certificate if prompted
            console.log('Certificate handling will be done through RPViewer dialog');
        }

        function initializeViewer() {
            updateStatus('✓ All libraries loaded. Initializing viewer...');
            
            try {
                // Check if RPViewer is available
                if (typeof RPViewer === 'undefined') {
                    throw new Error('RPViewer class not found. Check that all scripts loaded correctly.');
                }

                console.log('Initializing RPViewer...');
                
                // Initialize RPViewer (based on the RemoteConsoleWindow.js code)
                const viewer = new RPViewer('kvmCanvas', viewerAPIErrorCallback);
                
                console.log('RPViewer created, configuring...');
                
                // Configure viewer
                viewer.setRPWebSocketTimeout(30);
                
                // Certificate handling - try without setting cert file
                // Since the certificate is already accepted, we might not need this
                // viewer.setRPCertFileName('/cert.pem');
                
                // Set server configuration
                viewer.setRPServerConfiguration(config.bmcIP, config.rpPort);
                viewer.setRPEmbeddedViewerSize(window.innerWidth, window.innerHeight - 50);
                
                // Connection settings - Multi User Mode
                viewer.setRPExclusiveLogin(false); // Use multi-user mode (non-exclusive)
                viewer.setRPAllowSharingRequests(true); // Allow sharing requests for multi-user mode
                
                // Input support
                viewer.setRPMouseInputSupport(true);
                viewer.setRPTouchInputSupport(true);
                viewer.setRPKeyboardInputSupport(true);
                
                // Debug settings
                viewer.setRPDebugMode(true);
                viewer.setRPDebugLevel(1);
                
                // Display settings
                viewer.setRPMaintainAspectRatio(true);
                viewer.setRPInitialBackgroundColor('black');
                viewer.setRPInitialMessageColor('white');
                viewer.setRPKeyboardLanguage('en');
                
                // Reconnection settings
                viewer.setRPSupportReconnect(true);
                viewer.setRPLinkInterruptMessageColor('red');
                viewer.setRPLinkInterruptMessage('Connection interrupted. Attempting to reconnect...');
                viewer.setRPReconnectingMessage('Reconnecting to remote console...');
                viewer.setRPInitialMessage('Connecting to remote console...');
                
                // Set credentials (using BMC credentials directly)
                console.log('Setting credentials with BMC user:', config.bmcUsername);
                viewer.setRPCredential(config.bmcUsername, config.bmcPassword);
                
                // Register callbacks
                viewer.registerRPLoginResponseCallback(loginResponseCallback);
                viewer.registerRPUIInitCallback(uiInitCallback);
                viewer.registerRPExitViewerCallback(exitViewerCallback);
                viewer.registerRPResolutionCallback(resolutionCallback);
                viewer.registerRPSessionTerminationCallback(sessionTermCallback);
                
                // Store viewer globally for debugging
                window.rpViewer = viewer;
                
                // Pre-accept certificate by opening the BMC URL
                handleCertificateAcceptance(viewer);
                
                // Connect after a short delay to allow certificate pre-acceptance
                updateStatus('Accepting BMC certificate and connecting to ' + config.bmcIP + ':' + config.rpPort + '...');
                console.log('Preparing to connect...');
                
                setTimeout(() => {
                    console.log('Calling connectRPViewer...');
                    viewer.connectRPViewer();
                }, 1000);
                
            } catch (error) {
                console.error('Initialization error:', error);
                updateStatus('❌ ERROR: ' + error.message + '<br><br>' +
                           'Check browser console (F12) for more details.', true);
            }
        }

        function exitViewerCallback() {
            console.log('Exit viewer callback');
            updateStatus('Console session ended', true);
        }

        function resolutionCallback(width, height) {
            console.log('Resolution:', width + 'x' + height);
        }

        function sessionTermCallback(reason) {
            console.log('Session terminated:', reason);
            const reasons = {
                0: 'Admin termination',
                1: 'Timeout',
                2: 'WebSocket error',
                3: 'Reboot',
                4: 'Upgrade',
                5: 'Preempted by another user',
                6: 'Unshare',
                7: 'Exclusive mode',
                8: 'Out of memory'
            };
            updateStatus('❌ Session terminated: ' + (reasons[reason] || 'Unknown reason'), true);
        }

        function loginResponseCallback(result, info) {
            console.log('Login response:', result);
            if (result === 0) { // RPViewer.RP_LOGIN_RESULT.LOGIN_SUCCESS
                updateStatus('✓ Connected successfully');
                document.getElementById('certInstructions').style.display = 'none';
                setTimeout(() => {
                    statusDiv.style.display = 'none';
                }, 2000);
            } else {
                const errors = {
                    1: 'Login denied',
                    2: 'Invalid user',
                    3: 'Invalid password',
                    4: 'Session in use',
                    5: 'Session full',
                    6: 'Login timeout',
                    7: 'No share available',
                    11: 'Login failed',
                    101: 'WebSocket exception',
                    102: 'Certificate not verified',
                    103: 'Certificate timeout'
                };
                updateStatus('❌ Login failed: ' + (errors[result] || 'Unknown error'), true);
                
                // Show certificate instructions if it's a certificate error
                if (result === 102 || result === 103) {
                    document.getElementById('certInstructions').style.display = 'block';
                }
            }
        }
        
        // Function to open BMC certificate page
        function acceptCertificate() {
            const certUrl = 'https://' + config.bmcIP + ':' + config.rpPort + '/';
            window.open(certUrl, '_blank');
        }
        
        // Function to retry connection
        function retryConnection() {
            if (window.rpViewer) {
                document.getElementById('certInstructions').style.display = 'none';
                updateStatus('Retrying connection...');
                window.rpViewer.connectRPViewer();
            } else {
                location.reload();
            }
        }

        function uiInitCallback() {
            console.log('UI initialized');
            updateStatus('✓ Console initialized');
        }

        function viewerAPIErrorCallback(code, error) {
            console.error('Viewer API error:', code, error);
            updateStatus('❌ Viewer error: ' + error, true);
        }

        // Handle window resize
        window.addEventListener('resize', function() {
            if (window.rpViewer && window.rpViewer.setRPEmbeddedViewerSize) {
                const canvas = document.getElementById('kvmCanvas');
                window.rpViewer.setRPEmbeddedViewerSize(
                    window.innerWidth,
                    window.innerHeight
                );
            }
        });
        
        // Handle certificate acceptance messages from popup windows
        window.addEventListener('message', function(event) {
            console.log('Received message:', event.data);
            
            // Check for various certificate acceptance message formats
            if (event.data === 'CERT_ACCEPTED' || 
                (event.data && event.data.accepted) ||
                (event.data && event.data.type === 'certificate' && event.data.action === 'accept')) {
                
                console.log('Certificate accepted via popup');
                
                // If RPViewer has a method to handle certificate acceptance
                if (window.rpViewer && window.rpViewer.onCertificateAccepted) {
                    try {
                        window.rpViewer.onCertificateAccepted();
                    } catch(e) {
                        console.log('Could not call onCertificateAccepted:', e);
                    }
                }
            }
        });
        
        // Function that might be called by the certificate popup
        window.rpCertAccepted = function() {
            console.log('Certificate accepted callback triggered');
        };
    </script>
</body>
</html>".

End Template.

(** The page [certHandler] serves, [certHTML]. *)
Definition certHTML : string :=
  "<!DOCTYPE html>
<html>
<head>
    <title>Certificate Acceptance</title>
    <script>
        function acceptCertificate() {
            if (window.opener && !window.opener.closed) {
                try {
                    window.opener.postMessage({
                        type: 'certificate',
                        action: 'accept',
                        accepted: true
                    }, '*');
                    window.opener.postMessage('CERT_ACCEPTED', '*');
                } catch(e) {
                    console.log('Could not post message to opener:', e);
                }
            }
            
            try {
                localStorage.setItem('rpviewer_cert_accepted', 'true');
            } catch(e) {
                console.log('Could not set localStorage:', e);
            }
            
            if (window.opener && window.opener.rpCertAccepted) {
                try {
                    window.opener.rpCertAccepted();
                } catch(e) {
                    console.log('Could not call rpCertAccepted:', e);
                }
            }
            
            setTimeout(function() {
                window.close();
            }, 100);
        }
        
        window.onload = acceptCertificate;
        acceptCertificate();
    </script>
</head>
<body style="
  +:+ Template.dq
  +:+ "font-family: Arial, sans-serif; padding: 20px;"
  +:+ Template.dq
  +:+ ">
    <h3>Certificate Handler</h3>
    <p>The SSL certificate has been accepted. This window will close automatically.</p>
</body>
</html>".

(** *** The escapers [html/template] inserts

    Each maps a string byte by byte; bytes it has no replacement for are
    copied. *)

(** A byte given by its code. *)
Definition chr (n : nat) : ascii := ascii_of_nat n.

(** A hexadecimal digit, in lower case. *)
Definition hexDigit (n : nat) : ascii :=
  if (n <? 10)%nat then chr (48 + n) else chr (87 + n).

(** A backslash, the letter u and the four hexadecimal digits of [n]: the
    way the JavaScript escaper writes the code point [n]. *)
Definition u4 (n : nat) : string :=
  String (chr 92) (String (chr 117)
    (String (hexDigit (n / 4096)) (String (hexDigit (n / 256 mod 16))
      (String (hexDigit (n / 16 mod 16)) (String (hexDigit (n mod 16)) ""))))).

(** [htmlReplacementTable]: the replacement of a byte in element text, if it
    has one. *)
Definition htmlReplacement (c : ascii) : option string :=
  let n := nat_of_ascii c in
  if (n =? 0)%nat then Some (String (chr 239) (String (chr 191) (String (chr 189) "")))
  else if (n =? 34)%nat then Some "&#34;"
  else if (n =? 38)%nat then Some "&amp;"
  else if (n =? 39)%nat then Some "&#39;"
  else if (n =? 43)%nat then Some "&#43;"
  else if (n =? 60)%nat then Some "&lt;"
  else if (n =? 62)%nat then Some "&gt;"
  else None.

(** [htmlEscaper] on a string value. *)
Fixpoint htmlEscaper (s : string) : string :=
  match s with
  | EmptyString => EmptyString
  | String c s' =>
      match htmlReplacement c with
      | Some repl => repl +:+ htmlEscaper s'
      | None => String c (htmlEscaper s')
      end
  end.

(** [lowUnicodeReplacementTable] and [jsStrReplacementTable]: the
    replacement of a byte inside a quoted JavaScript string. Tab, line
    feed, form feed, carriage return, slash and backslash get a backslash
    in front; the other control bytes and the bytes special to HTML are
    written as [u4]. *)
Definition jsStrReplacement (c : ascii) : option string :=
  let n := nat_of_ascii c in
  if (n =? 9)%nat then Some (String (chr 92) "t")
  else if (n =? 10)%nat then Some (String (chr 92) "n")
  else if (n =? 12)%nat then Some (String (chr 92) "f")
  else if (n =? 13)%nat then Some (String (chr 92) "r")
  else if (n <? 32)%nat then Some (u4 n)
  else if (n =? 34)%nat || (n =? 38)%nat || (n =? 39)%nat || (n =? 43)%nat
          || (n =? 60)%nat || (n =? 62)%nat || (n =? 96)%nat then Some (u4 n)
  else if (n =? 47)%nat then Some (String (chr 92) "/")
  else if (n =? 92)%nat then Some (String (chr 92) (String (chr 92) ""))
  else None.

(** [jsStrEscaper] on a string value; the line and paragraph separators
    U+2028 and U+2029 (bytes E2 80 A8 and E2 80 A9) are written as [u4]
    too. *)
Fixpoint jsStrEscaper (s : string) : string :=
  match s with
  | EmptyString => EmptyString
  | String c s' =>
      match jsStrReplacement c with
      | Some repl => repl +:+ jsStrEscaper s'
      | None =>
          match s' with
          | String c1 (String c2 s'') =>
              if (nat_of_ascii c =? 226)%nat && (nat_of_ascii c1 =? 128)%nat
                 && ((nat_of_ascii c2 =? 168)%nat || (nat_of_ascii c2 =? 169)%nat)
              then u4 (64 * 128 + (nat_of_ascii c2 - 128)) +:+ jsStrEscaper s''
              else String c (jsStrEscaper s')
          | _ => String c (jsStrEscaper s')
          end
      end
  end.

(** The decimal form of an [int], as the [%d] verb of [fmt] and
    [json.Marshal] write it. *)
Definition Itoa (n : Z) : string := NilZero.string_of_int (Z.to_int n).

(** [jsValEscaper] on an [int]: its decimal form between two spaces. *)
Definition jsValEscaper_int (n : Z) : string :=
  " " +:+ Itoa n +:+ " ".

(** *** What parsing and escaping does to the literal text

    Before a template is executed for the first time, [html/template]
    walks its literal text, keeping track of the context each byte stands
    in, and leaves out the comments of scripts: a line comment goes up to,
    not with, its line end, a block comment becomes a space, or a line
    feed if it holds a line end.  Of the contexts of the library the ones
    kept here are those this template reaches: its markup has no comment,
    no stray [<] and one [<script>] tag, without attributes, and its
    script has no regular expression, no division and no HTML-like
    comment. *)

(** The context: markup outside the script (element text, tags, the
    style sheet), the start tag of the script, the script, a quoted
    string of it with its quote and whether a backslash came last
    ([stateJSDqStr], [stateJSSqStr], [stateJSBqStr]), a line comment, a
    block comment and whether a line end was seen in it. *)
Inductive state : Type :=
| stateText
| stateTag
| stateJS
| stateJSStr (delim : ascii) (esc : bool)
| stateJSLineCmt
| stateJSBlockCmt (lineEnd : bool).

(** The line and paragraph separators U+2028 and U+2029 in UTF-8. *)
Definition isSeparator (s : string) : bool :=
  HasPrefix s (String (chr 226) (String (chr 128) (String (chr 168) "")))
  || HasPrefix s (String (chr 226) (String (chr 128) (String (chr 169) ""))).

(** [escapeText]: the context after the text and the text as it is kept. *)
Fixpoint escapeText (c : state) (s : string) : state * string :=
  match s with
  | EmptyString => (c, EmptyString)
  | String b s' =>
      let n := nat_of_ascii b in
      let keep (c' : state) :=
        let '(c'', out) := escapeText c' s' in (c'', String b out) in
      let drop (c' : state) := escapeText c' s' in
      match c with
      | stateText => if HasPrefix s "<script" then keep stateTag else keep stateText
      | stateTag => if (n =? 62)%nat then keep stateJS else keep stateTag
      | stateJS =>
          if HasPrefix s "</script" then keep stateText
          else if (n =? 34)%nat || (n =? 39)%nat || (n =? 96)%nat
          then keep (stateJSStr b false)
          else if (n =? 47)%nat then
            match s' with
            | String b1 s'' =>
                if (nat_of_ascii b1 =? 47)%nat then escapeText stateJSLineCmt s''
                else if (nat_of_ascii b1 =? 42)%nat
                then escapeText (stateJSBlockCmt false) s''
                else keep stateJS
            | EmptyString => keep stateJS
            end
          else keep stateJS
      | stateJSStr delim esc =>
          if esc then keep (stateJSStr delim false)
          else if (n =? 92)%nat then keep (stateJSStr delim true)
          else if Ascii.eqb b delim then keep stateJS
          else keep (stateJSStr delim false)
      | stateJSLineCmt =>
          if (n =? 10)%nat || (n =? 13)%nat || isSeparator s then keep stateJS
          else drop stateJSLineCmt
      | stateJSBlockCmt lineEnd =>
          let lineEnd' :=
            lineEnd || (n =? 10)%nat || (n =? 13)%nat || isSeparator s in
          if (n =? 42)%nat then
            match s' with
            | String b1 s'' =>
                if (nat_of_ascii b1 =? 47)%nat then
                  let '(c'', out) := escapeText stateJS s'' in
                  (c'', String (if lineEnd then chr 10 else chr 32) out)
                else drop (stateJSBlockCmt lineEnd')
            | EmptyString => drop (stateJSBlockCmt lineEnd')
            end
          else drop (stateJSBlockCmt lineEnd')
      end
  end.

(** The six stretches of [htmlTemplate] after escaping, each with the
    context it ends in: the context of the action that follows it, and of
    the stretch after that.  Escaping happens once, when the template is
    parsed, so each stretch is kept evaluated. *)
Definition escaped0 : state * string :=
  Eval vm_compute in escapeText stateText Template.text0.
Definition escaped1 : state * string :=
  Eval vm_compute in escapeText escaped0.1 Template.text1.
Definition escaped2 : state * string :=
  Eval vm_compute in escapeText escaped1.1 Template.text2.
Definition escaped3 : state * string :=
  Eval vm_compute in escapeText escaped2.1 Template.text3.
Definition escaped4 : state * string :=
  Eval vm_compute in escapeText escaped3.1 Template.text4.
Definition escaped5 : state * string :=
  Eval vm_compute in escapeText escaped4.1 Template.text5.

(** The anonymous struct [generateHTML] passes to the template. *)
Record TemplateData : Type := {
  data_BMCIP : string;
  data_RPPort : Z;
  data_BMCUsername : string;
  data_BMCPassword : string
}.

(** A parsed template: literal text and actions, each action with the
    escaper of the place it stands in. *)
Inductive Node : Type :=
| TextNode (text : string)
| ActionNode (pipeline : TemplateData -> string).

(** [htmlTemplate], parsed and escaped: the text as [escapeText] keeps it,
    and each action with the escaper of its context ([htmlEscaper] in
    element text, [jsStrEscaper] in a quoted string of the script,
    [jsValEscaper] in the script itself). *)
Definition htmlTemplate : list Node :=
  [ TextNode escaped0.2;
    ActionNode (fun d => htmlEscaper (data_BMCIP d));
    TextNode escaped1.2;
    ActionNode (fun d => jsStrEscaper (data_BMCIP d));
    TextNode escaped2.2;
    ActionNode (fun d => jsValEscaper_int (data_RPPort d));
    TextNode escaped3.2;
    ActionNode (fun d => jsStrEscaper (data_BMCUsername d));
    TextNode escaped4.2;
    ActionNode (fun d => jsStrEscaper (data_BMCPassword d));
    TextNode escaped5.2 ].

(** [tmpl.Execute(&buf, data)]: the text of the nodes in order. *)
Fixpoint template_Execute (tmpl : list Node) (data : TemplateData) : string :=
  match tmpl with
  | [] => ""
  | TextNode text :: rest => text +:+ template_Execute rest data
  | ActionNode pipeline :: rest => pipeline data +:+ template_Execute rest data
  end.

(** The placeholders of the template source. *)
Definition placeholders : list string :=
  ["{{.BMCIP}}"; "{{.RPPort}}"; "{{.BMCUsername}}"; "{{.BMCPassword}}"].

(** ** Bytes *)

(** An ASCII capital letter, and its small letter. *)
Definition isUpper (c : ascii) : bool :=
  (65 <=? nat_of_ascii c)%nat && (nat_of_ascii c <=? 90)%nat.

Definition lowerByte (c : ascii) : ascii :=
  if isUpper c then ascii_of_nat (nat_of_ascii c + 32) else c.

(** A string with [f] applied to every byte; whether all bytes of a string
    satisfy [p]. *)
Fixpoint mapBytes (f : ascii -> ascii) (s : string) : string :=
  match s with
  | EmptyString => EmptyString
  | String c s' => String (f c) (mapBytes f s')
  end.

Fixpoint allBytes (p : ascii -> bool) (s : string) : bool :=
  match s with
  | EmptyString => true
  | String c s' => p c && allBytes p s'
  end.

(** ** Package [encoding/json], as [GetRPPort] uses it

    [json.NewDecoder(resp.Body).Decode(&result)] for
    [result struct { Port int `json:"port"` }]: the decoder reads the
    first JSON value of the stream whole, checking its syntax, and only
    then stores what fits the struct.  A value of the wrong type for a
    field is an error that is kept for the end while decoding goes on, so
    a field stored before stays stored.  [int] has 64 bits, as on all the
    targets of the Makefile. *)

Module json.

(** A JSON value as the scanner delimits it: numbers as their literal,
    strings and keys as the bytes between the quotes, escapes not yet
    undone. *)
#[warnings="-register-all"] Inductive Value : Type :=
| Null
| Bool (b : bool)
| Number (lit : string)
| Str (raw : string)
| Array (items : list Value)
| Object (members : list (string * Value)).

(** The result of scanning: something scanned and the input left over, an
    input that ends too early, or an input the scanner refuses. *)
Inductive Scan (A : Type) : Type :=
| Done (a : A) (rest : string)
| More
| Bad.
Arguments Done {A} a rest.
Arguments More {A}.
Arguments Bad {A}.

Definition scan_map {A B : Type} (f : A -> B) (r : Scan A) : Scan B :=
  match r with
  | Done a rest => Done (f a) rest
  | More => More
  | Bad => Bad
  end.

(** [isSpace] *)
Definition isSpace (c : ascii) : bool :=
  let n := nat_of_ascii c in
  (n =? 32)%nat || (n =? 9)%nat || (n =? 13)%nat || (n =? 10)%nat.

Fixpoint skipSpace (s : string) : string :=
  match s with
  | EmptyString => EmptyString
  | String c s' => if isSpace c then skipSpace s' else s
  end.

Definition isDigit (c : ascii) : bool :=
  (48 <=? nat_of_ascii c)%nat && (nat_of_ascii c <=? 57)%nat.

Definition isHex (c : ascii) : bool :=
  let n := nat_of_ascii c in
  isDigit c || ((97 <=? n)%nat && (n <=? 102)%nat)
  || ((65 <=? n)%nat && (n <=? 70)%nat).

(** The scanner inside a string ([stateInString], [stateInStringEsc],
    [stateInStringEscU] and its followers): in the text, after a
    backslash, or with [n] more hexadecimal digits to come. *)
Inductive strState : Type :=
| inString
| inStringEsc
| inStringEscU (n : nat).

(** The bytes of a string up to its closing quote; [s] starts after the
    opening quote.  Control bytes and unknown escapes are refused. *)
Fixpoint scanString (st : strState) (s : string) : Scan string :=
  match s with
  | EmptyString => More
  | String c s' =>
      let n := nat_of_ascii c in
      match st with
      | inString =>
          if (n =? 34)%nat then Done EmptyString s'
          else if (n =? 92)%nat
          then scan_map (String c) (scanString inStringEsc s')
          else if (n <? 32)%nat then Bad
          else scan_map (String c) (scanString inString s')
      | inStringEsc =>
          if (n =? 98)%nat || (n =? 102)%nat || (n =? 110)%nat
             || (n =? 114)%nat || (n =? 116)%nat || (n =? 92)%nat
             || (n =? 47)%nat || (n =? 34)%nat
          then scan_map (String c) (scanString inString s')
          else if (n =? 117)%nat
          then scan_map (String c) (scanString (inStringEscU 3) s')
          else Bad
      | inStringEscU k =>
          if isHex c
          then scan_map (String c)
                 (scanString (match k with
                              | O => inString
                              | S k' => inStringEscU k'
                              end) s')
          else Bad
      end
  end.

(** The scanner inside a number: after the minus sign ([stateNeg]), after
    a leading zero ([state0]), in the integer digits ([state1]), after the
    point ([stateDot]), in the fraction ([stateDot0]), after the [e]
    ([stateE]), after its sign ([stateESign]), in the exponent
    ([stateE0]). *)
Inductive numState : Type :=
| stateNeg | state0 | state1 | stateDot | stateDot0 | stateE | stateESign
| stateE0.

Definition numStep (st : numState) (c : ascii) : option numState :=
  let n := nat_of_ascii c in
  let isE := (n =? 101)%nat || (n =? 69)%nat in
  let isDot := (n =? 46)%nat in
  match st with
  | stateNeg =>
      if (n =? 48)%nat then Some state0
      else if isDigit c then Some state1 else None
  | state0 =>
      if isDot then Some stateDot else if isE then Some stateE else None
  | state1 =>
      if isDigit c then Some state1
      else if isDot then Some stateDot else if isE then Some stateE else None
  | stateDot => if isDigit c then Some stateDot0 else None
  | stateDot0 =>
      if isDigit c then Some stateDot0 else if isE then Some stateE else None
  | stateE =>
      if (n =? 43)%nat || (n =? 45)%nat then Some stateESign
      else if isDigit c then Some stateE0 else None
  | stateESign => if isDigit c then Some stateE0 else None
  | stateE0 => if isDigit c then Some stateE0 else None
  end.

(** The states in which a number may end. *)
Definition numEnd (st : numState) : bool :=
  match st with
  | state0 | state1 | stateDot0 | stateE0 => true
  | _ => false
  end.

(** The rest of a number literal; it ends before the first byte that
    cannot go on with it. *)
Fixpoint scanNumber (st : numState) (s : string) : Scan string :=
  match s with
  | EmptyString => if numEnd st then Done EmptyString EmptyString else More
  | String c s' =>
      match numStep st c with
      | Some st' => scan_map (String c) (scanNumber st' s')
      | None => if numEnd st then Done EmptyString s else Bad
      end
  end.

(** The rest of one of the words [true], [false] and [null]. *)
Fixpoint scanWord (word s : string) : Scan unit :=
  match word with
  | EmptyString => Done tt s
  | String w word' =>
      match s with
      | EmptyString => More
      | String c s' => if Ascii.eqb c w then scanWord word' s' else Bad
      end
  end.

(** [maxNestingDepth] *)
Definition maxNestingDepth : N := 10000.

(** The scanner at a value, at the members of an object after its brace
    or a comma, and at the items of an array likewise; [depth] counts the
    objects and arrays that are open.  Each takes as parameters the
    scanners it goes on with. *)
Definition valueStep
    (scanMembers : N -> string -> Scan (list (string * Value)))
    (scanItems : N -> string -> Scan (list Value))
    (depth : N) (s : string) : Scan Value :=
  match skipSpace s with
  | EmptyString => More
  | String c s' =>
      let n := nat_of_ascii c in
      if (n =? 123)%nat then
        if (maxNestingDepth <? depth + 1)%N then Bad
        else
          match skipSpace s' with
          | EmptyString => More
          | String c1 s1 =>
              if (nat_of_ascii c1 =? 125)%nat then Done (Object []) s1
              else scan_map Object (scanMembers (depth + 1)%N (String c1 s1))
          end
      else if (n =? 91)%nat then
        if (maxNestingDepth <? depth + 1)%N then Bad
        else
          match skipSpace s' with
          | EmptyString => More
          | String c1 s1 =>
              if (nat_of_ascii c1 =? 93)%nat then Done (Array []) s1
              else scan_map Array (scanItems (depth + 1)%N (String c1 s1))
          end
      else if (n =? 34)%nat then scan_map Str (scanString inString s')
      else if (n =? 45)%nat
      then scan_map (fun l => Number (String c l)) (scanNumber stateNeg s')
      else if (n =? 48)%nat
      then scan_map (fun l => Number (String c l)) (scanNumber state0 s')
      else if isDigit c
      then scan_map (fun l => Number (String c l)) (scanNumber state1 s')
      else if (n =? 116)%nat
      then scan_map (fun _ => Bool true) (scanWord "rue" s')
      else if (n =? 102)%nat
      then scan_map (fun _ => Bool false) (scanWord "alse" s')
      else if (n =? 110)%nat
      then scan_map (fun _ => Null) (scanWord "ull" s')
      else Bad
  end.

Definition membersStep
    (scanValue : N -> string -> Scan Value)
    (scanMembers : N -> string -> Scan (list (string * Value)))
    (depth : N) (s : string) : Scan (list (string * Value)) :=
  match skipSpace s with
  | EmptyString => More
  | String c s' =>
      if negb (nat_of_ascii c =? 34)%nat then Bad
      else
        match scanString inString s' with
        | Done key s1 =>
            match skipSpace s1 with
            | EmptyString => More
            | String c1 s2 =>
                if negb (nat_of_ascii c1 =? 58)%nat then Bad
                else
                  match scanValue depth s2 with
                  | Done v s3 =>
                      match skipSpace s3 with
                      | EmptyString => More
                      | String c2 s4 =>
                          if (nat_of_ascii c2 =? 125)%nat
                          then Done [(key, v)] s4
                          else if (nat_of_ascii c2 =? 44)%nat
                          then scan_map (cons (key, v)) (scanMembers depth s4)
                          else Bad
                      end
                  | More => More
                  | Bad => Bad
                  end
            end
        | More => More
        | Bad => Bad
        end
  end.

Definition itemsStep
    (scanValue : N -> string -> Scan Value)
    (scanItems : N -> string -> Scan (list Value))
    (depth : N) (s : string) : Scan (list Value) :=
  match scanValue depth s with
  | Done v s1 =>
      match skipSpace s1 with
      | EmptyString => More
      | String c s2 =>
          if (nat_of_ascii c =? 93)%nat then Done [v] s2
          else if (nat_of_ascii c =? 44)%nat
          then scan_map (cons v) (scanItems depth s2)
          else Bad
      end
  | More => More
  | Bad => Bad
  end.

(** The three scanners tied together.  [fuel] bounds how deep they call
    one another; with [2 * length s + 2] it does not run out on [s]
    (lemma [scanValue_fuel]). *)
Fixpoint scanValue (fuel : nat) (depth : N) (s : string) {struct fuel}
  : Scan Value :=
  match fuel with
  | O => Bad
  | S fuel' => valueStep (scanMembers fuel') (scanItems fuel') depth s
  end
with scanMembers (fuel : nat) (depth : N) (s : string) {struct fuel}
  : Scan (list (string * Value)) :=
  match fuel with
  | O => Bad
  | S fuel' => membersStep (scanValue fuel') (scanMembers fuel') depth s
  end
with scanItems (fuel : nat) (depth : N) (s : string) {struct fuel}
  : Scan (list Value) :=
  match fuel with
  | O => Bad
  | S fuel' => itemsStep (scanValue fuel') (scanItems fuel') depth s
  end.

(** Undoing the escapes of a key: in the text, after a backslash, or with
    [n] more hexadecimal digits to read of the code point [acc]. *)
Inductive unquoteState : Type :=
| uqText
| uqEsc
| uqU (n : nat) (acc : nat).

Definition hexValue (c : ascii) : nat :=
  let n := nat_of_ascii c in
  if isDigit c then n - 48
  else if (97 <=? n)%nat then n - 87 else n - 55.

(** The key with its escapes undone ([unquote]), if it holds ASCII bytes
    only.  A key with any other rune is [None]: it matches no field of the
    struct, since Unicode case folding maps no rune outside ASCII to a
    letter of the name [port]. *)
Fixpoint unquoteASCII (st : unquoteState) (raw : string) : option string :=
  match raw with
  | EmptyString => match st with uqText => Some EmptyString | _ => None end
  | String c raw' =>
      let n := nat_of_ascii c in
      match st with
      | uqText =>
          if (n =? 92)%nat then unquoteASCII uqEsc raw'
          else if (n <? 128)%nat
          then String c <$> unquoteASCII uqText raw'
          else None
      | uqEsc =>
          if (n =? 117)%nat then unquoteASCII (uqU 3 0) raw'
          else
            let plain (code : nat) :=
              String (ascii_of_nat code) <$> unquoteASCII uqText raw' in
            if (n =? 98)%nat then plain 8%nat
            else if (n =? 102)%nat then plain 12%nat
            else if (n =? 110)%nat then plain 10%nat
            else if (n =? 114)%nat then plain 13%nat
            else if (n =? 116)%nat then plain 9%nat
            else if (n =? 92)%nat || (n =? 47)%nat || (n =? 34)%nat
            then plain n
            else None
      | uqU k acc =>
          let acc' := (16 * acc + hexValue c)%nat in
          match k with
          | S k' => unquoteASCII (uqU k' acc') raw'
          | O =>
              if (acc' <? 128)%nat
              then String (ascii_of_nat acc') <$> unquoteASCII uqText raw'
              else None
          end
      end
  end.

(** Does the key name the field [Port]: its name [port], letters compared
    without regard to case. *)
Definition isFieldPort (rawKey : string) : bool :=
  bool_decide (mapBytes lowerByte <$> unquoteASCII uqText rawKey = Some "port").

(** The value of a string of decimal digits. *)
Fixpoint digitsValue (acc : Z) (s : string) : option Z :=
  match s with
  | EmptyString => Some acc
  | String c s' =>
      if isDigit c then digitsValue (10 * acc + Z.of_nat (nat_of_ascii c - 48)) s'
      else None
  end.

(** [strconv.ParseInt(s, 10, 64)], [None] for an error. *)
Definition ParseInt64 (s : string) : option Z :=
  let '(neg, digits) :=
    match s with
    | String c s' =>
        if (nat_of_ascii c =? 45)%nat then (true, s')
        else if (nat_of_ascii c =? 43)%nat then (false, s')
        else (false, s)
    | EmptyString => (false, s)
    end in
  match digits with
  | EmptyString => None
  | _ =>
      match digitsValue 0 digits with
      | Some v =>
          let n := if neg then - v else v in
          if (- 2 ^ 63 <=? n) && (n <? 2 ^ 63) then Some n else None
      | None => None
      end
  end.

(** The errors of [Decode]. *)
Inductive DecodeError : Type :=
| SyntaxError
| UnexpectedEOF
| EOF
| ReadError (e : string)
| UnmarshalTypeError (value : string).

(** The struct while it is being filled: [Port] and the first error
    saved. *)
Definition Filling : Type := Z * option DecodeError.

Definition saveError (e : DecodeError) (r : Filling) : Filling :=
  match r.2 with
  | Some _ => r
  | None => (r.1, Some e)
  end.

(** Storing a value in the field [Port int] ([literalStore], [array],
    [object]): an integer literal that fits is stored, [null] changes
    nothing, anything else is a type error. *)
Definition storePort (v : Value) (r : Filling) : Filling :=
  match v with
  | Null => r
  | Number lit =>
      match ParseInt64 lit with
      | Some n => (n, r.2)
      | None => saveError (UnmarshalTypeError ("number " +:+ lit)) r
      end
  | Bool _ => saveError (UnmarshalTypeError "bool") r
  | Str _ => saveError (UnmarshalTypeError "string") r
  | Array _ => saveError (UnmarshalTypeError "array") r
  | Object _ => saveError (UnmarshalTypeError "object") r
  end.

(** [unmarshal] into the struct: the members of an object in their order,
    those with another key skipped; any other value but [null] is a type
    error. *)
Definition unmarshal (v : Value) : Filling :=
  match v with
  | Object members =>
      foldl (fun r m => if isFieldPort m.1 then storePort m.2 r else r)
            (0, None) members
  | Null => (0, None)
  | Number _ => (0, Some (UnmarshalTypeError "number"))
  | Bool _ => (0, Some (UnmarshalTypeError "bool"))
  | Str _ => (0, Some (UnmarshalTypeError "string"))
  | Array _ => (0, Some (UnmarshalTypeError "array"))
  end.

(** Does the value end only where the next byte shows it: a number, a
    word or a string does, an object or an array ends with its bracket. *)
Definition endsLate (v : Value) : bool :=
  match v with
  | Object _ | Array _ => false
  | _ => true
  end.

(** [Decode(&result)] on a stream: [result.Port] afterwards and the error
    returned.  Nothing is stored unless the first value of the stream is
    there whole; what follows that value is not looked at. *)
Definition Decode (b : BodyStream) : Filling :=
  let s := received b in
  match scanValue (2 * String.length s + 2) 0 s with
  | Done v rest =>
      match rest, endsLate v, readErr b with
      | EmptyString, true, Some e => (0, Some (ReadError e))
      | _, _, _ => unmarshal v
      end
  | More =>
      (0, Some match readErr b with
              | Some e => ReadError e
              | None => match skipSpace s with
                        | EmptyString => EOF
                        | _ => UnexpectedEOF
                        end
              end)
  | Bad => (0, Some SyntaxError)
  end.

End json.

(** ** The outside world *)

(** What one call into the world answers.  A [Platform] is a snapshot: two
    calls of a session may be given different ones. *)
Record Platform : Type := {
  (** does [http.NewRequest(method, url, nil)] accept its arguments *)
  http_NewRequest_ok : string -> string -> bool;
  (** the credentials [req.SetBasicAuth] puts after [Basic ] *)
  basicAuth : string -> string -> string;
  (** [client.Do(req)]: a response, or [None] for a transport error *)
  client_Do : ClientRequest -> option Response;
  (** [net.Listen("tcp", "127.0.0.1:0")]: the error, or the port of the
      listener's address *)
  net_Listen0 : string + Z;
  (** the result of [server.Close()] *)
  server_Close : option string;
  (** the error of [getBrowserCommand] or of starting the command it
      returns for this URL and browser preference, if any *)
  browser_Start : string -> bool -> option string
}.

(** [http.NewRequest(method, url, nil)]: no header, no body; an empty method
    means GET. *)
Definition http_NewRequest (pf : Platform) (method url : string)
  : option ClientRequest :=
  if http_NewRequest_ok pf method url
  then Some {| cMethod := if bool_decide (method = "") then "GET" else method;
               cURL := url; cHeader := ∅; cBody := None |}
  else None.

(** An edit of [req.Header]. *)
Definition with_cHeader (f : Header -> Header) (req : ClientRequest)
  : ClientRequest :=
  {| cMethod := cMethod req; cURL := cURL req; cHeader := f (cHeader req);
     cBody := cBody req |}.

(** [req.SetBasicAuth(username, password)] *)
Definition SetBasicAuth (pf : Platform) (username password : string)
    (req : ClientRequest) : ClientRequest :=
  with_cHeader (Header.Set_ "Authorization"
                  ("Basic " +:+ basicAuth pf username password)) req.

(** ** Package [lenovoconsole] *)

(** [ConsoleConfig] *)
Record ConsoleConfig : Type := {
  BMCIP : string;
  Username : string;
  Password : string;
  RPPort : Z;
  UseFirefox : bool;
  ServerPort : Z
}.

(** [*http.Server] as far as the session uses it: the address it was made
    for and whether [Close] was called.  Its [Handler] is the session's
    mux, the same object, not a copy. *)
Record Server : Type := {
  Addr : string;
  inShutdown : bool
}.

(** [Console] *)
Record Console : Type := {
  config : ConsoleConfig;
  serverPort : Z;
  server : option Server;
  consoleHTML : string;
  mux : ServeMux
}.

(** [NewConsole] *)
Definition NewConsole (cfg : ConsoleConfig) : Console :=
  {| config := cfg; serverPort := 0; server := None; consoleHTML := "";
     mux := NewServeMux |}.

(** The port [GetRPPort] falls back to. *)
Definition DefaultRPPort : Z := 3900.

(** [GetRPPort]: the port and the error it returns. *)
Definition GetRPPort (pf : Platform) (bmcIP username password : string)
  : Z * option string :=
  let url := "https://" +:+ bmcIP +:+ "/api/providers/rp_port" in
  match http_NewRequest pf "GET" url with
  | None => (DefaultRPPort, None)
  | Some req =>
      let req := SetBasicAuth pf username password req in
      match client_Do pf req with
      | None => (DefaultRPPort, None)
      | Some resp =>
          let result_Port := (json.Decode (RespBody resp)).1 in
          if 0 <? result_Port then (result_Port, None)
          else (DefaultRPPort, None)
      end
  end.

(** [findAvailablePort] *)
Definition findAvailablePort (pf : Platform) : Z * option string :=
  match net_Listen0 pf with
  | inl err => (0, Some err)
  | inr port => (port, None)
  end.

(** *** Methods of [*Console]: a state and error monad over the session *)

Definition M (A : Type) : Type := Console -> Res A * Console.

#[global] Instance M_ret : MRet M := fun A a c => (Ret a, c).
#[global] Instance M_bind : MBind M := fun A B f m c =>
  match m c with
  | (Ret a, c') => f a c'
  | (Err e, c') => (Err e, c')
  | (Panic msg, c') => (Panic msg, c')
  end.

(** [return fmt.Errorf(...)] *)
Definition fail {A : Type} (e : string) : M A := fun c => (Err e, c).

(** Reading the receiver [c]. *)
Definition get : M Console := fun c => (Ret c, c).

(** [c.config.RPPort = port], [c.serverPort = port],
    [c.consoleHTML = html] *)
Definition set_RPPort (port : Z) : M unit := fun c =>
  (Ret tt,
   {| config := {| BMCIP := BMCIP (config c); Username := Username (config c);
                   Password := Password (config c); RPPort := port;
                   UseFirefox := UseFirefox (config c);
                   ServerPort := ServerPort (config c) |};
      serverPort := serverPort c; server := server c;
      consoleHTML := consoleHTML c; mux := mux c |}).

Definition set_serverPort (port : Z) : M unit := fun c =>
  (Ret tt,
   {| config := config c; serverPort := port; server := server c;
      consoleHTML := consoleHTML c; mux := mux c |}).

Definition set_consoleHTML (html : string) : M unit := fun c =>
  (Ret tt,
   {| config := config c; serverPort := serverPort c; server := server c;
      consoleHTML := html; mux := mux c |}).

(** [c.mux.HandleFunc(pattern, handler)] *)
Definition mux_HandleFunc (pattern : string) (h : HandlerFunc) : M unit :=
  fun c =>
    match HandleFunc pattern h (mux c) with
    | Ret m => (Ret tt,
                {| config := config c; serverPort := serverPort c;
                   server := server c; consoleHTML := consoleHTML c;
                   mux := m |})
    | Err e => (Err e, c)
    | Panic msg => (Panic msg, c)
    end.

(** [generateHTML].  The template is a constant that parses and executes,
    so the two error returns of the source are never taken. *)
Definition generateHTML : M unit :=
  c ← get;
  let data := {| data_BMCIP := BMCIP (config c);
                 data_RPPort := RPPort (config c);
                 data_BMCUsername := Username (config c);
                 data_BMCPassword := Password (config c) |} in
  set_consoleHTML (template_Execute htmlTemplate data).

(** The patterns [setupHandlers] hands to [proxyHandler]. *)
Definition sdkPatterns : list string :=
  [ "/SDK_Pilot4/"; "/offscreenworker.js"; "/mouseworker.js"; "/utility.js";
    "/mediaTypes.js"; "/rphandlers.js"; "/websockethandler.js";
    "/virtualkeyboard.js"; "/mediaworkerhandler.js" ].

(** [setupHandlers] *)
Definition setupHandlers : M unit :=
  mux_HandleFunc "/" H_consoleHandler;;
  mux_HandleFunc "/cert.pem" H_certHandler;;
  mux_HandleFunc "/SDK_Pilot4/" H_proxySDKHandler;;
  mux_HandleFunc "/offscreenworker.js" H_proxySDKHandler;;
  mux_HandleFunc "/mouseworker.js" H_proxySDKHandler;;
  mux_HandleFunc "/utility.js" H_proxySDKHandler;;
  mux_HandleFunc "/mediaTypes.js" H_proxySDKHandler;;
  mux_HandleFunc "/rphandlers.js" H_proxySDKHandler;;
  mux_HandleFunc "/websockethandler.js" H_proxySDKHandler;;
  mux_HandleFunc "/virtualkeyboard.js" H_proxySDKHandler;;
  mux_HandleFunc "/mediaworkerhandler.js" H_proxySDKHandler.

(** [Initialize] *)
Definition Initialize (pf : Platform) : M unit :=
  c ← get;
  (if bool_decide (RPPort (config c) = 0) then
     let '(port, err) := GetRPPort pf (BMCIP (config c)) (Username (config c))
                                   (Password (config c)) in
     match err with
     | Some e => fail ("failed to get RP port: " +:+ e)
     | None => set_RPPort port
     end
   else mret tt);;
  generateHTML;;
  c ← get;
  (if bool_decide (ServerPort (config c) = 0) then
     let '(port, err) := findAvailablePort pf in
     match err with
     | Some e => fail ("failed to find available port: " +:+ e)
     | None => set_serverPort port
     end
   else set_serverPort (ServerPort (config c)));;
  setupHandlers.

(** What a call asks of the system besides its result (what the calls
    print is left out): a goroutine that runs [ListenAndServeTLS] on a new
    server, a sleep, [Close] on the session's server, and the browser part
    of the platform asked to open a URL.  Each is the request made; what
    came of it is for the platform to say. *)
Inductive Effect : Type :=
| GoListenAndServeTLS (addr certFile keyFile : string)
| Sleep (milliseconds : Z)
| CloseServer (addr : string)
| LaunchBrowser (url : string).

(** [Start]: always makes a new server for the session's port, hands it to
    a goroutine that listens and serves, waits and returns nil. *)
Definition Start (c : Console) : Res unit * Console * list Effect :=
  let addr := ":" +:+ Itoa (serverPort c) in
  let srv := {| Addr := addr; inShutdown := false |} in
  (Ret tt,
   {| config := config c; serverPort := serverPort c; server := Some srv;
      consoleHTML := consoleHTML c; mux := mux c |},
   [GoListenAndServeTLS addr "server.crt" "server.key"; Sleep 500]).

(** [Stop] *)
Definition Stop (pf : Platform) (c : Console)
  : Res unit * Console * list Effect :=
  match server c with
  | Some srv =>
      (match server_Close pf with Some e => Err e | None => Ret tt end,
       {| config := config c; serverPort := serverPort c;
          server := Some {| Addr := Addr srv; inShutdown := true |};
          consoleHTML := consoleHTML c; mux := mux c |},
       [CloseServer (Addr srv)])
  | None => (Ret tt, c, [])
  end.

(** [GetURL] *)
Definition GetURL (c : Console) : string :=
  "https://localhost:" +:+ Itoa (serverPort c).

(** [GetPort] *)
Definition GetPort (c : Console) : Z := serverPort c.

(** [OpenInBrowser]; finding a browser for the operating system and
    starting it ([getBrowserCommand], [cmd.Start]) is the platform's part:
    [browser_Start] gives the error either of the two returns, with its
    text, and [LaunchBrowser] records that the platform was asked, not
    that a command was found or started.  [OpenInBrowser_on] further down
    has the two steps apart. *)
Definition OpenInBrowser (pf : Platform) (c : Console)
  : Res unit * Console * list Effect :=
  let consoleURL := GetURL c in
  (match browser_Start pf consoleURL (UseFirefox (config c)) with
   | Some e => Err e
   | None => Ret tt
   end, c, [LaunchBrowser consoleURL]).

(** [LaunchAndOpen] *)
Definition LaunchAndOpen (pf : Platform) (c : Console)
  : Res unit * Console * list Effect :=
  match Initialize pf c with
  | (Ret _, c1) =>
      match Start c1 with
      | (Ret _, c2, eff) =>
          let '(r, c3, eff') := OpenInBrowser pf c2 in (r, c3, eff ++ eff')
      | (r, c2, eff) => (r, c2, eff)
      end
  | (r, c1) => (r, c1, [])
  end.

(** *** The handlers *)

(** [consoleHandler] *)
Definition consoleHandler (c : Console) (w : ResponseWriter) (r : Request)
  : ResponseWriter :=
  let w := ResponseWriter.with_Header (Header.Set_ "Content-Type" "text/html") w in
  ResponseWriter.Write (consoleHTML c) w.

(** [certHandler] *)
Definition certHandler (w : ResponseWriter) (r : Request) : ResponseWriter :=
  let w := ResponseWriter.with_Header (Header.Set_ "Content-Type" "text/html") w in
  ResponseWriter.Write certHTML w.

(** The handler [proxySDKHandler] returns.  Next to the response it gives
    the requests it handed to [client.Do], in order. *)
Definition proxySDKHandler (pf : Platform) (c : Console) (w : ResponseWriter)
    (r : Request) : ResponseWriter * list ClientRequest :=
  let bmcURL := "https://" +:+ BMCIP (config c) +:+ URL_Path r in
  match http_NewRequest pf (Method r) bmcURL with
  | None =>
      (http_Error "Failed to create request" StatusInternalServerError w, [])
  | Some req =>
      let req := with_cHeader (fun h => Header.copy_into h (ReqHeader r)) req in
      match client_Do pf req with
      | None =>
          (http_Error "Failed to fetch from BMC" StatusInternalServerError w,
           [req])
      | Some resp =>
          let w := ResponseWriter.with_Header
                     (fun h => Header.copy_into h (RespHeader resp)) w in
          let w := if HasSuffix (URL_Path r) ".js"
                   then ResponseWriter.with_Header
                          (Header.Set_ "Content-Type" "application/javascript") w
                   else w in
          let w := ResponseWriter.WriteHeader (StatusCode resp) w in
          let '(body, _) := io_ReadAll (RespBody resp) in
          (ResponseWriter.Write body w, [req])
      end
  end.

(** *** Serving a request *)

(** The answer to a request: what a handler of the package wrote, or one of
    the stock answers of [net/http]: a redirect, not found or bad request
    from the mux, or the empty 200 with which the server itself answers
    [OPTIONS *]. *)
Inductive Answer : Type :=
| Handled (w : ResponseWriter)
| Redirect (url : string) (code : Z)
| NotFound
| BadRequest
| GlobalOptions.

(** [h.ServeHTTP(w, r)] for the handler the mux chose, with a fresh [w]; the
    handlers of the package read the session as it is when the request
    comes in. *)
Definition Handler_ServeHTTP (pf : Platform) (c : Console) (r : Request)
    (h : Dispatch) : Answer * list ClientRequest :=
  match h with
  | Serve H_consoleHandler =>
      (Handled (consoleHandler c ResponseWriter.fresh r), [])
  | Serve H_certHandler => (Handled (certHandler ResponseWriter.fresh r), [])
  | Serve H_proxySDKHandler =>
      let '(w, sent) := proxySDKHandler pf c ResponseWriter.fresh r in
      (Handled w, sent)
  | RedirectHandler url code => (Redirect url code, [])
  | NotFoundHandler => (NotFound, [])
  end.

(** [c.mux.ServeHTTP(w, r)]: the request URI [*] (the only one whose path is
    [*]) is a bad request; any other request goes to the handler the mux
    chooses. *)
Definition ServeHTTP (pf : Platform) (c : Console) (r : Request)
  : Answer * list ClientRequest :=
  if bool_decide (URL_Path r = "*") then (BadRequest, [])
  else Handler_ServeHTTP pf c r (mux_Handler (mux c) r).

(** What the session's server, the one the last [Start] made, answers to
    a request it is given: nothing before [Start], and nothing once it has
    been closed.  The server answers [OPTIONS *] itself and hands every
    other request to the mux.  (This is the server of [c.server] only.
    Whether its listener came up, with the certificate files there and
    the port free, is the world's matter; and a server that an earlier
    [Start] made and a later one replaced is not closed by [Stop] and goes
    on answering on its own.) *)
Definition Server_serve (pf : Platform) (c : Console) (r : Request)
  : option (Answer * list ClientRequest) :=
  match server c with
  | Some srv =>
      if inShutdown srv then None
      else if bool_decide (Method r = "OPTIONS") && bool_decide (URL_Path r = "*")
      then Some (GlobalOptions, [])
      else Some (ServeHTTP pf c r)
  | None => None
  end.

(** Is the path one that [setupHandlers] gives to the proxy: below
    [/SDK_Pilot4/], or one of the script names. *)
Definition allowListed (path : string) : bool :=
  existsb (fun pattern =>
             if bool_decide (Strings.last pattern = Some "/"%char)
             then HasPrefix path pattern
             else bool_decide (path = pattern)) sdkPatterns.

(** *** The life of a session *)

(** The calls a user of the package can make on a session. *)
Inductive Call : Type :=
| CallInitialize
| CallStart
| CallStop
| CallOpenInBrowser
| CallLaunchAndOpen.

(** The result of a call and the session it leaves. *)
Definition call (pf : Platform) (op : Call) (c : Console) : Res unit * Console :=
  match op with
  | CallInitialize => Initialize pf c
  | CallStart => (Start c).1
  | CallStop => (Stop pf c).1
  | CallOpenInBrowser => (OpenInBrowser pf c).1
  | CallLaunchAndOpen => (LaunchAndOpen pf c).1
  end.

(** One call, with whatever the world answers, takes the session from [c]
    to [c']. *)
Inductive step : Console -> Console -> Prop :=
| step_call (pf : Platform) (op : Call) (c : Console) :
    step c (call pf op c).2.

(** [c] is a session: [NewConsole] made it and any calls followed. *)
Definition session (c : Console) : Prop :=
  exists cfg : ConsoleConfig, rtc step (NewConsole cfg) c.

(** [c] is a session as a call of [Initialize] that returned nil left it. *)
Definition initialized (c : Console) : Prop :=
  exists (pf : Platform) (c0 : Console),
    session c0 /\ Initialize pf c0 = (Ret tt, c).

(** [c] is an initialized session after any further calls. *)
Definition in_service (c : Console) : Prop :=
  exists c1 : Console, initialized c1 /\ rtc step c1 c.

(** [c] has a server that was not closed. *)
Definition started (c : Console) : Prop :=
  exists srv : Server, server c = Some srv /\ inShutdown srv = false.

(** The mux after [setupHandlers] ran on a new one. *)
Definition installed : ServeMux :=
  {| mux_m :=
       <["/mediaworkerhandler.js" := H_proxySDKHandler]>
      (<["/virtualkeyboard.js" := H_proxySDKHandler]>
      (<["/websockethandler.js" := H_proxySDKHandler]>
      (<["/rphandlers.js" := H_proxySDKHandler]>
      (<["/mediaTypes.js" := H_proxySDKHandler]>
      (<["/utility.js" := H_proxySDKHandler]>
      (<["/mouseworker.js" := H_proxySDKHandler]>
      (<["/offscreenworker.js" := H_proxySDKHandler]>
      (<["/SDK_Pilot4/" := H_proxySDKHandler]>
      (<["/cert.pem" := H_certHandler]>
      (<["/" := H_consoleHandler]> ∅))))))))));
     mux_es := [("/SDK_Pilot4/", H_proxySDKHandler); ("/", H_consoleHandler)] |}.

(** The page of a configuration: what [generateHTML] renders from it. *)
Definition render (cfg : ConsoleConfig) : string :=
  template_Execute htmlTemplate
    {| data_BMCIP := BMCIP cfg; data_RPPort := RPPort cfg;
       data_BMCUsername := Username cfg; data_BMCPassword := Password cfg |}.

(** A session set up to serve: handlers installed, the remote-presence port
    resolved, the page rendered from the configuration. *)
Definition ready (c : Console) : Prop :=
  mux c = installed /\ RPPort (config c) <> 0 /\
  consoleHTML c = render (config c).

(** The configuration after the first block of [Initialize]. *)
Definition resolved (pf : Platform) (cfg : ConsoleConfig) : ConsoleConfig :=
  if bool_decide (RPPort cfg = 0)
  then {| BMCIP := BMCIP cfg; Username := Username cfg;
          Password := Password cfg;
          RPPort := (GetRPPort pf (BMCIP cfg) (Username cfg) (Password cfg)).1;
          UseFirefox := UseFirefox cfg; ServerPort := ServerPort cfg |}
  else cfg.

(** The session when [Initialize] reaches [setupHandlers] together with the
    listen port chosen, or the error of [findAvailablePort]. *)
Definition prepared (pf : Platform) (c : Console) : Res Z * Console :=
  let c1 := {| config := resolved pf (config c); serverPort := serverPort c;
               server := server c;
               consoleHTML := render (resolved pf (config c)); mux := mux c |} in
  if bool_decide (ServerPort (config c) = 0) then
    match net_Listen0 pf with
    | inl e => (Err ("failed to find available port: " +:+ e), c1)
    | inr port => (Ret port, c1)
    end
  else (Ret (ServerPort (config c)), c1).

(** [c] with another mux, with another listen port. *)
Definition with_mux (m : ServeMux) (c : Console) : Console :=
  {| config := config c; serverPort := serverPort c; server := server c;
     consoleHTML := consoleHTML c; mux := m |}.

Definition with_serverPort (port : Z) (c : Console) : Console :=
  {| config := config c; serverPort := port; server := server c;
     consoleHTML := consoleHTML c; mux := mux c |}.

(** What holds of every session: either nothing is installed yet, or the
    session is ready. *)
Definition session_inv (c : Console) : Prop :=
  mux c = NewServeMux \/ ready c.

(** The parts of a session that only [Initialize] writes. *)
Definition same_setup (c c' : Console) : Prop :=
  config c' = config c /\ consoleHTML c' = consoleHTML c /\ mux c' = mux c.

(** *** Vocabulary of the statements *)

(** A request that differs from [r] in its body only. *)
Definition with_ReqBody (body : string) (r : Request) : Request :=
  {| Method := Method r; URL_Path := URL_Path r; ReqHeader := ReqHeader r;
     ReqBody := body |}.

(** A byte that no escaper rewrites and that opens no action: ASCII, not a
    control byte, none of the bytes with a replacement, not an opening
    brace. *)
Definition plainByte (c : ascii) : bool :=
  let n := nat_of_ascii c in
  (n <? 128)%nat && negb (n =? 123)%nat
  && bool_decide (htmlReplacement c = None)
  && bool_decide (jsStrReplacement c = None).

(** A string of plain bytes. *)
Fixpoint plain (s : string) : bool :=
  match s with
  | EmptyString => true
  | String c s' => plainByte c && plain s'
  end.

(** Reading [s] after a byte that was ([true]) or was not ([false]) an
    opening brace: [None] as soon as two opening braces stand in a row,
    else whether the last byte read was one. *)
Fixpoint scanBraces (st : bool) (s : string) : option bool :=
  match s with
  | EmptyString => Some st
  | String c s' =>
      if Ascii.eqb c "{" then (if st then None else scanBraces true s')
      else scanBraces false s'
  end.

(** The body that reports port [n], as a BMC sends it. *)
Definition portBody (n : Z) : string :=
  "{" +:+ Template.dq +:+ "port" +:+ Template.dq +:+ ": " +:+ Itoa n +:+ "}".

(** *** A session in the lab

    The target and credentials of the package's own examples, a BMC that
    answers every request, and the sessions built from them. *)

(** What the BMC of the lab answers: to the question for the
    remote-presence port, and to every other request. *)
Definition lab_rp_answer : Response :=
  {| StatusCode := 200;
     RespHeader := {["Content-Type" := ["application/json"]]};
     RespBody := {| received := portBody 3901; readErr := None |} |}.

Definition lab_answer : Response :=
  {| StatusCode := 200;
     RespHeader := {["Content-Type" := ["text/plain"]]};
     RespBody := {| received := "var RPViewer = {};"; readErr := None |} |}.

Definition lab_client_Do (req : ClientRequest) : option Response :=
  if HasSuffix (cURL req) "/api/providers/rp_port" then Some lab_rp_answer
  else Some lab_answer.

(** The world of the lab: the BMC answers, reports port 3901, and the
    system has a free port. *)
Definition lab_platform : Platform :=
  {| http_NewRequest_ok := fun _ _ => true;
     basicAuth := fun u p => u +:+ ":" +:+ p;
     client_Do := lab_client_Do;
     net_Listen0 := inr 49152;
     server_Close := None;
     browser_Start := fun _ _ => None |}.

(** The configuration of the programmatic example, listen port 8443. *)
Definition lab_config : ConsoleConfig :=
  {| BMCIP := "10.145.127.12"; Username := "USERID"; Password := "PASSW0RD";
     RPPort := 0; UseFirefox := true; ServerPort := 8443 |}.

(** The session after [Initialize], and after [Start]. *)
Definition lab_session : Console :=
  (Initialize lab_platform (NewConsole lab_config)).2.

Definition lab_started : Console := (Start lab_session).1.2.

(** A GET request for a path. *)
Definition GET (path : string) : Request :=
  {| Method := "GET"; URL_Path := path; ReqHeader := {["Accept" := ["*/*"]]};
     ReqBody := "" |}.

(** A BMC that does not answer. *)
Definition unreachable_platform : Platform :=
  {| http_NewRequest_ok := fun _ _ => true;
     basicAuth := fun u p => u +:+ ":" +:+ p;
     client_Do := fun _ => None;
     net_Listen0 := inr 49152;
     server_Close := None;
     browser_Start := fun _ _ => None |}.

(** A BMC that answers every request with the body given. *)
Definition answering (body : string) : Platform :=
  {| http_NewRequest_ok := fun _ _ => true;
     basicAuth := fun u p => u +:+ ":" +:+ p;
     client_Do := fun _ =>
       Some {| StatusCode := 200;
               RespHeader := {["Content-Type" := ["application/json"]]};
               RespBody := {| received := body; readErr := None |} |};
     net_Listen0 := inr 49152;
     server_Close := None;
     browser_Start := fun _ _ => None |}.

(** A body that names the port twice, the second time with a string, and
    a body whose port does not fit 64 bits. *)
Definition mistyped_body : string :=
  "{" +:+ Template.dq +:+ "port" +:+ Template.dq +:+ ":3901,"
  +:+ Template.dq +:+ "Port" +:+ Template.dq +:+ ":"
  +:+ Template.dq +:+ "x" +:+ Template.dq +:+ "}".

Definition overflow_body : string :=
  "{" +:+ Template.dq +:+ "port" +:+ Template.dq +:+ ":9223372036854775808}".

(** A configuration with both ports out of the TCP range. *)
Definition wide_config : ConsoleConfig :=
  {| BMCIP := "10.145.127.12"; Username := "USERID"; Password := "PASSW0RD";
     RPPort := 70000; UseFirefox := false; ServerPort := 70000 |}.

(** A user name with an apostrophe. *)
Definition obrien_config : ConsoleConfig :=
  {| BMCIP := "10.145.127.12"; Username := "O'Brien"; Password := "PASSW0RD";
     RPPort := 0; UseFirefox := true; ServerPort := 8443 |}.

(** The session of that configuration, initialized and started. *)
Definition obrien_started : Console :=
  (Start (Initialize lab_platform (NewConsole obrien_config)).2).1.2.

From Stdlib Require Import DecimalPos DecimalZ.

(** ** Finding and starting a browser

    What these functions ask of the operating system is collected in a
    [System] record. *)

(** [*exec.Cmd] as [exec.Command(name, arg...)] makes it: [Args] holds the
    name and then the arguments.  (The path of the program is the name,
    looked up in PATH when it has no directory part; a lookup that fails
    shows as the error of [Start].) *)
Record Cmd : Type := {
  Args : list string
}.

(** [exec.Command(name, arg...)] *)
Definition exec_Command (name : string) (arg : list string) : Cmd :=
  {| Args := name :: arg |}.

Record System : Type := {
  (** [runtime.GOOS] *)
  GOOS : string;
  (** whether [os.Stat(path)] returns a nil error *)
  os_Stat : string -> bool;
  (** [os.TempDir()] *)
  os_TempDir : string;
  (** the error of [cmd.Start()], if any *)
  cmd_Start : Cmd -> option string
}.

(** The Chrome command; the three functions below write out the same
    argument list. *)
Definition chromeCommand (sys : System) (chromePath url : string) : Cmd :=
  exec_Command chromePath
    [ "--ignore-certificate-errors";
      "--test-type";
      "--allow-insecure-localhost";
      "--disable-popup-blocking";
      "--disable-blink-features=AutomationControlled";
      "--disable-session-crashed-bubble";
      "--disable-infobars";
      "--no-first-run";
      "--no-default-browser-check";
      "--user-data-dir=" +:+ os_TempDir sys +:+ "/chrome-temp-profile";
      url ].

(** The path lists of the three functions, under the names of their local
    variables. *)
Definition windows_firefoxPaths : list string :=
  [ "C:\Program Files\Mozilla Firefox\firefox.exe";
    "C:\Program Files (x86)\Mozilla Firefox\firefox.exe" ].

Definition windows_chromePath : string :=
  "C:\Program Files\Google\Chrome\Application\chrome.exe".

Definition darwin_firefoxPath : string :=
  "/Applications/Firefox.app/Contents/MacOS/firefox".

Definition darwin_chromePath : string :=
  "/Applications/Google Chrome.app/Contents/MacOS/Google Chrome".

Definition linux_firefoxPaths : list string :=
  [ "/usr/bin/firefox"; "/usr/local/bin/firefox"; "/snap/bin/firefox" ].

Definition linux_chromePaths : list string :=
  [ "/usr/bin/google-chrome"; "/usr/bin/google-chrome-stable";
    "/usr/bin/chromium"; "/usr/bin/chromium-browser" ].

(** [getWindowsBrowserCommand]; a loop that returns at the first path
    [os.Stat] accepts is [List.find]. *)
Definition getWindowsBrowserCommand (sys : System) (c : Console) (url : string)
  : Res Cmd :=
  match (if UseFirefox (config c)
         then List.find (os_Stat sys) windows_firefoxPaths else None) with
  | Some ffPath => Ret (exec_Command ffPath [url])
  | None =>
      if os_Stat sys windows_chromePath
      then Ret (chromeCommand sys windows_chromePath url)
      else Ret (exec_Command "rundll32" ["url.dll,FileProtocolHandler"; url])
  end.

(** [getDarwinBrowserCommand] *)
Definition getDarwinBrowserCommand (sys : System) (c : Console) (url : string)
  : Res Cmd :=
  if UseFirefox (config c) && os_Stat sys darwin_firefoxPath
  then Ret (exec_Command darwin_firefoxPath [url])
  else if os_Stat sys darwin_chromePath
  then Ret (chromeCommand sys darwin_chromePath url)
  else Ret (exec_Command "open" [url]).

(** [getLinuxBrowserCommand] *)
Definition getLinuxBrowserCommand (sys : System) (c : Console) (url : string)
  : Res Cmd :=
  match (if UseFirefox (config c)
         then List.find (os_Stat sys) linux_firefoxPaths else None) with
  | Some ffPath => Ret (exec_Command ffPath [url])
  | None =>
      match List.find (os_Stat sys) linux_chromePaths with
      | Some chromePath => Ret (chromeCommand sys chromePath url)
      | None => Ret (exec_Command "xdg-open" [url])
      end
  end.

(** [getBrowserCommand] *)
Definition getBrowserCommand (sys : System) (c : Console) (url : string)
  : Res Cmd :=
  if bool_decide (GOOS sys = "windows") then getWindowsBrowserCommand sys c url
  else if bool_decide (GOOS sys = "darwin") then getDarwinBrowserCommand sys c url
  else if bool_decide (GOOS sys = "linux") then getLinuxBrowserCommand sys c url
  else Err ("unsupported platform: " +:+ GOOS sys).

(** [OpenInBrowser] on a system: its result and the commands it started. *)
Definition OpenInBrowser_on (sys : System) (c : Console)
  : Res unit * list Cmd :=
  let consoleURL := GetURL c in
  match getBrowserCommand sys c consoleURL with
  | Ret cmd =>
      match cmd_Start sys cmd with
      | Some err => (Err ("failed to open browser: " +:+ err), [cmd])
      | None => (Ret tt, [cmd])
      end
  | Err e => (Err e, [])
  | Panic msg => (Panic msg, [])
  end.

(** The platform [pf] on the system [sys]: its browser part is what
    [getBrowserCommand] and [cmd.Start] do on [sys] for a session with the
    given URL and browser preference (all that [getBrowserCommand] reads of
    the session). *)
Definition on_system (sys : System) (pf : Platform) : Platform :=
  {| http_NewRequest_ok := http_NewRequest_ok pf;
     basicAuth := basicAuth pf;
     client_Do := client_Do pf;
     net_Listen0 := net_Listen0 pf;
     server_Close := server_Close pf;
     browser_Start := fun url useFirefox =>
       let c := NewConsole {| BMCIP := ""; Username := ""; Password := "";
                              RPPort := 0; UseFirefox := useFirefox;
                              ServerPort := 0 |} in
       match getBrowserCommand sys c url with
       | Ret cmd =>
           match cmd_Start sys cmd with
           | Some err => Some ("failed to open browser: " +:+ err)
           | None => None
           end
       | Err e => Some e
       | Panic msg => Some msg
       end |}.

(** [LaunchAndOpen] on a system: its result, the session it leaves, what
    [Initialize] and [Start] ask of the platform, and the commands
    [OpenInBrowser] started. *)
Definition LaunchAndOpen_on (sys : System) (pf : Platform) (c : Console)
  : Res unit * Console * list Effect * list Cmd :=
  match Initialize pf c with
  | (Ret _, c1) =>
      match Start c1 with
      | (Ret _, c2, eff) =>
          let '(r, cmds) := OpenInBrowser_on sys c2 in (r, c2, eff, cmds)
      | (r, c2, eff) => (r, c2, eff, [])
      end
  | (r, c1) => (r, c1, [], [])
  end.

(** ** The command [lenovo-console] *)

(** [strings.ToLower(s)]: a string of ASCII bytes is returned as it is
    when it has no capital letter and else with its capital letters
    replaced; any other string goes through [strings.Map(unicode.ToLower,
    s)], here [unicode_map]. *)
Definition strings_ToLower (unicode_map : string -> string) (s : string)
  : string :=
  let isASCII := allBytes (fun c => (nat_of_ascii c <? 128)%nat) s in
  let hasUpper := negb (allBytes (fun c => negb (isUpper c)) s) in
  if isASCII then (if negb hasUpper then s else mapBytes lowerByte s)
  else unicode_map s.

(** How [main] ends: [os.Exit(code)], a panic, or blocked for good in
    [WaitForever] with the session [c] running. *)
Inductive Outcome : Type :=
| Exit (code : Z)
| Panics (msg : string)
| WaitForever (c : Console).

(** [main] of the command, for the arguments [os_Args] (the program name
    first); [pf_lookup] is the world when it asks for the remote-presence
    port, [pf_launch] the world when it launches the console.  What it
    prints is left out, as for the calls of the package. *)
Definition main (unicode_map : string -> string) (pf_lookup pf_launch : Platform)
    (os_Args : list string) : Outcome * list Effect :=
  match os_Args with
  | _ :: bmcIP :: username :: password :: rest =>
      let useFirefox :=
        match rest with
        | arg4 :: _ => bool_decide (strings_ToLower unicode_map arg4 = "firefox")
        | [] => false
        end in
      let '(rpPort, err) := GetRPPort pf_lookup bmcIP username password in
      let rpPort := match err with Some _ => 3900 | None => rpPort end in
      let config := {| BMCIP := bmcIP; Username := username;
                       Password := password; RPPort := rpPort;
                       UseFirefox := useFirefox; ServerPort := 0 |} in
      let console := NewConsole config in
      match LaunchAndOpen pf_launch console with
      | (Ret _, c, eff) => (WaitForever c, eff)
      | (Err _, _, eff) => (Exit 1, eff)
      | (Panic msg, _, eff) => (Panics msg, eff)
      end
  | _ => (Exit 1, [])
  end.

(** *** More vocabulary of the statements *)

(** The paths at which each system is searched for Firefox and for Chrome,
    and the command that opens a URL with the system's default browser. *)
Definition firefoxPaths (goos : string) : list string :=
  if bool_decide (goos = "windows") then windows_firefoxPaths
  else if bool_decide (goos = "darwin") then [darwin_firefoxPath]
  else if bool_decide (goos = "linux") then linux_firefoxPaths
  else [].

Definition chromePaths (goos : string) : list string :=
  if bool_decide (goos = "windows") then [windows_chromePath]
  else if bool_decide (goos = "darwin") then [darwin_chromePath]
  else if bool_decide (goos = "linux") then linux_chromePaths
  else [].

Definition defaultOpener (goos url : string) : Cmd :=
  if bool_decide (goos = "windows")
  then exec_Command "rundll32" ["url.dll,FileProtocolHandler"; url]
  else if bool_decide (goos = "darwin") then exec_Command "open" [url]
  else exec_Command "xdg-open" [url].

(** The systems [getBrowserCommand] knows. *)
Definition supported (goos : string) : bool :=
  bool_decide (goos ∈ ["windows"; "darwin"; "linux"]).

(** What [LaunchAndOpen] on the session [c] has done once [Initialize] and
    [Start] are through: the session [c'] it is left with is in service
    and started, on the configured port or else the one the system handed
    out, and the effects [eff] are the server, the wait and the browser. *)
Definition launched (pf : Platform) (c c' : Console) (eff : list Effect)
  : Prop :=
  in_service c' /\ started c' /\
  (if bool_decide (ServerPort (config c) = 0)
   then net_Listen0 pf = inr (GetPort c')
   else GetPort c' = ServerPort (config c)) /\
  config c' = resolved pf (config c) /\
  eff = [GoListenAndServeTLS (":" +:+ Itoa (GetPort c')) "server.crt"
           "server.key";
         Sleep 500; LaunchBrowser (GetURL c')].

(** The bytes that may not stand as they are in a quoted string of a
    script: the quotes, the angle brackets, the ampersand and the line
    breaks. *)
Definition breaking (c : ascii) : bool :=
  let n := nat_of_ascii c in
  (n =? 10)%nat || (n =? 13)%nat || (n =? 34)%nat || (n =? 38)%nat
  || (n =? 39)%nat || (n =? 60)%nat || (n =? 62)%nat || (n =? 96)%nat.

(** Where a reader of a quoted string of a script stands: in its text,
    after a backslash, or with [n] more hexadecimal digits of a [u] escape
    to come. *)
Inductive jsStrPos : Type :=
| jsPlain
| jsAfterBackslash
| jsInU (n : nat).

(** Can [s] stand between the quotes of a string of a script and stay
    there: every backslash starts one of the escapes [t], [n], [f], [r],
    a slash, a backslash or [u] with four hexadecimal digits, the string
    does not end within an escape, and outside the escapes there is no
    [breaking] byte and no line or paragraph separator. *)
Fixpoint jsStrBody (st : jsStrPos) (s : string) : bool :=
  match s with
  | EmptyString => match st with jsPlain => true | _ => false end
  | String c s' =>
      let n := nat_of_ascii c in
      match st with
      | jsPlain =>
          if (n =? 92)%nat then jsStrBody jsAfterBackslash s'
          else if breaking c || isSeparator s then false
          else jsStrBody jsPlain s'
      | jsAfterBackslash =>
          if (n =? 116)%nat || (n =? 110)%nat || (n =? 102)%nat
             || (n =? 114)%nat || (n =? 47)%nat || (n =? 92)%nat
          then jsStrBody jsPlain s'
          else if (n =? 117)%nat then jsStrBody (jsInU 3) s'
          else false
      | jsInU k =>
          if json.isHex c
          then jsStrBody (match k with O => jsPlain | S k' => jsInU k' end) s'
          else false
      end
  end.

(** The bytes of a number as the script gets it: digits, the minus sign
    and the space. *)
Definition numeric (c : ascii) : bool :=
  let n := nat_of_ascii c in
  json.isDigit c || (n =? 45)%nat || (n =? 32)%nat.

(** The bytes that open or close markup or an attribute value. *)
Definition markup (c : ascii) : bool :=
  let n := nat_of_ascii c in
  (n =? 34)%nat || (n =? 39)%nat || (n =? 60)%nat || (n =? 62)%nat.

(** *** More of the lab *)

(** A Linux machine with Chromium and the snap of Firefox, and a machine
    of a system the package does not know. *)
Definition lab_system : System :=
  {| GOOS := "linux";
     os_Stat := fun path =>
       bool_decide (path ∈ ["/snap/bin/firefox"; "/usr/bin/chromium"]);
     os_TempDir := "/tmp";
     cmd_Start := fun _ => None |}.

Definition freebsd_system : System :=
  {| GOOS := "freebsd"; os_Stat := fun _ => true; os_TempDir := "/tmp";
     cmd_Start := fun _ => None |}.

(** A platform whose system has no free port. *)
Definition busy_platform : Platform :=
  {| http_NewRequest_ok := fun _ _ => true;
     basicAuth := fun u p => u +:+ ":" +:+ p;
     client_Do := lab_client_Do;
     net_Listen0 := inl "listen tcp 127.0.0.1:0: bind: address already in use";
     server_Close := None;
     browser_Start := fun _ _ => None |}.

(** A platform on which no browser starts. *)
Definition headless_platform : Platform :=
  {| http_NewRequest_ok := fun _ _ => true;
     basicAuth := fun u p => u +:+ ":" +:+ p;
     client_Do := lab_client_Do;
     net_Listen0 := inr 49152;
     server_Close := None;
     browser_Start := fun _ _ => Some "failed to open browser: exec: no command" |}.

(** A configuration that leaves the listen port to the system. *)
Definition auto_config : ConsoleConfig :=
  {| BMCIP := "10.145.127.12"; Username := "USERID"; Password := "PASSW0RD";
     RPPort := 0; UseFirefox := false; ServerPort := 0 |}.

(** Its session after [Initialize] in the lab, and a later moment at which
    the system hands out another port. *)
Definition auto_session : Console :=
  (Initialize lab_platform (NewConsole auto_config)).2.

Definition later_platform : Platform :=
  {| http_NewRequest_ok := fun _ _ => true;
     basicAuth := fun u p => u +:+ ":" +:+ p;
     client_Do := lab_client_Do;
     net_Listen0 := inr 49153;
     server_Close := None;
     browser_Start := fun _ _ => None |}.

(** A command line that asks for Firefox, with a capital letter. *)
Definition lab_Args : list string :=
  ["lenovo-console"; "10.145.127.12"; "USERID"; "PASSW0RD"; "Firefox"].

(** The session that command line leaves running in the lab. *)
Definition lab_main_session : Console :=
  (Start (Initialize lab_platform
            (NewConsole {| BMCIP := "10.145.127.12"; Username := "USERID";
                           Password := "PASSW0RD"; RPPort := 3901;
                           UseFirefox := true; ServerPort := 0 |})).2).1.2.

(** A BMC whose answer breaks off while its body is read. *)
Definition broken_answer : Response :=
  {| StatusCode := 200;
     RespHeader := {["Content-Length" := ["4096"]]};
     RespBody := {| received := "var RP"; readErr := Some "unexpected EOF" |} |}.

Definition broken_platform : Platform :=
  {| http_NewRequest_ok := fun _ _ => true;
     basicAuth := fun u p => u +:+ ":" +:+ p;
     client_Do := fun _ => Some broken_answer;
     net_Listen0 := inr 49152;
     server_Close := None;
     browser_Start := fun _ _ => None |}.

(** * Properties *)

(** ** Strings *)

Lemma append_cons (c : ascii) (a b : string) :
  String c a +:+ b = String c (a +:+ b).
Proof. reflexivity. Qed.

Lemma append_nil_l (b : string) : "" +:+ b = b.
Proof. reflexivity. Qed.

Lemma append_assoc (a b c : string) : (a +:+ b) +:+ c = a +:+ (b +:+ c).
Proof. induction a as [|x a IH]; [done|]. by rewrite !append_cons, IH. Qed.

Lemma append_length (a b : string) :
  String.length (a +:+ b) = (String.length a + String.length b)%nat.
Proof. induction a as [|x a IH]; [done|]. rewrite append_cons. cbn. by rewrite IH. Qed.

Lemma append_inj_r (a b s : string) : a +:+ s = b +:+ s -> a = b.
Proof.
  revert b; induction a as [|x a IH]; intros [|y b] H.
  - done.
  - apply (f_equal String.length) in H. rewrite append_nil_l, append_cons in H.
    cbn in H. rewrite append_length in H. lia.
  - apply (f_equal String.length) in H. rewrite append_nil_l, append_cons in H.
    cbn in H. rewrite append_length in H. lia.
  - rewrite !append_cons in H. injection H as -> H. f_equal. by apply IH.
Qed.

Lemma last_append_slash (p : string) : Strings.last (p +:+ "/") = Some "/"%char.
Proof.
  induction p as [|c p IH]; [done|].
  rewrite append_cons. cbn [Strings.last]. rewrite IH.
  by destruct (p +:+ "/").
Qed.

Lemma HasPrefix_app (a b : string) : HasPrefix (a +:+ b) a = true.
Proof.
  induction a as [|c a IH]; [done|].
  rewrite append_cons. cbn [HasPrefix]. by rewrite Ascii.eqb_refl.
Qed.

Lemma HasPrefix_spec (s p : string) :
  HasPrefix s p = true <-> exists t, s = p +:+ t.
Proof.
  revert s; induction p as [|c p IH]; intros s; cbn [HasPrefix].
  - split; [intros _; by exists s | done].
  - destruct s as [|d s].
    { split; [done | intros [t Ht]; rewrite append_cons in Ht; discriminate]. }
    destruct (Ascii.eqb_spec d c) as [->|Hne].
    + rewrite IH. split; intros [t Ht]; exists t;
        rewrite append_cons in *; congruence.
    + split; [done | intros [t Ht]; rewrite append_cons in Ht; congruence].
Qed.

Lemma Contains_app (a s b : string) : Contains (a +:+ s +:+ b) s = true.
Proof.
  induction a as [|c a IH].
  - rewrite append_nil_l.
    destruct (s +:+ b) eqn:E; cbn [Contains]; rewrite <- ?E, HasPrefix_app; done.
  - rewrite append_cons. cbn [Contains]. rewrite IH. by destruct (HasPrefix _ _).
Qed.

Lemma Contains_spec (s t : string) :
  Contains s t = true <-> exists a b, s = a +:+ t +:+ b.
Proof.
  split.
  - induction s as [|c s IH]; cbn [Contains].
    + destruct (HasPrefix "" t) eqn:E; [|done].
      intros _. apply HasPrefix_spec in E as [u Hu]. by exists "", u.
    + destruct (HasPrefix (String c s) t) eqn:E.
      * intros _. apply HasPrefix_spec in E as [u Hu]. by exists "", u.
      * intros H. destruct (IH H) as (a & b & ->). by exists (String c a), b.
  - intros (a & b & ->). apply Contains_app.
Qed.

Example HasSuffix_js : HasSuffix "/SDK_Pilot4/rpimage.js" ".js" = true.
Proof. reflexivity. Qed.

Example HasSuffix_json : HasSuffix "/SDK_Pilot4/rp.json" ".js" = false.
Proof. reflexivity. Qed.

Example cleanPath_dots : cleanPath "/a/./b/../c//d/" = "/a/c/d/".
Proof. reflexivity. Qed.

Example cleanPath_above_root : cleanPath "/../SDK_Pilot4/x.js" = "/SDK_Pilot4/x.js".
Proof. reflexivity. Qed.

Example cleanPath_small :
  cleanPath "" = "/" /\ cleanPath "/" = "/" /\ cleanPath "a" = "/a".
Proof. repeat split. Qed.

Lemma cleanPath_rooted (p : string) : HasPrefix (cleanPath p) "/" = true.
Proof.
  unfold cleanPath. case_bool_decide; [done|].
  set (p' := if HasPrefix p "/" then p else "/" +:+ p).
  assert (HasPrefix p' "/" = true) as Hp'.
  { subst p'. destruct (HasPrefix p "/") eqn:E; [done|apply HasPrefix_app]. }
  unfold path_Clean.
  repeat case_match; [done|rewrite append_assoc|]; apply HasPrefix_app.
Qed.

(** ** Headers *)

Lemma Values_Add (h : Header) (k v k' : string) :
  Header.Values (Header.Add k v h) k' =
  if decide (k = k') then Header.Values h k ++ [v] else Header.Values h k'.
Proof.
  unfold Header.Add, Header.Values at 1. rewrite lookup_insert.
  by case_decide.
Qed.

Lemma Values_Set (h : Header) (k v k' : string) :
  Header.Values (Header.Set_ k v h) k' =
  if decide (k = k') then [v] else Header.Values h k'.
Proof.
  unfold Header.Set_, Header.Values at 1. rewrite lookup_insert.
  by case_decide.
Qed.

Lemma Values_foldl_Add (h : Header) (k : string) (vs : list string) (k' : string) :
  Header.Values (foldl (fun a v => Header.Add k v a) h vs) k' =
  if decide (k = k') then Header.Values h k ++ vs else Header.Values h k'.
Proof.
  revert h; induction vs as [|v vs IH]; intros h; cbn [foldl].
  - case_decide; subst; [by rewrite app_nil_r|done].
  - rewrite IH, !Values_Add. destruct (decide (k = k')) as [->|Hne]; [|done].
    rewrite decide_True by done. by rewrite <- app_assoc.
Qed.

(** Copying into an empty header yields the values of the source, key by
    key, whatever the order the keys are visited in. *)
Lemma Values_copy_into_empty (src : Header) (k : string) :
  Header.Values (Header.copy_into ∅ src) k = Header.Values src k.
Proof.
  unfold Header.copy_into. revert k.
  apply (map_fold_weak_ind (fun r (m : Header) =>
           forall k, Header.Values r k = Header.Values m k)).
  - done.
  - intros i x m r Hi IH k. rewrite Values_foldl_Add.
    unfold Header.Values at 3. rewrite lookup_insert.
    case_decide as E; [|apply IH].
    rewrite IH. unfold Header.Values. by rewrite Hi.
Qed.

(** ** Routing *)

(** Look a path up in a table built by inserting literal patterns: settle
    each pattern in turn. *)
Ltac lookup_chain :=
  repeat (rewrite lookup_insert;
          let E := fresh "E" in
          destruct (decide (_ = _)) as [E|E];
          [try (subst; vm_compute; reflexivity)|]);
  rewrite ?lookup_empty.

Lemma mux_match_installed (p : string) :
  mux_match installed p =
  if bool_decide (p = "/cert.pem") then Some H_certHandler
  else if allowListed p then Some H_proxySDKHandler
  else if HasPrefix p "/" then Some H_consoleHandler
  else None.
Proof.
  unfold mux_match, installed; cbn [mux_m mux_es].
  lookup_chain.
  rewrite bool_decide_eq_false_2 by congruence.
  unfold allowListed, sdkPatterns. cbn [existsb].
  repeat (match goal with
          | |- context [bool_decide (Strings.last ?s = Some "/"%char)] =>
              let b := eval vm_compute in (bool_decide (Strings.last s = Some "/"%char)) in
              change (bool_decide (Strings.last s = Some "/"%char)) with b
          end; cbv iota).
  rewrite !(bool_decide_eq_false_2 (p = _)) by congruence.
  cbn [List.find fst snd fmap option_fmap option_map orb].
  destruct (HasPrefix p "/SDK_Pilot4/"); [done|].
  by destruct (HasPrefix p "/").
Qed.

Lemma append_slash_ne (p s : string) :
  Strings.last s <> Some "/"%char -> s <> p +:+ "/".
Proof. intros H ->. by rewrite last_append_slash in H. Qed.

Lemma shouldRedirect_installed (p : string) :
  shouldRedirect installed p = bool_decide (p = "/SDK_Pilot4").
Proof.
  destruct (decide (p = "/SDK_Pilot4")) as [->|Hne]; [by vm_compute|].
  rewrite bool_decide_eq_false_2 by done.
  unfold shouldRedirect.
  destruct (mux_m installed !! p); [done|]. case_bool_decide as Hp; [done|].
  assert (mux_m installed !! (p +:+ "/") = None) as ->; [|done].
  unfold installed; cbn [mux_m].
  repeat (rewrite lookup_insert_ne;
          [|first [ apply append_slash_ne; vm_compute; congruence
                  | intros H; apply (append_inj_r "/SDK_Pilot4" p "/") in H; congruence
                  | intros H; apply (append_inj_r "" p "/") in H; congruence ]]).
  apply lookup_empty.
Qed.

(** What the installed mux decides for a request. *)
Lemma mux_Handler_installed (r : Request) :
  mux_Handler installed r =
  let p := if bool_decide (Method r = "CONNECT") then URL_Path r
           else cleanPath (URL_Path r) in
  if bool_decide (p = "/SDK_Pilot4")
  then RedirectHandler (p +:+ "/") StatusMovedPermanently
  else if negb (bool_decide (p = URL_Path r))
  then RedirectHandler p StatusMovedPermanently
  else mux_handler installed (URL_Path r).
Proof.
  unfold mux_Handler. rewrite !shouldRedirect_installed.
  case_bool_decide; cbn zeta; [|done].
  case_bool_decide; [done|]. by rewrite bool_decide_eq_true_2.
Qed.

Lemma mux_handler_installed (p : string) :
  mux_handler installed p =
  if bool_decide (p = "/cert.pem") then Serve H_certHandler
  else if allowListed p then Serve H_proxySDKHandler
  else if HasPrefix p "/" then Serve H_consoleHandler
  else NotFoundHandler.
Proof.
  unfold mux_handler. rewrite mux_match_installed.
  destruct (bool_decide (p = "/cert.pem")); [done|].
  destruct (allowListed p); [done|]. by destruct (HasPrefix p "/").
Qed.

(** The proxy is reached by allow-listed paths only. *)
Lemma proxy_only_allowListed (r : Request) :
  mux_Handler installed r = Serve H_proxySDKHandler ->
  allowListed (URL_Path r) = true.
Proof.
  rewrite mux_Handler_installed. cbn zeta.
  destruct (bool_decide (_ = "/SDK_Pilot4")); [discriminate|].
  destruct (negb _); [discriminate|].
  rewrite mux_handler_installed.
  destruct (bool_decide (URL_Path r = "/cert.pem")); [discriminate|].
  destruct (allowListed (URL_Path r)); [done|].
  by destruct (HasPrefix (URL_Path r) "/").
Qed.

(** A path in canonical form goes to the handler of its pattern. *)
Lemma canonical_dispatch (r : Request) :
  cleanPath (URL_Path r) = URL_Path r ->
  URL_Path r <> "/SDK_Pilot4" ->
  mux_Handler installed r =
  if bool_decide (URL_Path r = "/cert.pem") then Serve H_certHandler
  else if allowListed (URL_Path r) then Serve H_proxySDKHandler
  else Serve H_consoleHandler.
Proof.
  intros Hc Hne. rewrite mux_Handler_installed, Hc. cbn zeta.
  assert ((if bool_decide (Method r = "CONNECT") then URL_Path r else URL_Path r)
          = URL_Path r) as -> by (by case_match).
  rewrite bool_decide_eq_false_2, bool_decide_eq_true_2 by done. cbn [negb].
  rewrite mux_handler_installed.
  pose proof (cleanPath_rooted (URL_Path r)) as Hr. rewrite Hc in Hr.
  by rewrite Hr.
Qed.

Lemma canonical_not_star (p : string) : cleanPath p = p -> p <> "*".
Proof.
  intros Hc ->. pose proof (cleanPath_rooted "*") as H.
  rewrite Hc in H. discriminate.
Qed.

(** An allow-listed path is neither [/cert.pem], nor [/SDK_Pilot4], nor [*]. *)
Lemma allowListed_not_cert (p : string) :
  allowListed p = true -> p <> "/cert.pem" /\ p <> "/SDK_Pilot4" /\ p <> "*".
Proof. intros H. repeat split; intros ->; vm_compute in H; discriminate. Qed.

(** The requests the mux hands to the proxy are those for an allow-listed
    path that it takes as it is: a path in canonical form, or any path of a
    CONNECT request. *)
Lemma proxied_iff (r : Request) :
  mux_Handler installed r = Serve H_proxySDKHandler <->
  allowListed (URL_Path r) = true /\
  (Method r = "CONNECT" \/ cleanPath (URL_Path r) = URL_Path r).
Proof.
  split.
  - intros H. split; [by apply proxy_only_allowListed|].
    rewrite mux_Handler_installed in H. cbn zeta in H.
    destruct (decide (Method r = "CONNECT")) as [|Hm]; [by left|right].
    rewrite (bool_decide_eq_false_2 (Method r = "CONNECT")) in H by done.
    destruct (bool_decide (_ = "/SDK_Pilot4")); [discriminate|].
    by case_bool_decide.
  - intros [Hal Hm]. destruct (allowListed_not_cert _ Hal) as (Hcert & Hsdk & _).
    rewrite mux_Handler_installed. cbn zeta.
    assert ((if bool_decide (Method r = "CONNECT") then URL_Path r
             else cleanPath (URL_Path r)) = URL_Path r) as ->.
    { case_bool_decide; [done|]. by destruct Hm. }
    rewrite bool_decide_eq_false_2, bool_decide_eq_true_2 by done. cbn [negb].
    rewrite mux_handler_installed.
    by rewrite bool_decide_eq_false_2, Hal.
Qed.
(** ** The remote-presence port lookup *)

Lemma GetRPPort_no_error pf ip u p : (GetRPPort pf ip u p).2 = None.
Proof.
  unfold GetRPPort.
  destruct (http_NewRequest _ _ _); [|done].
  destruct (client_Do _ _); [|done].
  by destruct (0 <? _).
Qed.

Lemma GetRPPort_positive pf ip u p : 0 < (GetRPPort pf ip u p).1.
Proof.
  unfold GetRPPort, DefaultRPPort.
  destruct (http_NewRequest _ _ _); [|simpl; lia].
  destruct (client_Do _ _); [|simpl; lia].
  destruct (0 <? _) eqn:E; simpl; [|lia].
  by apply Z.ltb_lt.
Qed.

Lemma resolved_RPPort_nonzero pf cfg : RPPort (resolved pf cfg) <> 0.
Proof.
  unfold resolved. case_bool_decide as H; [|done].
  cbn [RPPort]. pose proof (GetRPPort_positive pf (BMCIP cfg) (Username cfg) (Password cfg)). lia.
Qed.

Lemma resolved_idem pf pf' cfg : resolved pf' (resolved pf cfg) = resolved pf cfg.
Proof.
  unfold resolved at 1. rewrite bool_decide_eq_false_2; [done|].
  apply resolved_RPPort_nonzero.
Qed.

Lemma resolved_fixed pf cfg : RPPort cfg <> 0 -> resolved pf cfg = cfg.
Proof. intros H. unfold resolved. by rewrite bool_decide_eq_false_2. Qed.

(** ** [Initialize], step by step *)

Lemma Initialize_unfold pf c :
  Initialize pf c =
  match prepared pf c with
  | (Ret port, c1) => setupHandlers (with_serverPort port c1)
  | (Err e, c1) => (Err e, c1)
  | (Panic msg, c1) => (Panic msg, c1)
  end.
Proof.
  unfold Initialize, prepared, resolved, generateHTML, render, with_serverPort.
  unfold mbind, M_bind, get, mret, M_ret, set_RPPort, set_consoleHTML, fail,
    set_serverPort, findAvailablePort.
  destruct c as [cfg sp srv html m]; cbn [config serverPort server consoleHTML mux].
  pose proof (GetRPPort_no_error pf (BMCIP cfg) (Username cfg) (Password cfg)) as Hn.
  destruct (GetRPPort pf (BMCIP cfg) (Username cfg) (Password cfg)) as [port err].
  cbn [fst snd] in *; subst err.
  destruct cfg as [ip u p rp ff lp];
    cbn [BMCIP Username Password RPPort UseFirefox ServerPort].
  destruct (bool_decide (rp = 0)); cbn [ServerPort config RPPort BMCIP Username Password];
    destruct (bool_decide (lp = 0)); try destruct (net_Listen0 pf); reflexivity.
Qed.

(** [setupHandlers] touches the mux only. *)
Lemma mux_HandleFunc_frame pattern h c :
  exists m, (mux_HandleFunc pattern h c).2 = with_mux m c.
Proof.
  unfold mux_HandleFunc. destruct (HandleFunc pattern h (mux c)); cbn [snd].
  - by eexists.
  - exists (mux c). by destruct c.
  - exists (mux c). by destruct c.
Qed.

Lemma bind_frame (m1 : M unit) (m2 : M unit) c :
  (forall c, exists m, (m1 c).2 = with_mux m c) ->
  (forall c, exists m, (m2 c).2 = with_mux m c) ->
  exists m, ((m1;; m2) c).2 = with_mux m c.
Proof.
  intros H1 H2. unfold mbind, M_bind.
  destruct (H1 c) as [ma Ha]. destruct (m1 c) as [[[]|e|msg] c1]; cbn [snd] in *; subst c1.
  - destruct (H2 (with_mux ma c)) as [mb Hb]. rewrite Hb. by exists mb.
  - by exists ma.
  - by exists ma.
Qed.

Lemma setupHandlers_frame c : exists m, (setupHandlers c).2 = with_mux m c.
Proof.
  unfold setupHandlers.
  repeat (apply bind_frame; [intros; apply mux_HandleFunc_frame|intros]).
  apply mux_HandleFunc_frame.
Qed.

Lemma setupHandlers_new c :
  mux c = NewServeMux -> setupHandlers c = (Ret tt, with_mux installed c).
Proof.
  destruct c as [cfg sp srv html m]; cbn [mux]; intros ->.
  vm_compute. reflexivity.
Qed.

Lemma setupHandlers_installed c :
  mux c = installed ->
  setupHandlers c = (Panic "http: multiple registrations for /", c).
Proof.
  destruct c as [cfg sp srv html m]; cbn [mux]; intros ->.
  vm_compute. reflexivity.
Qed.

(** ** The life of a session *)

Lemma prepared_setup pf c :
  let c1 := (prepared pf c).2 in
  config c1 = resolved pf (config c) /\
  consoleHTML c1 = render (resolved pf (config c)) /\
  mux c1 = mux c /\ server c1 = server c.
Proof.
  unfold prepared. case_bool_decide; [destruct (net_Listen0 pf)|]; done.
Qed.

Lemma Initialize_new pf c :
  mux c = NewServeMux ->
  Initialize pf c =
  match prepared pf c with
  | (Ret port, c1) => (Ret tt, with_mux installed (with_serverPort port c1))
  | (Err e, c1) => (Err e, c1)
  | (Panic msg, c1) => (Panic msg, c1)
  end.
Proof.
  intros Hm. rewrite Initialize_unfold.
  pose proof (prepared_setup pf c) as (_ & _ & Hmux & _).
  destruct (prepared pf c) as [[port|e|msg] c1]; [|done..].
  apply setupHandlers_new. cbn [snd] in Hmux. by rewrite <- Hm.
Qed.

Lemma Initialize_installed pf c :
  mux c = installed ->
  Initialize pf c =
  match prepared pf c with
  | (Ret port, c1) =>
      (Panic "http: multiple registrations for /", with_serverPort port c1)
  | (Err e, c1) => (Err e, c1)
  | (Panic msg, c1) => (Panic msg, c1)
  end.
Proof.
  intros Hm. rewrite Initialize_unfold.
  pose proof (prepared_setup pf c) as (_ & _ & Hmux & _).
  destruct (prepared pf c) as [[port|e|msg] c1]; [|done..].
  apply setupHandlers_installed. cbn [snd] in Hmux. by rewrite <- Hm.
Qed.

(** After [Initialize], however it ends, the configuration is resolved and
    the page is the one rendered from it. *)
Lemma Initialize_setup pf c :
  let c' := (Initialize pf c).2 in
  config c' = resolved pf (config c) /\
  consoleHTML c' = render (resolved pf (config c)) /\
  server c' = server c.
Proof.
  rewrite Initialize_unfold.
  pose proof (prepared_setup pf c) as (Hc & Hh & _ & Hs).
  destruct (prepared pf c) as [[port|e|msg] c1]; cbn [snd] in *; [|done..].
  destruct (setupHandlers_frame (with_serverPort port c1)) as [m ->].
  done.
Qed.

Lemma Initialize_Ret_ready pf c c' :
  session_inv c -> Initialize pf c = (Ret tt, c') -> ready c'.
Proof.
  intros [Hnew|(Hm & _)] Hi.
  - pose proof (Initialize_setup pf c) as (Hc & Hh & _).
    rewrite Hi in Hc, Hh. cbn [snd] in *.
    rewrite Initialize_new in Hi by done.
    repeat split.
    + destruct (prepared pf c) as [[port|e|msg] c1]; [|done..].
      by injection Hi as <-.
    + rewrite Hc. apply resolved_RPPort_nonzero.
    + by rewrite Hc, Hh.
  - rewrite Initialize_installed in Hi by done.
    by destruct (prepared pf c) as [[port|e|msg] c1].
Qed.

Lemma Initialize_ready pf c :
  ready c -> same_setup c (Initialize pf c).2.
Proof.
  intros (Hm & Hrp & Hh).
  pose proof (Initialize_setup pf c) as (Hc & Hh' & _).
  rewrite resolved_fixed in Hc, Hh' by done.
  repeat split; [done|congruence|].
  rewrite Initialize_installed by done.
  pose proof (prepared_setup pf c) as (_ & _ & Hmux & _).
  by destruct (prepared pf c) as [[port|e|msg] c1].
Qed.

Lemma same_setup_refl c : same_setup c c.
Proof. done. Qed.

Lemma same_setup_trans c1 c2 c3 :
  same_setup c1 c2 -> same_setup c2 c3 -> same_setup c1 c3.
Proof. unfold same_setup. intros (-> & -> & ->) (-> & -> & ->). done. Qed.

Lemma same_setup_ready c c' : same_setup c c' -> ready c -> ready c'.
Proof. unfold same_setup, ready. intros (-> & -> & ->). done. Qed.

Lemma Start_setup c : same_setup c (Start c).1.2.
Proof. done. Qed.

Lemma Stop_setup pf c : same_setup c (Stop pf c).1.2.
Proof. unfold Stop. by destruct (server c). Qed.

Lemma OpenInBrowser_setup pf c : same_setup c (OpenInBrowser pf c).1.2.
Proof. done. Qed.

Lemma LaunchAndOpen_state pf c :
  (LaunchAndOpen pf c).1.2 = (Initialize pf c).2 \/
  ((Initialize pf c).1 = Ret tt /\
   (LaunchAndOpen pf c).1.2 = (Start (Initialize pf c).2).1.2).
Proof.
  unfold LaunchAndOpen.
  destruct (Initialize pf c) as [[[]|e|msg] c1]; cbn; auto.
Qed.

Lemma step_ready c c' : ready c -> step c c' -> same_setup c c'.
Proof.
  intros Hr Hs. destruct Hs as [pf op c].
  destruct op; cbn [call].
  - by apply Initialize_ready.
  - apply Start_setup.
  - apply Stop_setup.
  - apply OpenInBrowser_setup.
  - destruct (LaunchAndOpen_state pf c) as [->|[_ ->]].
    + by apply Initialize_ready.
    + eapply same_setup_trans; [by apply Initialize_ready|apply Start_setup].
Qed.

Lemma rtc_ready c c' : ready c -> rtc step c c' -> same_setup c c'.
Proof.
  intros Hr Hs. induction Hs as [c|c1 c2 c3 H12 H23 IH]; [done|].
  pose proof (step_ready _ _ Hr H12) as H.
  eapply same_setup_trans; [done|]. apply IH. by eapply same_setup_ready.
Qed.

Lemma same_setup_new c c' :
  same_setup c c' -> mux c = NewServeMux -> mux c' = NewServeMux.
Proof. intros (_ & _ & ->). done. Qed.

Lemma Initialize_session_inv pf c :
  session_inv c -> session_inv (Initialize pf c).2.
Proof.
  intros [Hnew|Hr].
  - rewrite Initialize_new by done.
    pose proof (prepared_setup pf c) as (Hc & Hh & Hmux & _).
    destruct (prepared pf c) as [[port|e|msg] c1]; cbn [snd] in *.
    + right. repeat split; cbn [config consoleHTML with_mux with_serverPort].
      * rewrite Hc. apply resolved_RPPort_nonzero.
      * by rewrite Hc, Hh.
    + left. congruence.
    + left. congruence.
  - right. eapply same_setup_ready; [by apply Initialize_ready|done].
Qed.

Lemma same_setup_session_inv c c' :
  same_setup c c' -> session_inv c -> session_inv c'.
Proof.
  intros Hs [Hn|Hr]; [left; by eapply same_setup_new|right; by eapply same_setup_ready].
Qed.

Lemma step_session_inv c c' : session_inv c -> step c c' -> session_inv c'.
Proof.
  intros Hinv Hs. destruct Hs as [pf op c].
  destruct op; cbn [call].
  - by apply Initialize_session_inv.
  - by eapply same_setup_session_inv; [apply Start_setup|].
  - by eapply same_setup_session_inv; [apply Stop_setup|].
  - done.
  - destruct (LaunchAndOpen_state pf c) as [->|[_ ->]].
    + by apply Initialize_session_inv.
    + eapply same_setup_session_inv; [apply Start_setup|].
      by apply Initialize_session_inv.
Qed.

Lemma rtc_session_inv c c' :
  session_inv c -> rtc step c c' -> session_inv c'.
Proof.
  intros H0 Hs. induction Hs as [c|c1 c2 c3 H12 H23 IH]; [done|].
  apply IH. by eapply step_session_inv.
Qed.

Lemma session_session_inv c : session c -> session_inv c.
Proof.
  intros [cfg Hs]. eapply rtc_session_inv; [|done]. by left.
Qed.

Lemma initialized_ready c : initialized c -> ready c.
Proof.
  intros (pf & c0 & Hs & Hi).
  eapply Initialize_Ret_ready; [by apply session_session_inv|done].
Qed.

Lemma in_service_ready c : in_service c -> ready c.
Proof.
  intros (c1 & H1 & Hs). apply initialized_ready in H1.
  eapply same_setup_ready; [by apply rtc_ready|done].
Qed.

(** ** The session in the lab *)

Lemma lab_Initialize :
  Initialize lab_platform (NewConsole lab_config) = (Ret tt, lab_session).
Proof. by vm_compute. Qed.

Lemma lab_session_initialized : initialized lab_session.
Proof.
  exists lab_platform, (NewConsole lab_config). split; [|apply lab_Initialize].
  by exists lab_config.
Qed.

Lemma lab_started_in_service : in_service lab_started.
Proof.
  exists lab_session. split; [apply lab_session_initialized|].
  apply rtc_once. exact (step_call lab_platform CallStart lab_session).
Qed.

Lemma lab_started_started : started lab_started.
Proof. by eexists. Qed.

(** ** Stop and Start *)

(** C8. [Stop] on a session that was never started (its server is nil)
    returns nil, leaves the session as it is and closes nothing. *)
Theorem Stop_never_started (pf : Platform) (c : Console) :
  server c = None -> Stop pf c = (Ret tt, c, []).
Proof. intros H. unfold Stop. by rewrite H. Qed.

Lemma Stop_never_started_witness :
  server (NewConsole lab_config) = None /\
  Stop lab_platform (NewConsole lab_config) = (Ret tt, NewConsole lab_config, []).
Proof.
  split; [reflexivity|].
  apply (Stop_never_started lab_platform (NewConsole lab_config)). reflexivity.
Defined.

(** C4, as the code has it. [Start] on a session that already has a server
    is not rejected: it returns nil like every call of [Start], puts a new
    server for the same port in place of the old one, and hands it to
    another goroutine that tries to listen on that port; the rest of the
    session is untouched. *)
Theorem Start_again_returns_nil (c : Console) (srv : Server) :
  server c = Some srv ->
  (Start c).1.1 = Ret tt /\
  server (Start c).1.2 =
    Some {| Addr := ":" +:+ Itoa (serverPort c); inShutdown := false |} /\
  (Start c).2 =
    [GoListenAndServeTLS (":" +:+ Itoa (serverPort c)) "server.crt" "server.key";
     Sleep 500] /\
  same_setup c (Start c).1.2 /\ serverPort (Start c).1.2 = serverPort c.
Proof. intros _. repeat split. Qed.

Lemma Start_again_returns_nil_witness :
  server lab_started = Some {| Addr := ":8443"; inShutdown := false |} /\
  (Start lab_started).1.1 = Ret tt.
Proof.
  split; [by vm_compute|].
  apply (Start_again_returns_nil lab_started
           {| Addr := ":8443"; inShutdown := false |}).
  by vm_compute.
Defined.

(** C4 as stated fails: the second [Start] of a started session returns nil,
    not an error. *)
Lemma second_Start_not_rejected :
  started lab_started /\ (Start lab_started).1.1 = Ret tt.
Proof. split; [apply lab_started_started|reflexivity]. Qed.

(** ** The ports after [Initialize] *)

Lemma resolved_ServerPort pf cfg : ServerPort (resolved pf cfg) = ServerPort cfg.
Proof. unfold resolved. by case_bool_decide. Qed.

Lemma Initialize_ports (pf : Platform) (c c' : Console) :
  Initialize pf c = (Ret tt, c') ->
  RPPort (config c') = RPPort (resolved pf (config c)) /\
  (if bool_decide (ServerPort (config c) = 0)
   then net_Listen0 pf = inr (serverPort c')
   else serverPort c' = ServerPort (config c)).
Proof.
  intros Hi. pose proof (Initialize_setup pf c) as (Hc & _).
  rewrite Hi in Hc; cbn [snd] in Hc. split; [by rewrite Hc|].
  rewrite Initialize_unfold in Hi. unfold prepared in Hi.
  case_bool_decide.
  - destruct (net_Listen0 pf) as [e|port]; [discriminate|].
    destruct (setupHandlers_frame
                (with_serverPort port
                   {| config := resolved pf (config c); serverPort := serverPort c;
                      server := server c;
                      consoleHTML := render (resolved pf (config c));
                      mux := mux c |})) as [m Hm].
    rewrite Hi in Hm. cbn [snd] in Hm. by rewrite Hm.
  - destruct (setupHandlers_frame
                (with_serverPort (ServerPort (config c))
                   {| config := resolved pf (config c); serverPort := serverPort c;
                      server := server c;
                      consoleHTML := render (resolved pf (config c));
                      mux := mux c |})) as [m Hm].
    rewrite Hi in Hm. cbn [snd] in Hm. by rewrite Hm.
Qed.

(** An explicit listen port is what [Initialize] leaves in [serverPort],
    however the call ends. *)
Lemma Initialize_explicit_port (pf : Platform) (c : Console) :
  ServerPort (config c) <> 0 ->
  serverPort (Initialize pf c).2 = ServerPort (config c).
Proof.
  intros H. rewrite Initialize_unfold. unfold prepared.
  rewrite bool_decide_eq_false_2 by done.
  match goal with |- context [setupHandlers ?x] =>
    destruct (setupHandlers_frame x) as [m ->] end.
  done.
Qed.

(** The explicit listen port stays in place under every call. *)
Lemma step_explicit_port (c c' : Console) :
  ServerPort (config c) <> 0 -> serverPort c = ServerPort (config c) ->
  step c c' ->
  ServerPort (config c') = ServerPort (config c) /\
  serverPort c' = ServerPort (config c).
Proof.
  intros Hne Hp Hs. destruct Hs as [pf op c].
  assert (ServerPort (config (Initialize pf c).2) = ServerPort (config c)) as Hcfg.
  { pose proof (Initialize_setup pf c) as (-> & _). apply resolved_ServerPort. }
  destruct op; cbn [call].
  - split; [done|by apply Initialize_explicit_port].
  - done.
  - unfold Stop. by destruct (server c).
  - done.
  - destruct (LaunchAndOpen_state pf c) as [->|[_ ->]].
    + split; [done|by apply Initialize_explicit_port].
    + cbn. split; [done|by apply Initialize_explicit_port].
Qed.

Lemma rtc_explicit_port (c c' : Console) :
  ServerPort (config c) <> 0 -> serverPort c = ServerPort (config c) ->
  rtc step c c' -> serverPort c' = ServerPort (config c).
Proof.
  intros Hne Hp Hs. induction Hs as [c|c1 c2 c3 H12 H23 IH]; [done|].
  destruct (step_explicit_port _ _ Hne Hp H12) as [Hc H2].
  rewrite <- Hc. apply IH; congruence.
Qed.

(** C7. With an explicit (non-zero) listen port in the configuration,
    [GetPort] after a successful [Initialize] returns that port, right
    after the call and after any further calls on the session. *)
Theorem GetPort_explicit (pf : Platform) (c c' c'' : Console) :
  ServerPort (config c) <> 0 ->
  Initialize pf c = (Ret tt, c') ->
  rtc step c' c'' ->
  GetPort c' = ServerPort (config c) /\ GetPort c'' = ServerPort (config c).
Proof.
  intros Hne Hi Hs. unfold GetPort.
  pose proof (Initialize_explicit_port pf c Hne) as Hp.
  pose proof (Initialize_setup pf c) as (Hc & _).
  rewrite Hi in Hp, Hc; cbn [snd] in Hp, Hc.
  assert (ServerPort (config c') = ServerPort (config c)) as Hcfg
    by (rewrite Hc; apply resolved_ServerPort).
  split; [done|]. rewrite <- Hcfg.
  apply rtc_explicit_port; congruence.
Qed.

Lemma GetPort_explicit_witness :
  ServerPort (config (NewConsole lab_config)) <> 0 /\
  Initialize lab_platform (NewConsole lab_config) = (Ret tt, lab_session) /\
  rtc step lab_session lab_started /\
  GetPort lab_session = 8443 /\ GetPort lab_started = 8443.
Proof.
  assert (rtc step lab_session lab_started) as Hs.
  { apply rtc_once. exact (step_call lab_platform CallStart lab_session). }
  split; [by vm_compute|]. split; [apply lab_Initialize|]. split; [exact Hs|].
  apply (GetPort_explicit lab_platform (NewConsole lab_config) lab_session
           lab_started); [by vm_compute|apply lab_Initialize|exact Hs].
Defined.

(** C5, as the code has it. [Initialize] checks no range: it keeps explicit
    ports as given. After a successful call both port fields are in
    [1, 65535] provided each explicitly configured port is, the port looked
    up from the BMC (used when the remote-presence port was unset) is at
    most 65535, and the port the system assigned (used when the listen port
    was unset) is in that range. *)
Theorem ports_in_range_after_Initialize (pf : Platform) (c c' : Console) :
  Initialize pf c = (Ret tt, c') ->
  (RPPort (config c) = 0 \/ 1 <= RPPort (config c) <= 65535) ->
  (RPPort (config c) = 0 ->
   (GetRPPort pf (BMCIP (config c)) (Username (config c))
      (Password (config c))).1 <= 65535) ->
  (ServerPort (config c) = 0 \/ 1 <= ServerPort (config c) <= 65535) ->
  (forall port, ServerPort (config c) = 0 -> net_Listen0 pf = inr port ->
                1 <= port <= 65535) ->
  1 <= RPPort (config c') <= 65535 /\ 1 <= serverPort c' <= 65535.
Proof.
  intros Hi Hrp Hup Hsp Hos.
  destruct (Initialize_ports pf c c' Hi) as [-> Hport]. split.
  - clear Hport. unfold resolved. case_bool_decide as E; cbn [RPPort].
    + pose proof (GetRPPort_positive pf (BMCIP (config c)) (Username (config c))
                    (Password (config c))). specialize (Hup E). lia.
    + lia.
  - case_bool_decide as E; [by eapply Hos|]. lia.
Qed.

Lemma ports_in_range_after_Initialize_witness :
  1 <= RPPort (config lab_session) <= 65535 /\
  1 <= serverPort lab_session <= 65535.
Proof.
  apply (ports_in_range_after_Initialize lab_platform (NewConsole lab_config)
           lab_session).
  - apply lab_Initialize.
  - left. reflexivity.
  - intros _. vm_compute. discriminate.
  - right. vm_compute. split; discriminate.
  - intros port H. vm_compute in H. discriminate.
Defined.

(** C5 as stated fails: a configuration with ports above 65535 initializes
    successfully and keeps them. *)
Lemma ports_out_of_range_kept :
  (Initialize lab_platform (NewConsole wide_config)).1 = Ret tt /\
  ~ (1 <= RPPort (config (Initialize lab_platform (NewConsole wide_config)).2)
       <= 65535 /\
     1 <= serverPort (Initialize lab_platform (NewConsole wide_config)).2
       <= 65535).
Proof.
  split; [by vm_compute|].
  assert (serverPort (Initialize lab_platform (NewConsole wide_config)).2 = 70000)
    as -> by (by vm_compute).
  lia.
Qed.

(** ** The remote-presence port lookup and [Initialize] *)

Lemma mux_HandleFunc_no_Err pattern h c e :
  (mux_HandleFunc pattern h c).1 <> Err e.
Proof.
  unfold mux_HandleFunc, HandleFunc.
  case_bool_decide; [done|]. by destruct (mux_m (mux c) !! pattern).
Qed.

Lemma bind_no_Err (m1 m2 : M unit) c e :
  (forall c e, (m1 c).1 <> Err e) -> (forall c e, (m2 c).1 <> Err e) ->
  ((m1;; m2) c).1 <> Err e.
Proof.
  intros H1 H2. unfold mbind, M_bind.
  pose proof (H1 c) as H. destruct (m1 c) as [[[]|e1|msg] c1]; cbn [fst] in *.
  - apply H2.
  - by destruct (H e1).
  - done.
Qed.

Lemma setupHandlers_no_Err c e : (setupHandlers c).1 <> Err e.
Proof.
  unfold setupHandlers.
  repeat (apply bind_no_Err; [intros; apply mux_HandleFunc_no_Err|intros]).
  apply mux_HandleFunc_no_Err.
Qed.

(** The only error [Initialize] returns is the one of [findAvailablePort]. *)
Lemma Initialize_Err (pf : Platform) (c : Console) (e : string) :
  (Initialize pf c).1 = Err e ->
  exists e', net_Listen0 pf = inl e' /\
             e = "failed to find available port: " +:+ e'.
Proof.
  rewrite Initialize_unfold. unfold prepared.
  case_bool_decide.
  - destruct (net_Listen0 pf) as [e'|port]; cbn [fst].
    + intros [= <-]. by exists e'.
    + intros H'. by apply setupHandlers_no_Err in H'.
  - intros H'. by apply setupHandlers_no_Err in H'.
Qed.

(** ** The JSON scanner: its fuel does not run out *)

Lemma skipSpace_length (s : string) :
  (String.length (json.skipSpace s) <= String.length s)%nat.
Proof.
  induction s as [|c s IH]; [reflexivity|]. cbn [json.skipSpace].
  destruct (json.isSpace c); cbn [String.length]; lia.
Qed.

Lemma skipSpace_cons (s : string) (c : ascii) (s' : string) :
  json.skipSpace s = String c s' -> (String.length s' < String.length s)%nat.
Proof.
  intros H. pose proof (skipSpace_length s) as Hl. rewrite H in Hl.
  cbn [String.length] in Hl. lia.
Qed.

Lemma scan_map_Done {A B : Type} (f : A -> B) (r : json.Scan A) (b : B)
    (rest : string) :
  json.scan_map f r = json.Done b rest -> exists a, r = json.Done a rest.
Proof. destruct r as [a rest'| |]; [|discriminate..]. intros [= _ <-]. by exists a. Qed.

Lemma scanString_length (st : json.strState) (s key rest : string) :
  json.scanString st s = json.Done key rest ->
  (String.length rest < String.length s)%nat.
Proof.
  revert st key. induction s as [|c s IH]; intros st key H; [discriminate H|].
  cbn [json.scanString] in H. cbn [String.length].
  assert (forall st' k, json.scan_map (String c) (json.scanString st' s)
                        = json.Done k rest ->
                        (String.length rest < S (String.length s))%nat) as Hrec.
  { intros st' k [a Ha]%scan_map_Done. apply IH in Ha. lia. }
  destruct st as [| |k]; repeat case_match; try discriminate H;
    try (by eapply Hrec).
  injection H as _ <-. lia.
Qed.

Lemma scanNumber_length (st : json.numState) (s lit rest : string) :
  json.scanNumber st s = json.Done lit rest ->
  (String.length rest <= String.length s)%nat.
Proof.
  revert st lit. induction s as [|c s IH]; intros st lit H;
    cbn [json.scanNumber] in H.
  - destruct (json.numEnd st); [|discriminate H]. by injection H as _ <-.
  - destruct (json.numStep st c) as [st'|].
    + apply scan_map_Done in H as [a Ha]. apply IH in Ha.
      cbn [String.length]. lia.
    + destruct (json.numEnd st); [|discriminate H]. by injection H as _ <-.
Qed.

Lemma scanWord_length (word s : string) (rest : string) :
  json.scanWord word s = json.Done tt rest ->
  (String.length rest <= String.length s)%nat.
Proof.
  revert s. induction word as [|w word IH]; intros s H; cbn [json.scanWord] in H.
  - by injection H as <-.
  - destruct s as [|c s]; [discriminate H|].
    destruct (Ascii.eqb c w); [|discriminate H].
    apply IH in H. cbn [String.length]. lia.
Qed.

(** A scanner that leaves no more than it was given. *)
Definition shrinking {A : Type} (scan : N -> string -> json.Scan A) : Prop :=
  forall d s a rest,
    scan d s = json.Done a rest -> (String.length rest <= String.length s)%nat.

Lemma valueStep_shrinking M I :
  shrinking M -> shrinking I -> shrinking (json.valueStep M I).
Proof.
  intros HM HI d s v rest H. unfold json.valueStep in H.
  destruct (json.skipSpace s) as [|c s'] eqn:Es; [discriminate H|].
  apply skipSpace_cons in Es. cbv zeta in H.
  assert (forall (A : Type) (f : A -> json.Value) r,
            (forall a rest', r = json.Done a rest' ->
                             (String.length rest' <= String.length s')%nat) ->
            json.scan_map f r = json.Done v rest ->
            (String.length rest <= String.length s)%nat) as Hmap.
  { intros A f r Hr [a Ha]%scan_map_Done. apply Hr in Ha. lia. }
  repeat match type of H with
  | (if ?b then _ else _) = _ => destruct b
  end; try discriminate H.
  - destruct (json.skipSpace s') as [|c1 s1] eqn:E1; [discriminate H|].
    apply skipSpace_cons in E1.
    destruct (nat_of_ascii c1 =? 125)%nat.
    + injection H as _ <-. lia.
    + apply scan_map_Done in H as [a Ha]. apply HM in Ha.
      cbn [String.length] in Ha. lia.
  - destruct (json.skipSpace s') as [|c1 s1] eqn:E1; [discriminate H|].
    apply skipSpace_cons in E1.
    destruct (nat_of_ascii c1 =? 93)%nat.
    + injection H as _ <-. lia.
    + apply scan_map_Done in H as [a Ha]. apply HI in Ha.
      cbn [String.length] in Ha. lia.
  - eapply Hmap; [|exact H]. intros a r' Ha. apply scanString_length in Ha. lia.
  - eapply Hmap; [|exact H]. intros a r' Ha. by apply scanNumber_length in Ha.
  - eapply Hmap; [|exact H]. intros a r' Ha. by apply scanNumber_length in Ha.
  - eapply Hmap; [|exact H]. intros a r' Ha. by apply scanNumber_length in Ha.
  - eapply Hmap; [|exact H]. intros [] r' Ha. by apply scanWord_length in Ha.
  - eapply Hmap; [|exact H]. intros [] r' Ha. by apply scanWord_length in Ha.
  - eapply Hmap; [|exact H]. intros [] r' Ha. by apply scanWord_length in Ha.
Qed.

Lemma membersStep_shrinking V M :
  shrinking V -> shrinking M -> shrinking (json.membersStep V M).
Proof.
  intros HV HM d s ms rest H. unfold json.membersStep in H.
  destruct (json.skipSpace s) as [|c s'] eqn:Es; [discriminate H|].
  apply skipSpace_cons in Es.
  destruct (negb _); [discriminate H|].
  destruct (json.scanString json.inString s') as [key s1| |] eqn:Ek;
    [|discriminate H..].
  apply scanString_length in Ek.
  destruct (json.skipSpace s1) as [|c1 s2] eqn:E1; [discriminate H|].
  apply skipSpace_cons in E1.
  destruct (negb _); [discriminate H|].
  destruct (V d s2) as [v s3| |] eqn:Ev; [|discriminate H..].
  apply HV in Ev.
  destruct (json.skipSpace s3) as [|c2 s4] eqn:E3; [discriminate H|].
  apply skipSpace_cons in E3.
  destruct (nat_of_ascii c2 =? 125)%nat; [injection H as _ <-; lia|].
  destruct (nat_of_ascii c2 =? 44)%nat; [|discriminate H].
  apply scan_map_Done in H as [a Ha]. apply HM in Ha. lia.
Qed.

Lemma itemsStep_shrinking V I :
  shrinking V -> shrinking I -> shrinking (json.itemsStep V I).
Proof.
  intros HV HI d s vs rest H. unfold json.itemsStep in H.
  destruct (V d s) as [v s1| |] eqn:Ev; [|discriminate H..].
  apply HV in Ev.
  destruct (json.skipSpace s1) as [|c s2] eqn:E1; [discriminate H|].
  apply skipSpace_cons in E1.
  destruct (nat_of_ascii c =? 93)%nat; [injection H as _ <-; lia|].
  destruct (nat_of_ascii c =? 44)%nat; [|discriminate H].
  apply scan_map_Done in H as [a Ha]. apply HI in Ha. lia.
Qed.

Lemma scan_shrinking (fuel : nat) :
  shrinking (json.scanValue fuel) /\ shrinking (json.scanMembers fuel) /\
  shrinking (json.scanItems fuel).
Proof.
  induction fuel as [|fuel (HV & HM & HI)].
  - repeat split; intros d s a rest H; discriminate H.
  - split; [|split]; cbn [json.scanValue json.scanMembers json.scanItems].
    + by apply valueStep_shrinking.
    + by apply membersStep_shrinking.
    + by apply itemsStep_shrinking.
Qed.

(** Each step asks the scanners it is given about shorter inputs only (the
    items about the same input, for their first value). *)
Lemma valueStep_ext M M' I I' (d : N) (s : string) :
  (forall d' s', (String.length s' < String.length s)%nat -> M d' s' = M' d' s') ->
  (forall d' s', (String.length s' < String.length s)%nat -> I d' s' = I' d' s') ->
  json.valueStep M I d s = json.valueStep M' I' d s.
Proof.
  intros HM HI. unfold json.valueStep.
  destruct (json.skipSpace s) as [|c s'] eqn:Es; [reflexivity|].
  apply skipSpace_cons in Es. cbv zeta.
  destruct (json.skipSpace s') as [|c1 s1] eqn:E1; [reflexivity|].
  pose proof (skipSpace_length s') as Hl. rewrite E1 in Hl.
  rewrite HM, HI by lia. reflexivity.
Qed.

Lemma membersStep_ext V V' M M' (d : N) (s : string) :
  shrinking V ->
  (forall d' s', (String.length s' < String.length s)%nat -> V d' s' = V' d' s') ->
  (forall d' s', (String.length s' < String.length s)%nat -> M d' s' = M' d' s') ->
  json.membersStep V M d s = json.membersStep V' M' d s.
Proof.
  intros Hsh HV HM. unfold json.membersStep.
  destruct (json.skipSpace s) as [|c s'] eqn:Es; [reflexivity|].
  apply skipSpace_cons in Es.
  destruct (negb _); [reflexivity|].
  destruct (json.scanString json.inString s') as [key s1| |] eqn:Ek;
    [|reflexivity..].
  apply scanString_length in Ek.
  destruct (json.skipSpace s1) as [|c1 s2] eqn:E1; [reflexivity|].
  apply skipSpace_cons in E1.
  destruct (negb _); [reflexivity|].
  rewrite <- HV by lia.
  destruct (V d s2) as [v s3| |] eqn:Ev; [|reflexivity..].
  apply Hsh in Ev.
  destruct (json.skipSpace s3) as [|c2 s4] eqn:E3; [reflexivity|].
  apply skipSpace_cons in E3.
  rewrite HM by lia. reflexivity.
Qed.

Lemma itemsStep_ext V V' I I' (d : N) (s : string) :
  shrinking V ->
  (forall d' s', (String.length s' <= String.length s)%nat -> V d' s' = V' d' s') ->
  (forall d' s', (String.length s' < String.length s)%nat -> I d' s' = I' d' s') ->
  json.itemsStep V I d s = json.itemsStep V' I' d s.
Proof.
  intros Hsh HV HI. unfold json.itemsStep.
  rewrite <- HV by lia.
  destruct (V d s) as [v s1| |] eqn:Ev; [|reflexivity..].
  apply Hsh in Ev.
  destruct (json.skipSpace s1) as [|c s2] eqn:E1; [reflexivity|].
  apply skipSpace_cons in E1.
  rewrite HI by lia. reflexivity.
Qed.

(** With enough fuel for the length of the input, one more changes
    nothing. *)
Lemma scan_fuel_S (fuel : nat) :
  (forall d s, (2 * String.length s + 1 <= fuel)%nat ->
               json.scanValue (S fuel) d s = json.scanValue fuel d s) /\
  (forall d s, (2 * String.length s + 1 <= fuel)%nat ->
               json.scanMembers (S fuel) d s = json.scanMembers fuel d s) /\
  (forall d s, (2 * String.length s + 2 <= fuel)%nat ->
               json.scanItems (S fuel) d s = json.scanItems fuel d s).
Proof.
  induction fuel as [|fuel (HV & HM & HI)].
  - repeat split; intros d s H; lia.
  - pose proof (scan_shrinking (S fuel)) as (Hsh & _ & _).
    split; [|split]; intros d s Hf.
    + change (json.valueStep (json.scanMembers (S fuel)) (json.scanItems (S fuel)) d s
              = json.valueStep (json.scanMembers fuel) (json.scanItems fuel) d s).
      apply valueStep_ext; intros d' s' Hs'; [apply HM|apply HI]; lia.
    + change (json.membersStep (json.scanValue (S fuel)) (json.scanMembers (S fuel)) d s
              = json.membersStep (json.scanValue fuel) (json.scanMembers fuel) d s).
      apply membersStep_ext; [exact Hsh|..]; intros d' s' Hs';
        [apply HV|apply HM]; lia.
    + change (json.itemsStep (json.scanValue (S fuel)) (json.scanItems (S fuel)) d s
              = json.itemsStep (json.scanValue fuel) (json.scanItems fuel) d s).
      apply itemsStep_ext; [exact Hsh|..]; intros d' s' Hs';
        [apply HV|apply HI]; lia.
Qed.

(** The fuel [Decode] gives the scanner is enough: with any more the
    result is the same. *)
Lemma scanValue_fuel (fuel : nat) (d : N) (s : string) :
  (2 * String.length s + 2 <= fuel)%nat ->
  json.scanValue fuel d s = json.scanValue (2 * String.length s + 2) d s.
Proof.
  intros H. induction H as [|fuel H IH]; [reflexivity|].
  rewrite <- IH. apply scan_fuel_S. lia.
Qed.

(** ** The remote-presence port lookup and what the decoder stores *)

(** Tests on a known byte, evaluated. *)
Ltac known_bool t :=
  let b := eval vm_compute in t in
  match b with
  | true => change t with true
  | false => change t with false
  end.

Ltac byte_tests :=
  repeat match goal with
  | |- context [Nat.eqb (nat_of_ascii ?c) ?k] =>
      known_bool (Nat.eqb (nat_of_ascii c) k)
  | |- context [Nat.ltb (nat_of_ascii ?c) ?k] =>
      known_bool (Nat.ltb (nat_of_ascii c) k)
  | |- context [json.isSpace ?c] => known_bool (json.isSpace c)
  | |- context [json.isDigit ?c] => known_bool (json.isDigit c)
  | |- context [N.ltb json.maxNestingDepth ?d] =>
      known_bool (N.ltb json.maxNestingDepth d)
  end.

(** The scanner run over the known bytes at the head of its input. *)
Ltac scan_known :=
  repeat first
    [ progress byte_tests
    | progress cbn [json.skipSpace json.scanString json.scan_map
                    negb orb andb]
    | progress cbv beta iota zeta ].

Lemma uint_no_leading_zero (p : positive) :
  match Pos.to_uint p with
  | Decimal.Nil | Decimal.D0 _ => False
  | _ => True
  end.
Proof.
  pose proof (DecimalPos.Unsigned.to_of (Pos.to_uint p)) as H.
  rewrite DecimalPos.Unsigned.of_to in H. cbn [N.to_uint] in H.
  pose proof (DecimalPos.Unsigned.to_uint_nonzero p) as Hz.
  assert (forall d d', Decimal.unorm d = Decimal.D0 d' -> d' = Decimal.Nil) as Hu.
  { intros d. induction d; intros d' E; cbn [Decimal.unorm] in E;
      try discriminate; [by injection E|by apply IHd]. }
  destruct (Pos.to_uint p) as [|d|d|d|d|d|d|d|d|d|d] eqn:E; try exact I.
  - by apply (DecimalPos.Unsigned.to_uint_nonnil p).
  - symmetry in H. apply Hu in H. subst d. by apply Hz.
Qed.

Lemma digitsValue_uint (d : Decimal.uint) (acc : positive) :
  json.digitsValue (Z.pos acc) (NilEmpty.string_of_uint d)
  = Some (Z.pos (Pos.of_uint_acc d acc)).
Proof.
  revert acc.
  induction d; intros acc;
    cbn [NilEmpty.string_of_uint json.digitsValue Pos.of_uint_acc];
    [reflexivity|..];
    match goal with
    | |- context [json.isDigit ?c] =>
        change (json.isDigit c) with true; cbv iota
    end;
    match goal with
    | |- json.digitsValue ?a _ = Some (Z.pos (Pos.of_uint_acc _ ?b)) =>
        replace a with (Z.pos b)
          by (match goal with
              | |- context [Z.of_nat ?t] =>
                  let k := eval vm_compute in (Z.of_nat t) in
                  change (Z.of_nat t) with k
              end; lia)
    end; apply IHd.
Qed.

Lemma ParseInt64_Itoa (n : Z) :
  0 < n < 2 ^ 63 -> json.ParseInt64 (Itoa n) = Some n.
Proof.
  intros Hn. destruct n as [|p|p]; [lia| |lia].
  unfold Itoa. cbn [Z.to_int NilZero.string_of_int].
  pose proof (uint_no_leading_zero p) as Hd.
  pose proof (DecimalPos.Unsigned.of_to p) as Hp.
  assert ((Z.pos p <? 2 ^ 63) = true) as Hlt by (apply Z.ltb_lt; lia).
  assert ((- 2 ^ 63 <=? Z.pos p) = true) as Hge by (apply Z.leb_le; lia).
  destruct (Pos.to_uint p) as [|d|d|d|d|d|d|d|d|d|d]; try done;
    cbn [Pos.of_uint] in Hp; injection Hp as Hp;
    unfold json.ParseInt64;
    cbn [NilZero.string_of_uint NilEmpty.string_of_uint];
    cbn -[Z.pow json.digitsValue Z.leb Z.ltb];
    byte_tests; cbv iota;
    cbn [json.digitsValue];
    match goal with
    | |- context [json.isDigit ?c] =>
        change (json.isDigit c) with true; cbv iota
    end;
    match goal with
    | |- context [json.digitsValue ?a _] =>
        let k := eval vm_compute in a in change a with k
    end;
    rewrite digitsValue_uint, Hp, Hge, Hlt; reflexivity.
Qed.

Lemma scanNumber_uint (d : Decimal.uint) (rest : string) :
  json.scanNumber json.state1 (NilEmpty.string_of_uint d +:+ String "}" rest)
  = json.Done (NilEmpty.string_of_uint d) (String "}" rest).
Proof.
  induction d; cbn [NilEmpty.string_of_uint];
    rewrite ?append_cons, ?append_nil_l; cbn [json.scanNumber];
    [reflexivity|..];
    match goal with
    | |- context [json.numStep json.state1 ?c] =>
        change (json.numStep json.state1 c) with (Some json.state1); cbv iota
    end; rewrite IHd; reflexivity.
Qed.

(** An object with the one member [port]: the scanner reads the value,
    then the closing brace. *)
Lemma scanValue_port_member (fuel : nat) (X : string) (v : json.Value) :
  json.scanValue (S fuel) (0 + 1) X = json.Done v "}" ->
  json.scanValue (S (S (S fuel))) 0
    ("{" +:+ Template.dq +:+ "port" +:+ Template.dq +:+ ":" +:+ X)
  = json.Done (json.Object [("port", v)]) "".
Proof.
  intros H. unfold Template.dq. rewrite ?append_cons, ?append_nil_l.
  change (json.scanValue (S (S (S fuel))))
    with (json.valueStep (json.scanMembers (S (S fuel)))
            (json.scanItems (S (S fuel)))).
  unfold json.valueStep. scan_known.
  change (json.scanMembers (S (S fuel)))
    with (json.membersStep (json.scanValue (S fuel))
            (json.scanMembers (S fuel))).
  unfold json.membersStep. scan_known.
  rewrite H. scan_known. reflexivity.
Qed.

(** The scanner reads [portBody n] as an object with the one member
    [port]. *)
Lemma scanValue_portBody (n : Z) (fuel : nat) :
  0 < n ->
  json.scanValue (S (S (S fuel))) 0 (portBody n)
  = json.Done (json.Object [("port", json.Number (Itoa n))]) "".
Proof.
  intros Hn. destruct n as [|p|p]; [lia| |lia].
  unfold portBody, Itoa. cbn [Z.to_int NilZero.string_of_int].
  change (": " +:+ ?x) with (":" +:+ " " +:+ x).
  apply scanValue_port_member.
  pose proof (uint_no_leading_zero p) as Hd.
  destruct (Pos.to_uint p) as [|d|d|d|d|d|d|d|d|d|d]; try done;
    cbn [NilZero.string_of_uint NilEmpty.string_of_uint];
    rewrite ?append_cons, ?append_nil_l;
    change (json.scanValue (S fuel))
      with (json.valueStep (json.scanMembers fuel) (json.scanItems fuel));
    unfold json.valueStep; scan_known;
    rewrite (scanNumber_uint d ""); reflexivity.
Qed.

Lemma Decode_portBody (n : Z) (e : option string) :
  0 < n < 2 ^ 63 ->
  json.Decode {| received := portBody n; readErr := e |} = (n, None).
Proof.
  intros Hn. unfold json.Decode. cbn [received readErr].
  assert (exists fuel, (2 * String.length (portBody n) + 2 = S (S (S fuel)))%nat)
    as [fuel ->] by (exists (2 * String.length (portBody n) - 1)%nat;
                     unfold portBody; rewrite append_cons; cbn [String.length]; lia).
  rewrite scanValue_portBody by lia.
  cbn [json.endsLate json.unmarshal foldl fst snd].
  change (json.isFieldPort "port") with true. cbv iota.
  unfold json.storePort. by rewrite ParseInt64_Itoa.
Qed.

(** C2, as the code has it. [GetRPPort] always returns a nil error. It
    returns 3900 when the request cannot be built and when the transport
    fails. When the BMC answers, the error of [Decode] is dropped and the
    result depends on the port [Decode] has stored only: that port when it
    is positive, 3900 otherwise. So a body [{"port": n}] with a positive
    [n] of at most 64 bits yields [n], and a body whose first JSON value is
    malformed or cut short, in which nothing is stored, yields 3900.
    [Initialize] never fails because of the lookup: the only error it
    returns comes from [findAvailablePort]. *)
Theorem GetRPPort_advisory (pf : Platform) (bmcIP username password : string) :
  let url := "https://" +:+ bmcIP +:+ "/api/providers/rp_port" in
  let req := SetBasicAuth pf username password
               {| cMethod := "GET"; cURL := url; cHeader := ∅; cBody := None |} in
  let port := (GetRPPort pf bmcIP username password).1 in
  (GetRPPort pf bmcIP username password).2 = None /\
  (http_NewRequest_ok pf "GET" url = false -> port = 3900) /\
  (http_NewRequest_ok pf "GET" url = true ->
   match client_Do pf req with
   | None => port = 3900
   | Some resp =>
       let body := RespBody resp in
       port = (if 0 <? (json.Decode body).1 then (json.Decode body).1
               else 3900) /\
       (forall n : Z,
          0 < n < 2 ^ 63 -> received body = portBody n -> port = n) /\
       (json.scanValue (2 * String.length (received body) + 2) 0
          (received body) = json.More \/
        json.scanValue (2 * String.length (received body) + 2) 0
          (received body) = json.Bad ->
        port = 3900)
   end) /\
  (forall (c : Console) (e : string),
     (Initialize pf c).1 = Err e ->
     exists e', net_Listen0 pf = inl e' /\
                e = "failed to find available port: " +:+ e').
Proof.
  cbv zeta. split; [apply GetRPPort_no_error|].
  unfold GetRPPort, http_NewRequest, DefaultRPPort.
  split; [intros H; by rewrite H|]. split; [|intros c e; apply Initialize_Err].
  intros H. rewrite H. rewrite (bool_decide_eq_false_2 ("GET" = "")) by done.
  destruct (client_Do pf _) as [resp|]; [|done].
  assert (forall d : Z, (if 0 <? d then (d, @None string) else (3900, None)).1
                        = if 0 <? d then d else 3900) as Hif
    by (intros d; by destruct (0 <? d)).
  rewrite Hif. split; [done|]. split.
  - intros n Hn Hb. destruct (RespBody resp) as [s e]. cbn [received] in Hb.
    subst s. rewrite Decode_portBody by done. cbn [fst].
    by rewrite (proj2 (Z.ltb_lt 0 n)) by lia.
  - unfold json.Decode. by intros [-> | ->].
Qed.

(** The lookup with the target of the lab, which reports port 3901, and
    with a target that cannot be reached. *)
Lemma GetRPPort_advisory_witness :
  GetRPPort lab_platform "10.145.127.12" "USERID" "PASSW0RD" = (3901, None) /\
  GetRPPort unreachable_platform "10.145.127.12" "USERID" "PASSW0RD"
  = (3900, None).
Proof.
  pose proof (GetRPPort_advisory lab_platform "10.145.127.12" "USERID" "PASSW0RD")
    as (H1 & _ & H2 & _).
  pose proof (GetRPPort_advisory unreachable_platform "10.145.127.12" "USERID"
                "PASSW0RD") as (H3 & _ & H4 & _).
  specialize (H2 eq_refl). hnf in H2. destruct H2 as (_ & H2 & _).
  split; apply injective_projections; cbn [fst snd];
    [apply (H2 3901); [lia|reflexivity]|exact H1|exact (H4 eq_refl)|exact H3].
Defined.

(** C2 as stated fails on both counts. A body that names the port twice,
    the second time with a string, fails to decode, and the lookup still
    returns the port stored before the error, not 3900. A body whose
    positive integer port does not fit 64 bits yields 3900, not that
    port. *)
Lemma decode_error_keeps_port :
  json.Decode {| received := mistyped_body; readErr := None |}
  = (3901, Some (json.UnmarshalTypeError "string")) /\
  GetRPPort (answering mistyped_body) "10.145.127.12" "USERID" "PASSW0RD"
  = (3901, None) /\
  json.Decode {| received := overflow_body; readErr := None |}
  = (0, Some (json.UnmarshalTypeError "number 9223372036854775808")) /\
  GetRPPort (answering overflow_body) "10.145.127.12" "USERID" "PASSW0RD"
  = (3900, None).
Proof. repeat split; vm_compute; reflexivity. Qed.

(** What [Decode] makes of some bodies: text after the first value is not
    looked at; an empty body, a page of markup and a body that breaks off
    store nothing; the key is matched without regard to case; a number
    with a fraction is not stored; a negative port is stored, and the
    lookup then falls back to 3900. *)
Example Decode_bodies :
  let body s := {| received := s; readErr := None |} in
  let q := Template.dq in
  json.Decode (body (portBody 3901 +:+ " and more")) = (3901, None) /\
  json.Decode (body "") = (0, Some json.EOF) /\
  json.Decode (body "<html>") = (0, Some json.SyntaxError) /\
  json.Decode (body ("{" +:+ q +:+ "port" +:+ q +:+ ": 39"))
  = (0, Some json.UnexpectedEOF) /\
  json.Decode (body ("{" +:+ q +:+ "PORT" +:+ q +:+ ": 7}")) = (7, None) /\
  json.Decode (body ("{" +:+ q +:+ "port" +:+ q +:+ ": 3901.0}"))
  = (0, Some (json.UnmarshalTypeError "number 3901.0")) /\
  json.Decode (body ("{" +:+ q +:+ "port" +:+ q +:+ ": null}")) = (0, None) /\
  json.Decode (body (portBody (-5))) = (-5, None) /\
  GetRPPort (answering (portBody (-5))) "10.145.127.12" "USERID" "PASSW0RD"
  = (3900, None).
Proof. repeat split; vm_compute; reflexivity. Qed.

(** ** Serving requests *)

Lemma Server_serve_cases (pf : Platform) (c : Console) (r : Request) :
  started c ->
  Server_serve pf c r =
  Some (if bool_decide (Method r = "OPTIONS") && bool_decide (URL_Path r = "*")
        then (GlobalOptions, [])
        else ServeHTTP pf c r).
Proof.
  intros (srv & Hs & Hc). unfold Server_serve. rewrite Hs, Hc.
  by destruct (_ && _).
Qed.

Lemma Server_serve_started (pf : Platform) (c : Console) (r : Request) :
  started c -> URL_Path r <> "*" ->
  Server_serve pf c r = Some (ServeHTTP pf c r).
Proof.
  intros Hst Hp. rewrite Server_serve_cases by done.
  by rewrite (bool_decide_eq_false_2 (URL_Path r = "*")), andb_false_r.
Qed.

(** What [consoleHandler] writes on a fresh writer. *)
Lemma consoleHandler_fresh (c : Console) (r : Request) :
  let w := consoleHandler c ResponseWriter.fresh r in
  status w = StatusOK /\ written w = consoleHTML c /\
  Header.Values (sentHeader w) "Content-Type" = ["text/html"].
Proof. done. Qed.

(** Only the proxy handler hands requests to the client. *)
Lemma ServeHTTP_sent_proxy (pf : Platform) (c : Console) (r : Request) :
  (ServeHTTP pf c r).2 <> [] -> mux_Handler (mux c) r = Serve H_proxySDKHandler.
Proof.
  unfold ServeHTTP. case_bool_decide; [done|].
  destruct (mux_Handler (mux c) r) as [[]| |]; done.
Qed.

Lemma ServeHTTP_not_star (pf : Platform) (c : Console) (r : Request) :
  URL_Path r <> "*" ->
  ServeHTTP pf c r = Handler_ServeHTTP pf c r (mux_Handler (mux c) r).
Proof. intros H. unfold ServeHTTP. by rewrite bool_decide_eq_false_2. Qed.

(** C1, as the code has it. The root pattern is a catch-all: for a request
    whose path is not [/cert.pem] and not allow-listed, a started server
    never contacts the BMC, and when the path is in canonical form (and is
    not [/SDK_Pilot4], which is redirected to the subtree) it answers like
    the root path, with status 200, content type [text/html] and the
    rendered page, not with a not-found response. *)
Theorem unlisted_path_gets_page (pf : Platform) (c : Console) (r : Request) :
  in_service c -> started c ->
  URL_Path r <> "/cert.pem" -> allowListed (URL_Path r) = false ->
  exists a : Answer,
    Server_serve pf c r = Some (a, []) /\
    (cleanPath (URL_Path r) = URL_Path r -> URL_Path r <> "/SDK_Pilot4" ->
     exists w, a = Handled w /\ status w = StatusOK /\
               written w = consoleHTML c /\
               Header.Values (sentHeader w) "Content-Type" = ["text/html"]).
Proof.
  intros Hserv Hst Hcert Hal.
  destruct (in_service_ready c Hserv) as (Hmux & _).
  rewrite Server_serve_cases by done.
  destruct (bool_decide (Method r = "OPTIONS") && bool_decide (URL_Path r = "*"))
    eqn:Eopt.
  { exists GlobalOptions. split; [done|]. intros Hclean _.
    apply andb_prop in Eopt as [_ Hstar%bool_decide_eq_true_1].
    by destruct (canonical_not_star _ Hclean). }
  exists (ServeHTTP pf c r).1. split.
  - destruct (ServeHTTP pf c r) as [a sent] eqn:E. cbn [fst].
    destruct sent as [|req sent]; [done|].
    assert ((ServeHTTP pf c r).2 <> []) as Hne by (by rewrite E).
    apply ServeHTTP_sent_proxy in Hne. rewrite Hmux in Hne.
    apply proxy_only_allowListed in Hne. congruence.
  - intros Hclean Hsdk.
    rewrite ServeHTTP_not_star by (by apply canonical_not_star).
    rewrite Hmux, canonical_dispatch by done.
    rewrite bool_decide_eq_false_2, Hal by done. cbn [fst Handler_ServeHTTP].
    eexists. split; [done|]. apply consoleHandler_fresh.
Qed.

Lemma unlisted_path_gets_page_witness :
  exists w : ResponseWriter,
    Server_serve lab_platform lab_started (GET "/favicon.ico")
    = Some (Handled w, []) /\
    status w = 200 /\ written w = consoleHTML lab_started.
Proof.
  destruct (unlisted_path_gets_page lab_platform lab_started (GET "/favicon.ico"))
    as (a & Ha & Hpage).
  - apply lab_started_in_service.
  - apply lab_started_started.
  - vm_compute. discriminate.
  - vm_compute. reflexivity.
  - destruct Hpage as (w & -> & Hs & Hw & _).
    + vm_compute. reflexivity.
    + vm_compute. discriminate.
    + exists w. auto.
Defined.

(** C1 as stated fails: a started server answers a request for
    [/favicon.ico], a path that is neither the root, nor [/cert.pem], nor
    allow-listed, with status 200 and the page, not with not-found. *)
Lemma unlisted_path_not_404 :
  started lab_started /\
  URL_Path (GET "/favicon.ico") <> "/" /\
  URL_Path (GET "/favicon.ico") <> "/cert.pem" /\
  allowListed (URL_Path (GET "/favicon.ico")) = false /\
  Server_serve lab_platform lab_started (GET "/favicon.ico")
  = Some (Handled (consoleHandler lab_started ResponseWriter.fresh
                     (GET "/favicon.ico")), []) /\
  status (consoleHandler lab_started ResponseWriter.fresh (GET "/favicon.ico"))
  = 200.
Proof.
  split; [apply lab_started_started|].
  repeat split; try (vm_compute; discriminate); by vm_compute.
Qed.

(** The request the relay sends for [r]. *)
Lemma proxySDKHandler_sent (pf : Platform) (c : Console) (w : ResponseWriter)
    (r : Request) (req : ClientRequest) :
  req ∈ (proxySDKHandler pf c w r).2 ->
  req = {| cMethod := if bool_decide (Method r = "") then "GET" else Method r;
           cURL := "https://" +:+ BMCIP (config c) +:+ URL_Path r;
           cHeader := Header.copy_into ∅ (ReqHeader r);
           cBody := None |}.
Proof.
  unfold proxySDKHandler, http_NewRequest.
  destruct (http_NewRequest_ok pf _ _); [|by intros ?%elem_of_nil].
  cbn [with_cHeader cMethod cURL cHeader cBody].
  destruct (client_Do pf _) as [resp|]; cbn [snd io_ReadAll];
    by intros ->%list_elem_of_singleton.
Qed.

(** C10. Every request the relay sends to the BMC has no body; its method,
    URL and headers are those of the incoming request, and nothing else of
    the incoming request matters: with any other body the server answers
    and sends the same. *)
Theorem upstream_request_without_body (pf : Platform) (c : Console)
    (r : Request) (req : ClientRequest) :
  req ∈ (ServeHTTP pf c r).2 ->
  cBody req = None /\
  cMethod req = (if bool_decide (Method r = "") then "GET" else Method r) /\
  cURL req = "https://" +:+ BMCIP (config c) +:+ URL_Path r /\
  (forall key, Header.Values (cHeader req) key = Header.Values (ReqHeader r) key) /\
  (forall body, ServeHTTP pf c (with_ReqBody body r) = ServeHTTP pf c r).
Proof.
  intros Hin.
  assert (req = {| cMethod := if bool_decide (Method r = "") then "GET" else Method r;
                   cURL := "https://" +:+ BMCIP (config c) +:+ URL_Path r;
                   cHeader := Header.copy_into ∅ (ReqHeader r);
                   cBody := None |}) as ->.
  { unfold ServeHTTP in Hin.
    case_bool_decide; [by apply elem_of_nil in Hin|].
    destruct (mux_Handler (mux c) r) as [[]| |]; try by apply elem_of_nil in Hin.
    cbn [Handler_ServeHTTP] in Hin.
    destruct (proxySDKHandler pf c ResponseWriter.fresh r) as [w sent] eqn:E.
    apply (proxySDKHandler_sent pf c ResponseWriter.fresh r). by rewrite E. }
  cbn [cBody cMethod cURL cHeader]. repeat split.
  intros key. apply Values_copy_into_empty.
Qed.

Lemma upstream_request_without_body_witness :
  exists req : ClientRequest,
    (ServeHTTP lab_platform lab_started
       {| Method := "POST"; URL_Path := "/utility.js";
          ReqHeader := {["Content-Type" := ["text/plain"]]};
          ReqBody := "payload" |}).2 = [req] /\
    cBody req = None /\ cMethod req = "POST".
Proof.
  eexists. split; [by vm_compute|].
  match goal with |- cBody ?q = _ /\ _ =>
    destruct (upstream_request_without_body lab_platform lab_started
                {| Method := "POST"; URL_Path := "/utility.js";
                   ReqHeader := {["Content-Type" := ["text/plain"]]};
                   ReqBody := "payload" |} q) as (Hb & Hm & _)
  end.
  - vm_compute. apply list_elem_of_here.
  - split; [exact Hb|exact Hm].
Defined.

(** C3. A request that the mux hands to the proxy, that is, a request for
    an allow-listed path taken as it is (in canonical form, or of a CONNECT
    request), is sent on to [https://<target-host><path>] with the method
    and the headers of the incoming request; when the BMC answers and its
    body is read to the end, the caller gets the status code of the BMC,
    its headers and its whole body, except that for a path ending in [.js]
    the content type is [application/javascript] whatever the BMC sent. *)
Theorem allowListed_request_relayed (pf : Platform) (c : Console) (r : Request)
    (resp : Response) :
  in_service c -> started c ->
  allowListed (URL_Path r) = true ->
  Method r = "CONNECT" \/ cleanPath (URL_Path r) = URL_Path r ->
  Method r <> "" ->
  let req := {| cMethod := Method r;
                cURL := "https://" +:+ BMCIP (config c) +:+ URL_Path r;
                cHeader := Header.copy_into ∅ (ReqHeader r);
                cBody := None |} in
  http_NewRequest_ok pf (Method r) (cURL req) = true ->
  client_Do pf req = Some resp ->
  readErr (RespBody resp) = None ->
  exists w : ResponseWriter,
    Server_serve pf c r = Some (Handled w, [req]) /\
    (forall key,
       Header.Values (cHeader req) key = Header.Values (ReqHeader r) key) /\
    status w = StatusCode resp /\
    (forall key,
       Header.Values (sentHeader w) key =
       if HasSuffix (URL_Path r) ".js" && bool_decide (key = "Content-Type")
       then ["application/javascript"]
       else Header.Values (RespHeader resp) key) /\
    written w = received (RespBody resp).
Proof.
  intros Hserv Hst Hal Hclean Hm req Hok Hdo Hread.
  destruct (in_service_ready c Hserv) as (Hmux & _).
  destruct (allowListed_not_cert _ Hal) as (_ & _ & Hstar).
  rewrite Server_serve_started, ServeHTTP_not_star by done.
  rewrite Hmux, (proj2 (proxied_iff r)) by done. cbn [Handler_ServeHTTP].
  subst req. cbn [cURL] in Hok.
  unfold proxySDKHandler, http_NewRequest. rewrite Hok.
  rewrite (bool_decide_eq_false_2 (Method r = "")) by done.
  unfold with_cHeader. cbn [cMethod cURL cHeader cBody].
  rewrite Hdo. unfold io_ReadAll.
  eexists. split; [reflexivity|].
  split; [intros key; apply Values_copy_into_empty|].
  destruct (HasSuffix (URL_Path r) ".js");
    cbn [ResponseWriter.with_Header ResponseWriter.WriteHeader
         ResponseWriter.Write ResponseWriter.fresh handlerHeader wroteHeader
         status sentHeader written andb];
    (split; [done|]); (split; [|done]); intros key.
  - rewrite Values_Set. case_bool_decide as E; subst.
    + by rewrite decide_True.
    + rewrite decide_False by done. apply Values_copy_into_empty.
  - apply Values_copy_into_empty.
Qed.

Lemma allowListed_request_relayed_witness :
  exists w : ResponseWriter,
    Server_serve lab_platform lab_started (GET "/SDK_Pilot4/rpviewer.js")
    = Some (Handled w,
            [ {| cMethod := "GET";
                 cURL := "https://" +:+ BMCIP (config lab_started)
                         +:+ "/SDK_Pilot4/rpviewer.js";
                 cHeader := Header.copy_into ∅ (ReqHeader (GET "/SDK_Pilot4/rpviewer.js"));
                 cBody := None |} ]) /\
    status w = 200 /\
    Header.Values (sentHeader w) "Content-Type" = ["application/javascript"] /\
    written w = "var RPViewer = {};".
Proof.
  destruct (allowListed_request_relayed lab_platform lab_started
              (GET "/SDK_Pilot4/rpviewer.js") lab_answer)
    as (w & Hs & _ & Hst & Hh & Hb).
  - apply lab_started_in_service.
  - apply lab_started_started.
  - vm_compute. reflexivity.
  - right. vm_compute. reflexivity.
  - vm_compute. discriminate.
  - reflexivity.
  - reflexivity.
  - reflexivity.
  - exists w. split; [exact Hs|]. split; [exact Hst|]. split; [|exact Hb].
    rewrite Hh. reflexivity.
Defined.

(** ** The rendered page *)

Lemma append_nil_r (s : string) : s +:+ "" = s.
Proof. induction s as [|c s IH]; [done|]. by rewrite append_cons, IH. Qed.

Lemma render_unfold (cfg : ConsoleConfig) :
  render cfg =
  escaped0.2 +:+ htmlEscaper (BMCIP cfg) +:+
  escaped1.2 +:+ jsStrEscaper (BMCIP cfg) +:+
  escaped2.2 +:+ jsValEscaper_int (RPPort cfg) +:+
  escaped3.2 +:+ jsStrEscaper (Username cfg) +:+
  escaped4.2 +:+ jsStrEscaper (Password cfg) +:+
  escaped5.2.
Proof.
  unfold render, htmlTemplate.
  cbn [template_Execute data_BMCIP data_RPPort data_BMCUsername data_BMCPassword].
  by rewrite append_nil_r.
Qed.

Lemma plainByte_spec (c : ascii) :
  plainByte c = true ->
  htmlReplacement c = None /\ jsStrReplacement c = None /\
  (nat_of_ascii c =? 226)%nat = false /\ Ascii.eqb c "{" = false.
Proof.
  unfold plainByte. intros H.
  apply andb_prop in H as [H Hj]. apply andb_prop in H as [H Hh].
  apply andb_prop in H as [Hlt Hb].
  apply bool_decide_eq_true in Hj. apply bool_decide_eq_true in Hh.
  apply Nat.ltb_lt in Hlt. apply negb_true_iff, Nat.eqb_neq in Hb.
  repeat split; [done|done|apply Nat.eqb_neq; lia|].
  apply Ascii.eqb_neq. intros ->. by apply Hb.
Qed.

Lemma jsStrEscaper_cons (c : ascii) (s : string) :
  jsStrReplacement c = None -> (nat_of_ascii c =? 226)%nat = false ->
  jsStrEscaper (String c s) = String c (jsStrEscaper s).
Proof.
  intros Hr Hn. cbn [jsStrEscaper]. rewrite Hr, Hn.
  by destruct s as [|c1 [|c2 s]].
Qed.

(** The escapers leave a plain string as it is. *)
Lemma htmlEscaper_plain (s : string) : plain s = true -> htmlEscaper s = s.
Proof.
  induction s as [|c s IH]; [done|]. cbn [plain htmlEscaper].
  intros [Hc Hs]%andb_prop. apply plainByte_spec in Hc as (-> & _).
  by rewrite IH.
Qed.

Lemma jsStrEscaper_plain (s : string) : plain s = true -> jsStrEscaper s = s.
Proof.
  induction s as [|c s IH]; [done|]. cbn [plain].
  intros [Hc Hs]%andb_prop. apply plainByte_spec in Hc as (_ & Hj & Hn & _).
  by rewrite jsStrEscaper_cons, IH.
Qed.

(** *** No action delimiter is left in the page *)

Lemma scanBraces_app (st : bool) (a b : string) :
  scanBraces st (a +:+ b) = scanBraces st a ≫= fun st' => scanBraces st' b.
Proof.
  revert st; induction a as [|c a IH]; intros st; [done|].
  rewrite append_cons. cbn [scanBraces].
  destruct (Ascii.eqb c "{"); [destruct st|]; by rewrite ?IH.
Qed.

Lemma scanBraces_app_false (a b : string) :
  scanBraces false a = Some false -> scanBraces false b = Some false ->
  scanBraces false (a +:+ b) = Some false.
Proof. intros Ha Hb. by rewrite scanBraces_app, Ha. Qed.

Lemma scanBraces_plain (s : string) :
  plain s = true -> scanBraces false s = Some false.
Proof.
  induction s as [|c s IH]; [done|]. cbn [plain scanBraces].
  intros [Hc Hs]%andb_prop. apply plainByte_spec in Hc as (_ & _ & _ & ->).
  by apply IH.
Qed.

Lemma scanBraces_uint (d : Decimal.uint) :
  scanBraces false (NilEmpty.string_of_uint d) = Some false.
Proof. induction d; done. Qed.

Lemma scanBraces_Itoa (n : Z) : scanBraces false (Itoa n) = Some false.
Proof.
  unfold Itoa. destruct n as [|p|p]; cbn [Z.to_int NilZero.string_of_int];
    [done| |cbn [scanBraces Ascii.eqb]];
    unfold NilZero.string_of_uint;
    (destruct (Pos.to_uint p) eqn:E; [done|rewrite <- E; apply scanBraces_uint..]).
Qed.

Lemma scanBraces_jsValEscaper_int (n : Z) :
  scanBraces false (jsValEscaper_int n) = Some false.
Proof.
  unfold jsValEscaper_int. apply scanBraces_app_false; [done|].
  apply scanBraces_app_false; [apply scanBraces_Itoa|done].
Qed.

Lemma scanBraces_Contains (s : string) (st : bool) :
  Contains s "{{" = true -> scanBraces st s = None.
Proof.
  revert st; induction s as [|c s IH]; intros st; [done|].
  cbn [Contains]. destruct (HasPrefix (String c s) "{{") eqn:E.
  - intros _. apply HasPrefix_spec in E as [t Ht].
    rewrite Ht. by destruct st.
  - intros H. cbn [scanBraces].
    destruct (Ascii.eqb c "{"); [destruct st; [done|]|]; by apply IH.
Qed.

(** A string that holds a placeholder holds two opening braces in a row. *)
Lemma Contains_placeholder (s tok : string) :
  tok ∈ placeholders -> Contains s tok = true -> Contains s "{{" = true.
Proof.
  intros Hin [a [b ->]]%Contains_spec.
  assert (exists t, tok = "{{" +:+ t) as [t ->].
  { unfold placeholders in Hin.
    repeat (apply elem_of_cons in Hin as [->|Hin]; [by eexists|]).
    by apply elem_of_nil in Hin. }
  rewrite append_assoc. apply Contains_app.
Qed.

Lemma texts_scanBraces :
  Forall (fun text => scanBraces false text = Some false)
    [escaped0.2; escaped1.2; escaped2.2; escaped3.2;
     escaped4.2; escaped5.2].
Proof. repeat constructor; by vm_compute. Qed.

Lemma render_scanBraces (cfg : ConsoleConfig) :
  plain (BMCIP cfg) = true -> plain (Username cfg) = true ->
  plain (Password cfg) = true ->
  scanBraces false (render cfg) = Some false.
Proof.
  intros Hip Hu Hp. rewrite render_unfold.
  rewrite htmlEscaper_plain, !jsStrEscaper_plain by done.
  pose proof texts_scanBraces as Ht.
  repeat (apply Forall_cons in Ht as [? Ht]).
  repeat (apply scanBraces_app_false;
          [first [assumption|by apply scanBraces_plain
                 |apply scanBraces_jsValEscaper_int]|]).
  assumption.
Qed.

Lemma render_no_placeholder (cfg : ConsoleConfig) (tok : string) :
  plain (BMCIP cfg) = true -> plain (Username cfg) = true ->
  plain (Password cfg) = true ->
  tok ∈ placeholders -> Contains (render cfg) tok = false.
Proof.
  intros Hip Hu Hp Hin. destruct (Contains (render cfg) tok) eqn:E; [|done].
  apply (Contains_placeholder _ _ Hin) in E.
  apply (scanBraces_Contains _ false) in E.
  by rewrite render_scanBraces in E.
Qed.

(** Each value stands in the page in its escaped form. *)
Lemma render_Contains_values (cfg : ConsoleConfig) :
  Contains (render cfg) (htmlEscaper (BMCIP cfg)) = true /\
  Contains (render cfg) (jsStrEscaper (BMCIP cfg)) = true /\
  Contains (render cfg) (jsValEscaper_int (RPPort cfg)) = true /\
  Contains (render cfg) (jsStrEscaper (Username cfg)) = true /\
  Contains (render cfg) (jsStrEscaper (Password cfg)) = true.
Proof.
  rewrite render_unfold.
  split; [|split; [|split; [|split]]]; apply Contains_spec.
  - by exists escaped0.2, (escaped1.2 +:+ jsStrEscaper (BMCIP cfg) +:+
          escaped2.2 +:+ jsValEscaper_int (RPPort cfg) +:+
          escaped3.2 +:+ jsStrEscaper (Username cfg) +:+
          escaped4.2 +:+ jsStrEscaper (Password cfg) +:+ escaped5.2).
  - exists (escaped0.2 +:+ htmlEscaper (BMCIP cfg) +:+ escaped1.2),
           (escaped2.2 +:+ jsValEscaper_int (RPPort cfg) +:+
            escaped3.2 +:+ jsStrEscaper (Username cfg) +:+
            escaped4.2 +:+ jsStrEscaper (Password cfg) +:+ escaped5.2).
    by rewrite !append_assoc.
  - exists (escaped0.2 +:+ htmlEscaper (BMCIP cfg) +:+
            escaped1.2 +:+ jsStrEscaper (BMCIP cfg) +:+ escaped2.2),
           (escaped3.2 +:+ jsStrEscaper (Username cfg) +:+
            escaped4.2 +:+ jsStrEscaper (Password cfg) +:+ escaped5.2).
    by rewrite !append_assoc.
  - exists (escaped0.2 +:+ htmlEscaper (BMCIP cfg) +:+
            escaped1.2 +:+ jsStrEscaper (BMCIP cfg) +:+
            escaped2.2 +:+ jsValEscaper_int (RPPort cfg) +:+ escaped3.2),
           (escaped4.2 +:+ jsStrEscaper (Password cfg) +:+ escaped5.2).
    by rewrite !append_assoc.
  - exists (escaped0.2 +:+ htmlEscaper (BMCIP cfg) +:+
            escaped1.2 +:+ jsStrEscaper (BMCIP cfg) +:+
            escaped2.2 +:+ jsValEscaper_int (RPPort cfg) +:+
            escaped3.2 +:+ jsStrEscaper (Username cfg) +:+ escaped4.2),
           escaped5.2.
    by rewrite !append_assoc.
Qed.

(** ** The root path *)

Lemma ready_root (pf : Platform) (c : Console) (r : Request) :
  ready c -> started c -> URL_Path r = "/" ->
  Server_serve pf c r = Some (Handled (consoleHandler c ResponseWriter.fresh r), []).
Proof.
  intros (Hmux & _) Hst Hp.
  assert (URL_Path r <> "*") as Hstar by (by rewrite Hp).
  rewrite Server_serve_started, ServeHTTP_not_star by done.
  rewrite Hmux, canonical_dispatch; rewrite Hp; done.
Qed.

(** C6, as the code has it. A started, initialized session answers a
    request for the root path with status 200, content type [text/html]
    and the rendered page, which holds the target host, the remote-presence
    port, the user name and the password in escaped form: the host
    HTML-escaped (in the list item) and, like the user name and the
    password, escaped for a quoted JavaScript string (in the script), the
    port in decimal between two spaces. So the body contains the host and
    the user name as configured when they are plain, and no placeholder
    when the password is plain too. *)
Theorem root_serves_rendered_page (pf : Platform) (c : Console) (r : Request) :
  in_service c -> started c -> URL_Path r = "/" ->
  exists w : ResponseWriter,
    Server_serve pf c r = Some (Handled w, []) /\
    status w = StatusOK /\
    Header.Values (sentHeader w) "Content-Type" = ["text/html"] /\
    written w = consoleHTML c /\ consoleHTML c = render (config c) /\
    (Contains (written w) (htmlEscaper (BMCIP (config c))) = true /\
     Contains (written w) (jsStrEscaper (BMCIP (config c))) = true /\
     Contains (written w) (jsValEscaper_int (RPPort (config c))) = true /\
     Contains (written w) (jsStrEscaper (Username (config c))) = true /\
     Contains (written w) (jsStrEscaper (Password (config c))) = true) /\
    (plain (BMCIP (config c)) = true ->
     Contains (written w) (BMCIP (config c)) = true) /\
    (plain (Username (config c)) = true ->
     Contains (written w) (Username (config c)) = true) /\
    (plain (BMCIP (config c)) = true -> plain (Username (config c)) = true ->
     plain (Password (config c)) = true ->
     forall tok, tok ∈ placeholders -> Contains (written w) tok = false).
Proof.
  intros Hserv Hst Hp. pose proof (in_service_ready c Hserv) as Hr.
  exists (consoleHandler c ResponseWriter.fresh r).
  split; [by apply ready_root|].
  destruct (consoleHandler_fresh c r) as (Hs & Hw & Hh).
  destruct Hr as (_ & _ & Hhtml).
  split; [exact Hs|]. split; [exact Hh|]. split; [exact Hw|].
  split; [exact Hhtml|]. rewrite Hw, Hhtml.
  pose proof (render_Contains_values (config c)) as (H1 & H2 & H3 & H4 & H5).
  split; [exact (conj H1 (conj H2 (conj H3 (conj H4 H5))))|]. split; [|split].
  - intros H. rewrite <- (htmlEscaper_plain _ H). exact H1.
  - intros H. rewrite <- (jsStrEscaper_plain _ H). exact H4.
  - intros Hi Hu Hpw tok Htok. apply render_no_placeholder; assumption.
Qed.

Lemma root_serves_rendered_page_witness :
  exists w : ResponseWriter,
    Server_serve lab_platform lab_started (GET "/") = Some (Handled w, []) /\
    status w = 200 /\
    Contains (written w) "10.145.127.12" = true /\
    Contains (written w) "USERID" = true /\
    Contains (written w) "{{.BMCIP}}" = false.
Proof.
  destruct (root_serves_rendered_page lab_platform lab_started (GET "/"))
    as (w & Hs & Hst & _ & _ & _ & _ & Hip & Hu & Htok).
  - apply lab_started_in_service.
  - apply lab_started_started.
  - reflexivity.
  - exists w. split; [exact Hs|]. split; [exact Hst|].
    split; [apply Hip; by vm_compute|]. split; [apply Hu; by vm_compute|].
    apply Htok; [by vm_compute..|]. apply list_elem_of_here.
Defined.

Lemma obrien_in_service : in_service obrien_started.
Proof.
  exists (Initialize lab_platform (NewConsole obrien_config)).2. split.
  - exists lab_platform, (NewConsole obrien_config).
    split; [by exists obrien_config|by vm_compute].
  - apply rtc_once.
    exact (step_call lab_platform CallStart
             (Initialize lab_platform (NewConsole obrien_config)).2).
Qed.

(** C6 as stated fails: with the user name [O'Brien] the page a started,
    initialized session serves at the root path does not contain the user
    name as configured (the apostrophe is escaped). *)
Lemma page_lacks_escaped_username :
  in_service obrien_started /\ started obrien_started /\
  Server_serve lab_platform obrien_started (GET "/")
  = Some (Handled (consoleHandler obrien_started ResponseWriter.fresh (GET "/")),
          []) /\
  Contains (written (consoleHandler obrien_started ResponseWriter.fresh (GET "/")))
           (Username (config obrien_started)) = false.
Proof.
  split; [apply obrien_in_service|]. split; [by eexists|].
  split; by vm_compute.
Qed.

(** ** What [Initialize] changes *)

(** With no listen port configured, [Initialize] leaves in [serverPort]
    the port the system hands out, whatever was there, and what was there
    when the system has none. *)
Lemma Initialize_auto_port (pf : Platform) (c : Console) :
  ServerPort (config c) = 0 ->
  serverPort (Initialize pf c).2 =
  match net_Listen0 pf with
  | inr port => port
  | inl _ => serverPort c
  end.
Proof.
  intros H. rewrite Initialize_unfold. unfold prepared.
  rewrite bool_decide_eq_true_2 by done.
  destruct (net_Listen0 pf) as [e|port]; [reflexivity|].
  match goal with |- context [setupHandlers ?x] =>
    destruct (setupHandlers_frame x) as [m ->] end.
  reflexivity.
Qed.

(** C9, as the code has it. [Initialize], however it ends, leaves the
    target host, the user name, the password and the browser preference of
    the configuration as they were, as well as the configured listen port
    and the server; it writes the remote-presence port only if that was
    unset. The listen port is kept in the session, not in the
    configuration, and is written by every call: the configured port when
    one is set, else the port the system hands out at that call, also over
    a port handed out before (it stays only when the system has none).
    Every call renders the page, from the configuration it leaves. When
    the call returns nil, no later call changes the configuration or the
    bytes of the page: a started session serves that same page, byte for
    byte, at the root path. *)
Theorem Initialize_frame_and_page (pf : Platform) (c : Console) :
  session c ->
  let c' := (Initialize pf c).2 in
  (BMCIP (config c') = BMCIP (config c) /\
   Username (config c') = Username (config c) /\
   Password (config c') = Password (config c) /\
   UseFirefox (config c') = UseFirefox (config c) /\
   ServerPort (config c') = ServerPort (config c)) /\
  (RPPort (config c) <> 0 -> RPPort (config c') = RPPort (config c)) /\
  (ServerPort (config c) <> 0 -> serverPort c' = ServerPort (config c)) /\
  (ServerPort (config c) = 0 ->
   serverPort c' = match net_Listen0 pf with
                   | inr port => port
                   | inl _ => serverPort c
                   end) /\
  server c' = server c /\
  consoleHTML c' = render (config c') /\
  ((Initialize pf c).1 = Ret tt ->
   forall c'' : Console, rtc step c' c'' ->
     config c'' = config c' /\ consoleHTML c'' = consoleHTML c' /\
     forall (pf' : Platform) (r : Request),
       started c'' -> URL_Path r = "/" ->
       exists w : ResponseWriter,
         Server_serve pf' c'' r = Some (Handled w, []) /\
         written w = consoleHTML c').
Proof.
  intros Hsess c'. subst c'.
  pose proof (Initialize_setup pf c) as (Hc & Hh & Hs).
  split; [|split; [|split; [|split; [|split; [exact Hs|split]]]]].
  - rewrite Hc. unfold resolved. by case_bool_decide.
  - intros Hrp. by rewrite Hc, resolved_fixed.
  - apply Initialize_explicit_port.
  - apply Initialize_auto_port.
  - by rewrite Hh, Hc.
  - intros Hret.
    assert (ready (Initialize pf c).2) as Hr.
    { apply (Initialize_Ret_ready pf c); [by apply session_session_inv|].
      destruct (Initialize pf c) as [res c1]. cbn [fst snd] in *. by subst res. }
    intros c'' Hsteps.
    destruct (rtc_ready _ _ Hr Hsteps) as (Hcfg & Hhtml & Hmux).
    split; [exact Hcfg|]. split; [exact Hhtml|]. intros pf' r Hst Hp.
    eexists. split.
    + apply ready_root; [|done..]. eapply same_setup_ready; [|exact Hr].
      by apply rtc_ready.
    + destruct (consoleHandler_fresh c'' r) as (_ & -> & _). exact Hhtml.
Qed.

Lemma Initialize_frame_and_page_witness :
  config lab_session
  = {| BMCIP := "10.145.127.12"; Username := "USERID"; Password := "PASSW0RD";
       RPPort := 3901; UseFirefox := true; ServerPort := 8443 |} /\
  exists w : ResponseWriter,
    Server_serve lab_platform lab_started (GET "/") = Some (Handled w, []) /\
    written w = consoleHTML lab_session.
Proof.
  split; [by vm_compute|].
  destruct (Initialize_frame_and_page lab_platform (NewConsole lab_config))
    as (_ & _ & _ & _ & _ & _ & Hpage).
  - by exists lab_config.
  - destruct (Hpage ltac:(by vm_compute) lab_started) as (_ & _ & Hroot).
    + apply rtc_once. exact (step_call lab_platform CallStart lab_session).
    + apply (Hroot lab_platform (GET "/")); [apply lab_started_started|reflexivity].
Defined.

(** C9 as stated fails for the listen port. In a session set up with no
    listen port configured, the listen port field of the configuration is
    still unset after [Initialize], and the port of the session, set by
    that call, is set again, to another port, by the next one. *)
Lemma listen_port_written_again :
  (Initialize lab_platform (NewConsole auto_config)).1 = Ret tt /\
  ServerPort (config auto_session) = 0 /\
  serverPort auto_session = 49152 /\
  serverPort (Initialize later_platform auto_session).2 = 49153 /\
  consoleHTML (Initialize later_platform auto_session).2
  = render (config auto_session).
Proof. repeat split; vm_compute; reflexivity. Qed.

(** ** The sessions of the lab at work *)

Example lab_GetURL : GetURL lab_session = "https://localhost:8443".
Proof. vm_compute. reflexivity. Qed.

(** A second [Initialize] panics in [setupHandlers]. *)
Example lab_Initialize_twice :
  (Initialize lab_platform lab_session).1
  = Panic "http: multiple registrations for /".
Proof. vm_compute. reflexivity. Qed.

(** [/cert.pem] gets the helper page. *)
Example lab_cert :
  Server_serve lab_platform lab_started (GET "/cert.pem")
  = Some (Handled (certHandler ResponseWriter.fresh (GET "/cert.pem")), []) /\
  written (certHandler ResponseWriter.fresh (GET "/cert.pem")) = certHTML.
Proof. split; vm_compute; reflexivity. Qed.

(** The subtree without its slash, and a path that is not clean, are
    redirected (by the Go 1.21 mux); the BMC is not asked. *)
Example lab_redirects :
  Server_serve lab_platform lab_started (GET "/SDK_Pilot4")
  = Some (Redirect "/SDK_Pilot4/" 301, []) /\
  Server_serve lab_platform lab_started (GET "/SDK_Pilot4/../utility.js")
  = Some (Redirect "/utility.js" 301, []).
Proof. split; vm_compute; reflexivity. Qed.

(** A CONNECT request for an authority has an empty path, which no pattern
    matches. *)
Example lab_connect_authority :
  Server_serve lab_platform lab_started
    {| Method := "CONNECT"; URL_Path := ""; ReqHeader := ∅; ReqBody := "" |}
  = Some (NotFound, []).
Proof. vm_compute. reflexivity. Qed.

(** When the BMC cannot be reached the relay answers 500. *)
Example lab_unreachable :
  exists (w : ResponseWriter) (req : ClientRequest),
    Server_serve unreachable_platform lab_started (GET "/utility.js")
    = Some (Handled w, [req]) /\
    status w = 500 /\
    written w = "Failed to fetch from BMC" +:+ String (ascii_of_nat 10) "" /\
    Header.Values (sentHeader w) "Content-Type" = ["text/plain; charset=utf-8"].
Proof. do 2 eexists. repeat split; vm_compute; reflexivity. Qed.

(** A session that was started without [Initialize] has no handlers: every
    path, the root included, is not found. *)
Example started_without_Initialize :
  Server_serve lab_platform (Start (NewConsole lab_config)).1.2 (GET "/")
  = Some (NotFound, []).
Proof. vm_compute. reflexivity. Qed.

(** After [Stop] the server of the session answers no more. *)
Example lab_stopped :
  Server_serve lab_platform (Stop lab_platform lab_started).1.2 (GET "/") = None.
Proof. vm_compute. reflexivity. Qed.

(** The server answers [OPTIONS *] itself; any other request for [*] is a
    bad request of the mux. *)
Example lab_options_star :
  Server_serve lab_platform lab_started
    {| Method := "OPTIONS"; URL_Path := "*"; ReqHeader := ∅; ReqBody := "" |}
  = Some (GlobalOptions, []) /\
  Server_serve lab_platform lab_started (GET "*") = Some (BadRequest, []).
Proof. split; vm_compute; reflexivity. Qed.

(** The page of the lab has 13942 bytes, 1397 fewer than the template's
    text and the values together: the 33 line comments of the script are
    left out.  Its script still holds the two slashes of [https://], which
    stand in strings. *)
Example lab_page_length :
  Z.of_nat (String.length (consoleHTML lab_session)) = 13942 /\
  Z.of_nat (String.length
              (Template.text0 +:+ "10.145.127.12" +:+ Template.text1
               +:+ "10.145.127.12" +:+ Template.text2 +:+ " 3901 "
               +:+ Template.text3 +:+ "USERID" +:+ Template.text4
               +:+ "PASSW0RD" +:+ Template.text5)) = 13942 + 1397 /\
  Contains (consoleHTML lab_session) "// " = false /\
  Contains (consoleHTML lab_session) "'https://'" = true.
Proof. repeat split; vm_compute; reflexivity. Qed.

(** ** Finding and starting a browser *)

Lemma supported_cases (goos : string) :
  supported goos = true ->
  goos = "windows" \/ goos = "darwin" \/ goos = "linux".
Proof.
  unfold supported. intros H. apply bool_decide_eq_true in H.
  rewrite !elem_of_cons in H. rewrite elem_of_nil in H. tauto.
Qed.

Lemma unsupported_cases (goos : string) :
  supported goos = false ->
  goos <> "windows" /\ goos <> "darwin" /\ goos <> "linux".
Proof.
  unfold supported. intros H. apply bool_decide_eq_false in H.
  rewrite !elem_of_cons in H. rewrite elem_of_nil in H. tauto.
Qed.

(** On the three systems it knows, [getBrowserCommand] makes one choice: the
    first Firefox path that exists if Firefox was asked for, else the first
    Chrome path that exists, else the system's opener. *)
Lemma getBrowserCommand_select (sys : System) (c : Console) (url : string) :
  supported (GOOS sys) = true ->
  getBrowserCommand sys c url =
  Ret (match (if UseFirefox (config c)
              then List.find (os_Stat sys) (firefoxPaths (GOOS sys))
              else None) with
       | Some ffPath => exec_Command ffPath [url]
       | None =>
           match List.find (os_Stat sys) (chromePaths (GOOS sys)) with
           | Some chromePath => chromeCommand sys chromePath url
           | None => defaultOpener (GOOS sys) url
           end
       end).
Proof.
  intros Hs. apply supported_cases in Hs.
  unfold getBrowserCommand, firefoxPaths, chromePaths, defaultOpener.
  destruct Hs as [E|[E|E]]; rewrite E; cbn [bool_decide]; simpl.
  - unfold getWindowsBrowserCommand.
    destruct (UseFirefox (config c)); simpl;
      repeat (destruct (os_Stat sys _); simpl; try reflexivity).
  - unfold getDarwinBrowserCommand.
    destruct (UseFirefox (config c)); simpl;
      repeat (destruct (os_Stat sys _); simpl; try reflexivity).
  - unfold getLinuxBrowserCommand.
    destruct (UseFirefox (config c)); simpl;
      repeat (destruct (os_Stat sys _); simpl; try reflexivity).
Qed.

Lemma getBrowserCommand_unsupported (sys : System) (c : Console) (url : string) :
  supported (GOOS sys) = false ->
  getBrowserCommand sys c url = Err ("unsupported platform: " +:+ GOOS sys).
Proof.
  intros Hs. apply unsupported_cases in Hs. destruct Hs as (H1 & H2 & H3).
  unfold getBrowserCommand.
  rewrite !bool_decide_eq_false_2 by assumption. reflexivity.
Qed.

Lemma find_In {A : Type} (p : A -> bool) (l : list A) (x : A) :
  List.find p l = Some x -> x ∈ l /\ p x = true.
Proof.
  intros H. apply List.find_some in H. destruct H as [H1 H2].
  split; [apply list_elem_of_In; exact H1 | exact H2].
Qed.

Lemma find_present {A : Type} (p : A -> bool) (l : list A) (x : A) :
  x ∈ l -> p x = true -> exists y, List.find p l = Some y.
Proof.
  intros Hin Hp. destruct (List.find p l) as [y|] eqn:E; [eauto|].
  exfalso. apply list_elem_of_In in Hin.
  pose proof (List.find_none _ _ E x Hin) as H. congruence.
Qed.

Lemma find_absent {A : Type} (p : A -> bool) (l : list A) :
  Forall (fun x => p x = false) l -> List.find p l = None.
Proof.
  induction 1 as [|x l Hx _ IH]; [reflexivity|]. simpl. rewrite Hx. exact IH.
Qed.

(** X1: [getBrowserCommand] returns a command exactly on windows, darwin and
    linux; on any other system it returns the error "unsupported platform:"
    followed by the system's name, and no command. *)
Theorem getBrowserCommand_platforms (sys : System) (c : Console) (url : string) :
  ((exists cmd, getBrowserCommand sys c url = Ret cmd) <->
   GOOS sys ∈ ["windows"; "darwin"; "linux"]) /\
  (GOOS sys ∉ ["windows"; "darwin"; "linux"] ->
   getBrowserCommand sys c url = Err ("unsupported platform: " +:+ GOOS sys)).
Proof.
  destruct (supported (GOOS sys)) eqn:Hs.
  - pose proof Hs as Hin. unfold supported in Hin.
    apply bool_decide_eq_true in Hin.
    split; [split|].
    + intros _. exact Hin.
    + intros _. rewrite (getBrowserCommand_select sys c url Hs). eauto.
    + intros Hn. contradiction.
  - pose proof Hs as Hn. unfold supported in Hn.
    apply bool_decide_eq_false in Hn.
    rewrite (getBrowserCommand_unsupported sys c url Hs).
    split; [split|].
    + intros [cmd H]. discriminate H.
    + intros Hin. contradiction.
    + intros _. reflexivity.
Qed.

Lemma getBrowserCommand_platforms_witness :
  (exists cmd, getBrowserCommand lab_system (NewConsole lab_config)
                 "https://localhost:8443" = Ret cmd) /\
  getBrowserCommand freebsd_system (NewConsole lab_config)
    "https://localhost:8443"
  = Err "unsupported platform: freebsd".
Proof.
  split.
  - apply (getBrowserCommand_platforms lab_system (NewConsole lab_config)
             "https://localhost:8443").
    simpl. rewrite !elem_of_cons. right; right; left; reflexivity.
  - apply (getBrowserCommand_platforms freebsd_system
             (NewConsole lab_config) "https://localhost:8443").
    simpl. rewrite !elem_of_cons, elem_of_nil.
    intros [H|[H|[H|[]]]]; discriminate H.
Defined.

Lemma firefoxPaths_supported (goos p : string) :
  p ∈ firefoxPaths goos -> supported goos = true.
Proof.
  intros H. destruct (supported goos) eqn:Hs; [reflexivity|].
  apply unsupported_cases in Hs. destruct Hs as (H1 & H2 & H3).
  unfold firefoxPaths in H.
  rewrite !bool_decide_eq_false_2 in H by assumption.
  apply elem_of_nil in H. contradiction.
Qed.

Lemma chromePaths_not_firefox (goos p : string) :
  p ∈ chromePaths goos -> p ∉ firefoxPaths goos.
Proof.
  unfold chromePaths, firefoxPaths, linux_chromePaths, linux_firefoxPaths,
    windows_firefoxPaths.
  repeat case_bool_decide; intros Hin;
    try (apply elem_of_nil in Hin; contradiction);
    rewrite ?elem_of_cons, ?elem_of_nil in Hin;
    repeat (destruct Hin as [Hin|Hin]; [subst p|]); try contradiction;
    apply (proj1 (bool_decide_eq_false _)); vm_compute; reflexivity.
Qed.

Lemma defaultOpener_not_firefox (goos url p : string) :
  head (Args (defaultOpener goos url)) = Some p -> p ∉ firefoxPaths goos.
Proof.
  unfold defaultOpener, firefoxPaths, linux_firefoxPaths, windows_firefoxPaths.
  repeat case_bool_decide; simpl; intros Hp; injection Hp as <-;
    try apply not_elem_of_nil;
    apply (proj1 (bool_decide_eq_false _)); vm_compute; reflexivity.
Qed.

(** X2: when Firefox is asked for and one of the system's Firefox paths
    exists, the command is the first such path with the URL as its only
    argument. *)
Theorem firefox_preferred_when_present (sys : System) (c : Console)
    (url ffPath : string) :
  UseFirefox (config c) = true ->
  ffPath ∈ firefoxPaths (GOOS sys) -> os_Stat sys ffPath = true ->
  exists p : string,
    List.find (os_Stat sys) (firefoxPaths (GOOS sys)) = Some p /\
    p ∈ firefoxPaths (GOOS sys) /\ os_Stat sys p = true /\
    getBrowserCommand sys c url = Ret {| Args := [p; url] |}.
Proof.
  intros Hff Hin Hstat.
  pose proof (firefoxPaths_supported _ _ Hin) as Hs.
  destruct (find_present _ _ _ Hin Hstat) as [p Hp].
  exists p. destruct (find_In _ _ _ Hp) as [Hp1 Hp2].
  split; [exact Hp|]. split; [exact Hp1|]. split; [exact Hp2|].
  rewrite (getBrowserCommand_select sys c url Hs), Hff, Hp. reflexivity.
Qed.

Lemma firefox_preferred_when_present_witness :
  exists p : string,
    List.find (os_Stat lab_system) (firefoxPaths (GOOS lab_system)) = Some p /\
    p ∈ firefoxPaths (GOOS lab_system) /\ os_Stat lab_system p = true /\
    getBrowserCommand lab_system (NewConsole lab_config) "https://localhost:8443"
    = Ret {| Args := [p; "https://localhost:8443"] |}.
Proof.
  apply (firefox_preferred_when_present lab_system (NewConsole lab_config)
           "https://localhost:8443" "/snap/bin/firefox").
  - reflexivity.
  - apply (bool_decide_unpack _). vm_compute. exact I.
  - vm_compute. reflexivity.
Defined.

(** X3: when Firefox is not asked for, or none of the system's Firefox
    paths exists, the command is never Firefox: it is the first Chrome path
    that exists, with the nine flags, the temporary profile directory and
    the URL, or else the system's opener with the URL. *)
Theorem browser_without_firefox (sys : System) (c : Console) (url : string) :
  supported (GOOS sys) = true ->
  UseFirefox (config c) = false \/
  Forall (fun p => os_Stat sys p = false) (firefoxPaths (GOOS sys)) ->
  exists cmd : Cmd,
    getBrowserCommand sys c url = Ret cmd /\
    (forall p, head (Args cmd) = Some p -> p ∉ firefoxPaths (GOOS sys)) /\
    match List.find (os_Stat sys) (chromePaths (GOOS sys)) with
    | Some chromePath =>
        Args cmd =
        [ chromePath;
          "--ignore-certificate-errors"; "--test-type";
          "--allow-insecure-localhost"; "--disable-popup-blocking";
          "--disable-blink-features=AutomationControlled";
          "--disable-session-crashed-bubble"; "--disable-infobars";
          "--no-first-run"; "--no-default-browser-check";
          "--user-data-dir=" +:+ os_TempDir sys +:+ "/chrome-temp-profile";
          url ]
    | None =>
        Args cmd =
        if bool_decide (GOOS sys = "windows")
        then ["rundll32"; "url.dll,FileProtocolHandler"; url]
        else if bool_decide (GOOS sys = "darwin") then ["open"; url]
        else ["xdg-open"; url]
    end.
Proof.
  intros Hs Hno.
  assert (Hnone : (if UseFirefox (config c)
                   then List.find (os_Stat sys) (firefoxPaths (GOOS sys))
                   else None) = None).
  { destruct Hno as [->|Hall]; [reflexivity|].
    rewrite (find_absent _ _ Hall). destruct (UseFirefox (config c)); reflexivity. }
  rewrite (getBrowserCommand_select sys c url Hs), Hnone.
  destruct (List.find (os_Stat sys) (chromePaths (GOOS sys))) as [chromePath|] eqn:E.
  - eexists. split; [reflexivity|]. split; [|reflexivity].
    intros p Hp. simpl in Hp. injection Hp as <-.
    apply chromePaths_not_firefox. apply (find_In _ _ _ E).
  - eexists. split; [reflexivity|]. split.
    + intros p Hp. exact (defaultOpener_not_firefox _ _ _ Hp).
    + unfold defaultOpener. repeat case_bool_decide; reflexivity.
Qed.

Lemma browser_without_firefox_witness :
  getBrowserCommand lab_system (NewConsole auto_config) "https://localhost:49152"
  = Ret {| Args :=
        [ "/usr/bin/chromium";
          "--ignore-certificate-errors"; "--test-type";
          "--allow-insecure-localhost"; "--disable-popup-blocking";
          "--disable-blink-features=AutomationControlled";
          "--disable-session-crashed-bubble"; "--disable-infobars";
          "--no-first-run"; "--no-default-browser-check";
          "--user-data-dir=/tmp/chrome-temp-profile";
          "https://localhost:49152" ] |}.
Proof.
  destruct (browser_without_firefox lab_system (NewConsole auto_config)
              "https://localhost:49152" eq_refl (or_introl eq_refl))
    as (cmd & Hcmd & _ & Hargs).
  rewrite Hcmd. destruct cmd as [args]. simpl in Hargs. rewrite Hargs.
  reflexivity.
Defined.

(** X4: the URL never decides which program is started and is always the
    last argument: on a supported system all the arguments before it are
    the same for every URL. *)
Theorem browser_url_last_argument (sys : System) (c : Console) :
  supported (GOOS sys) = true ->
  exists pre : list string,
    pre <> [] /\
    forall url : string,
      getBrowserCommand sys c url = Ret {| Args := pre ++ [url] |}.
Proof.
  intros Hs.
  destruct (if UseFirefox (config c)
            then List.find (os_Stat sys) (firefoxPaths (GOOS sys))
            else None) as [ffPath|] eqn:Eff.
  - exists [ffPath]. split; [discriminate|]. intros url.
    rewrite (getBrowserCommand_select sys c url Hs), Eff. reflexivity.
  - destruct (List.find (os_Stat sys) (chromePaths (GOOS sys)))
      as [chromePath|] eqn:Ech.
    + exists [ chromePath;
               "--ignore-certificate-errors"; "--test-type";
               "--allow-insecure-localhost"; "--disable-popup-blocking";
               "--disable-blink-features=AutomationControlled";
               "--disable-session-crashed-bubble"; "--disable-infobars";
               "--no-first-run"; "--no-default-browser-check";
               "--user-data-dir=" +:+ os_TempDir sys +:+ "/chrome-temp-profile" ].
      split; [discriminate|]. intros url.
      rewrite (getBrowserCommand_select sys c url Hs), Eff, Ech. reflexivity.
    + exists (if bool_decide (GOOS sys = "windows")
              then ["rundll32"; "url.dll,FileProtocolHandler"]
              else if bool_decide (GOOS sys = "darwin") then ["open"]
              else ["xdg-open"]).
      split; [repeat case_bool_decide; discriminate|]. intros url.
      rewrite (getBrowserCommand_select sys c url Hs), Eff, Ech.
      unfold defaultOpener. repeat case_bool_decide; reflexivity.
Qed.

Lemma browser_url_last_argument_witness :
  exists pre : list string,
    pre <> [] /\
    forall url : string,
      getBrowserCommand lab_system (NewConsole lab_config) url
      = Ret {| Args := pre ++ [url] |}.
Proof.
  apply (browser_url_last_argument lab_system (NewConsole lab_config)).
  reflexivity.
Defined.

Lemma getBrowserCommand_last (sys : System) (c : Console) (url : string)
    (cmd : Cmd) :
  getBrowserCommand sys c url = Ret cmd -> List.last (Args cmd) "" = url.
Proof.
  destruct (supported (GOOS sys)) eqn:Hs.
  - rewrite (getBrowserCommand_select sys c url Hs).
    intros H. injection H as <-.
    destruct (if UseFirefox (config c) then _ else _); [reflexivity|].
    destruct (List.find _ _); [reflexivity|].
    unfold defaultOpener. repeat case_bool_decide; reflexivity.
  - rewrite (getBrowserCommand_unsupported sys c url Hs). discriminate.
Qed.

(** [getBrowserCommand] reads nothing of the session but the browser
    preference. *)
Lemma getBrowserCommand_pref (sys : System) (c c' : Console) (url : string) :
  UseFirefox (config c) = UseFirefox (config c') ->
  getBrowserCommand sys c url = getBrowserCommand sys c' url.
Proof.
  intros H.
  unfold getBrowserCommand, getWindowsBrowserCommand, getDarwinBrowserCommand,
    getLinuxBrowserCommand.
  rewrite H. reflexivity.
Qed.

(** [OpenInBrowser] on the platform of a system returns what
    [OpenInBrowser_on] returns for that system. *)
Lemma OpenInBrowser_on_system (sys : System) (pf : Platform) (c : Console) :
  (OpenInBrowser (on_system sys pf) c).1.1 = (OpenInBrowser_on sys c).1.
Proof.
  unfold OpenInBrowser, OpenInBrowser_on, on_system. cbn [fst browser_Start].
  rewrite (getBrowserCommand_pref sys _ c (GetURL c)) by reflexivity.
  destruct (supported (GOOS sys)) eqn:Hs.
  - rewrite (getBrowserCommand_select sys c _ Hs).
    destruct (cmd_Start sys _); reflexivity.
  - rewrite (getBrowserCommand_unsupported sys c _ Hs). reflexivity.
Qed.

(** X5: [OpenInBrowser] starts at most one command and leaves the session
    as it is.  It returns nil only when it started a command whose last
    argument is the session's URL; on an unsupported system it starts
    nothing and reports the system; when starting the command fails it
    reports "failed to open browser:" and the error; it never panics. *)
Theorem OpenInBrowser_on_outcomes (sys : System) (c : Console) :
  match OpenInBrowser_on sys c with
  | (Ret _, cmds) =>
      exists cmd, cmds = [cmd] /\ cmd_Start sys cmd = None /\
                  List.last (Args cmd) "" = GetURL c /\
                  supported (GOOS sys) = true
  | (Err e, cmds) =>
      (supported (GOOS sys) = false /\ cmds = [] /\
       e = "unsupported platform: " +:+ GOOS sys) \/
      (exists cmd err, cmds = [cmd] /\ cmd_Start sys cmd = Some err /\
                       List.last (Args cmd) "" = GetURL c /\
                       e = "failed to open browser: " +:+ err)
  | (Panic _, _) => False
  end /\
  forall pf : Platform,
    (OpenInBrowser (on_system sys pf) c).1
    = ((OpenInBrowser_on sys c).1, c).
Proof.
  split.
  - unfold OpenInBrowser_on.
    destruct (supported (GOOS sys)) eqn:Hs.
    + destruct (getBrowserCommand sys c (GetURL c)) as [cmd|e|msg] eqn:Ecmd.
      * pose proof (getBrowserCommand_last _ _ _ _ Ecmd) as Hlast.
        destruct (cmd_Start sys cmd) as [err|] eqn:E.
        -- right. exists cmd, err. split; [reflexivity|]. split; [exact E|].
           split; [exact Hlast|reflexivity].
        -- exists cmd. split; [reflexivity|]. split; [exact E|].
           split; [exact Hlast|reflexivity].
      * rewrite (getBrowserCommand_select sys c _ Hs) in Ecmd. discriminate Ecmd.
      * rewrite (getBrowserCommand_select sys c _ Hs) in Ecmd. discriminate Ecmd.
    + rewrite (getBrowserCommand_unsupported sys c _ Hs).
      left. split; [reflexivity|]. split; reflexivity.
  - intros pf. rewrite <- (OpenInBrowser_on_system sys pf c). reflexivity.
Qed.

(** ** More on the life of a session *)

Lemma initialized_in_service (c : Console) : initialized c -> in_service c.
Proof. intros H. exists c. split; [exact H|apply rtc_refl]. Qed.


Lemma session_step (c c' : Console) : session c -> step c c' -> session c'.
Proof.
  intros [cfg Hs] Hstep. exists cfg. eapply rtc_r; [exact Hs|exact Hstep].
Qed.

Lemma lab_session_in_service : in_service lab_session.
Proof. apply initialized_in_service, lab_session_initialized. Qed.






(** [Initialize] on a ready session: the state it leaves. *)
Lemma prepared_ready (pf : Platform) (c : Console) :
  ready c ->
  prepared pf c =
  if bool_decide (ServerPort (config c) = 0) then
    match net_Listen0 pf with
    | inl e => (Err ("failed to find available port: " +:+ e), c)
    | inr port => (Ret port, c)
    end
  else (Ret (ServerPort (config c)), c).
Proof.
  intros (Hm & Hrp & Hh). unfold prepared.
  rewrite (resolved_fixed pf (config c) Hrp), <- Hh.
  destruct c as [cfg sp srv html m]; cbn [config serverPort server consoleHTML mux].
  reflexivity.
Qed.

Lemma Initialize_in_service (pf : Platform) (c : Console) :
  ready c ->
  Initialize pf c =
  if bool_decide (ServerPort (config c) = 0) then
    match net_Listen0 pf with
    | inl e => (Err ("failed to find available port: " +:+ e), c)
    | inr port => (Panic "http: multiple registrations for /",
                   with_serverPort port c)
    end
  else (Panic "http: multiple registrations for /",
        with_serverPort (ServerPort (config c)) c).
Proof.
  intros Hr. rewrite (Initialize_installed pf c (proj1 Hr)).
  rewrite (prepared_ready pf c Hr).
  case_bool_decide; [destruct (net_Listen0 pf)|]; reflexivity.
Qed.

(** X6: once a call of [Initialize] has returned nil, no later call of
    [Initialize] on the session does: it panics in [setupHandlers], where
    the mux refuses to register [/] again (or it reports that no port was
    found), and [LaunchAndOpen] ends the same way without starting a
    server or a browser.  Configuration, page, handlers and server stay as
    they were. *)
Theorem Initialize_again_fails (pf : Platform) (c : Console) :
  in_service c ->
  ((exists msg, (Initialize pf c).1 = Panic msg) \/
   exists e, ServerPort (config c) = 0 /\ net_Listen0 pf = inl e /\
             (Initialize pf c).1 = Err ("failed to find available port: " +:+ e)) /\
  (Initialize pf c).1 <> Ret tt /\
  LaunchAndOpen pf c = (Initialize pf c, []) /\
  same_setup c (Initialize pf c).2 /\
  server (Initialize pf c).2 = server c.
Proof.
  intros Hin. pose proof (in_service_ready c Hin) as Hr.
  pose proof (Initialize_ready pf c Hr) as Hsame.
  pose proof (Initialize_setup pf c) as (_ & _ & Hsrv).
  unfold LaunchAndOpen.
  rewrite (Initialize_in_service pf c Hr) in *.
  case_bool_decide as Hsp; [destruct (net_Listen0 pf) as [e|port] eqn:El|].
  - split; [right; exists e; split; [exact Hsp|split; reflexivity]|].
    split; [discriminate|]. split; [reflexivity|]. split; [exact Hsame|exact Hsrv].
  - split; [left; eexists; reflexivity|].
    split; [discriminate|]. split; [reflexivity|]. split; [exact Hsame|exact Hsrv].
  - split; [left; eexists; reflexivity|].
    split; [discriminate|]. split; [reflexivity|]. split; [exact Hsame|exact Hsrv].
Qed.

Lemma Initialize_again_fails_witness :
  (Initialize lab_platform lab_session).1 <> Ret tt /\
  LaunchAndOpen lab_platform lab_session
  = (Initialize lab_platform lab_session, []).
Proof.
  destruct (Initialize_again_fails lab_platform lab_session
              lab_session_in_service) as (_ & H1 & H2 & _).
  split; [exact H1|exact H2].
Defined.

(** X7: on a session with no handlers yet and no listen port configured,
    [Initialize] reports a failure to find a port as an error, installs no
    handler and leaves the listen port as it was; the remote-presence port
    and the page are already set, so a later call that gets a port returns
    nil, takes that port and keeps the remote-presence port. *)
Theorem Initialize_port_failure_recoverable (pf : Platform) (c : Console)
    (e : string) :
  mux c = NewServeMux -> ServerPort (config c) = 0 ->
  net_Listen0 pf = inl e ->
  let c1 := (Initialize pf c).2 in
  (Initialize pf c).1 = Err ("failed to find available port: " +:+ e) /\
  mux c1 = NewServeMux /\ serverPort c1 = serverPort c /\
  server c1 = server c /\ config c1 = resolved pf (config c) /\
  forall (pf' : Platform) (port : Z),
    net_Listen0 pf' = inr port ->
    exists c2 : Console,
      Initialize pf' c1 = (Ret tt, c2) /\ ready c2 /\ GetPort c2 = port /\
      config c2 = config c1.
Proof.
  intros Hm Hsp El c1.
  pose proof (Initialize_setup pf c) as (Hc & Hh & Hsrv).
  assert (Hi : Initialize pf c
               = (Err ("failed to find available port: " +:+ e),
                  {| config := resolved pf (config c);
                     serverPort := serverPort c; server := server c;
                     consoleHTML := render (resolved pf (config c));
                     mux := mux c |})).
  { rewrite (Initialize_new pf c Hm). unfold prepared.
    rewrite (bool_decide_eq_true_2 _ Hsp), El. reflexivity. }
  subst c1. rewrite Hi. cbn [fst snd config serverPort server mux].
  split; [reflexivity|]. split; [exact Hm|]. split; [reflexivity|].
  split; [reflexivity|]. split; [reflexivity|].
  intros pf' port El'.
  set (c1 := {| config := resolved pf (config c); serverPort := serverPort c;
                server := server c;
                consoleHTML := render (resolved pf (config c));
                mux := mux c |}).
  assert (Hi' : Initialize pf' c1
                = (Ret tt, with_mux installed (with_serverPort port c1))).
  { rewrite (Initialize_new pf' c1 Hm). unfold prepared.
    cbn [config c1 serverPort server mux].
    rewrite resolved_idem, resolved_ServerPort.
    rewrite (bool_decide_eq_true_2 _ Hsp), El'. reflexivity. }
  exists (with_mux installed (with_serverPort port c1)).
  split; [exact Hi'|]. split; [|split; reflexivity].
  apply (Initialize_Ret_ready pf' c1); [left; exact Hm|exact Hi'].
Qed.

Lemma Initialize_port_failure_recoverable_witness :
  (Initialize busy_platform (NewConsole auto_config)).1
  = Err "failed to find available port: listen tcp 127.0.0.1:0: bind: address already in use" /\
  exists c2 : Console,
    Initialize lab_platform (Initialize busy_platform (NewConsole auto_config)).2
    = (Ret tt, c2) /\ GetPort c2 = 49152.
Proof.
  destruct (Initialize_port_failure_recoverable busy_platform
              (NewConsole auto_config) _ eq_refl eq_refl eq_refl)
    as (H1 & _ & _ & _ & _ & H2).
  split; [exact H1|].
  destruct (H2 lab_platform 49152 eq_refl) as (c2 & Hc2 & _ & Hp & _).
  exists c2. split; [exact Hc2|exact Hp].
Defined.

Lemma auto_session_initialized : initialized auto_session.
Proof.
  exists lab_platform, (NewConsole auto_config).
  split; [exists auto_config; apply rtc_refl|].
  vm_compute. reflexivity.
Qed.

(** X8: with no listen port configured, a call of [Initialize] that returns
    nil leaves as [GetPort] the port the system handed out and the
    configured port unset; so when the session is in service, a further
    call of [Initialize] asks the system again and, although it panics,
    has replaced the listen port by the new one, while the server of the
    session stays the one [Start] made for the old port. *)
Theorem auto_port_follows_system (pf : Platform) (c : Console) :
  ServerPort (config c) = 0 ->
  (forall c', Initialize pf c = (Ret tt, c') ->
     net_Listen0 pf = inr (GetPort c') /\ ServerPort (config c') = 0) /\
  (in_service c ->
   forall port, net_Listen0 pf = inr port ->
     (exists msg, Initialize pf c = (Panic msg, with_serverPort port c)) /\
     GetPort (Initialize pf c).2 = port /\
     GetURL (Initialize pf c).2 = "https://localhost:" +:+ Itoa port /\
     server (Initialize pf c).2 = server c).
Proof.
  intros Hsp. split.
  - intros c' Hi.
    pose proof (Initialize_ports pf c c' Hi) as (_ & Hp).
    rewrite (bool_decide_eq_true_2 _ Hsp) in Hp.
    pose proof (Initialize_setup pf c) as (Hc & _ & _).
    rewrite Hi in Hc. cbn [snd] in Hc.
    split; [exact Hp|]. rewrite Hc, resolved_ServerPort. exact Hsp.
  - intros Hin port El. pose proof (in_service_ready c Hin) as Hr.
    rewrite (Initialize_in_service pf c Hr).
    rewrite (bool_decide_eq_true_2 _ Hsp), El. cbn [snd].
    split; [eexists; reflexivity|]. split; [reflexivity|]. split; reflexivity.
Qed.

Lemma auto_port_follows_system_witness :
  GetPort auto_session = 49152 /\
  GetPort (Initialize later_platform auto_session).2 = 49153.
Proof.
  destruct (auto_port_follows_system later_platform auto_session eq_refl)
    as (_ & H).
  destruct (H (initialized_in_service _ auto_session_initialized) 49153 eq_refl)
    as (_ & Hp & _).
  split; [reflexivity|exact Hp].
Defined.

(** Once the remote-presence port is set and the page rendered, no call
    changes the configuration or the page. *)
Lemma step_config_fixed (c c' : Console) :
  RPPort (config c) <> 0 -> consoleHTML c = render (config c) ->
  step c c' -> config c' = config c /\ consoleHTML c' = consoleHTML c.
Proof.
  intros Hrp Hh Hstep. destruct Hstep as [pf op c].
  assert (Hinit : config (Initialize pf c).2 = config c /\
                  consoleHTML (Initialize pf c).2 = consoleHTML c).
  { pose proof (Initialize_setup pf c) as (Hc & Hh' & _).
    rewrite (resolved_fixed pf (config c) Hrp) in Hc, Hh'.
    split; [exact Hc|]. rewrite Hh', Hh. reflexivity. }
  destruct op; cbn [call].
  - exact Hinit.
  - split; reflexivity.
  - destruct (Stop_setup pf c) as (H1 & H2 & _). split; [exact H1|exact H2].
  - split; reflexivity.
  - destruct (LaunchAndOpen_state pf c) as [->|[_ ->]]; exact Hinit.
Qed.

Lemma rtc_config_fixed (c c' : Console) :
  RPPort (config c) <> 0 -> consoleHTML c = render (config c) ->
  rtc step c c' -> config c' = config c /\ consoleHTML c' = consoleHTML c.
Proof.
  intros Hrp Hh Hs. induction Hs as [c|c1 c2 c3 H12 H23 IH].
  - split; reflexivity.
  - destruct (step_config_fixed c1 c2 Hrp Hh H12) as [Hc Hp].
    destruct IH as [Hc' Hp'].
    + rewrite Hc. exact Hrp.
    + rewrite Hc, Hp. exact Hh.
    + split; [rewrite Hc', Hc|rewrite Hp', Hp]; reflexivity.
Qed.

(** X9: however [Initialize] ends (nil, error or panic), it leaves the
    remote-presence port set, to the configured one if there was one and
    else to the positive port [GetRPPort] gave, and the page rendered from
    the configuration it leaves; no later call changes the configuration
    or the page, so the port is looked up at most once. *)
Theorem Initialize_always_renders (pf : Platform) (c : Console) :
  let c' := (Initialize pf c).2 in
  consoleHTML c' = render (config c') /\
  RPPort (config c') <> 0 /\
  RPPort (config c') =
    (if bool_decide (RPPort (config c) = 0)
     then (GetRPPort pf (BMCIP (config c)) (Username (config c))
             (Password (config c))).1
     else RPPort (config c)) /\
  (RPPort (config c) = 0 -> 0 < RPPort (config c')) /\
  (forall c'' : Console, rtc step c' c'' ->
     config c'' = config c' /\ consoleHTML c'' = consoleHTML c').
Proof.
  intros c'. pose proof (Initialize_setup pf c) as (Hc & Hh & _).
  fold c' in Hc, Hh.
  assert (Hpage : consoleHTML c' = render (config c')).
  { rewrite Hh, Hc. reflexivity. }
  assert (Hrp : RPPort (config c') <> 0).
  { rewrite Hc. apply resolved_RPPort_nonzero. }
  split; [exact Hpage|]. split; [exact Hrp|].
  split; [|split].
  - rewrite Hc. unfold resolved. case_bool_decide; reflexivity.
  - intros H0. rewrite Hc. unfold resolved.
    rewrite (bool_decide_eq_true_2 _ H0). cbn [RPPort]. apply GetRPPort_positive.
  - intros c'' Hs. exact (rtc_config_fixed c' c'' Hrp Hpage Hs).
Qed.

Lemma Initialize_always_renders_witness :
  (Initialize busy_platform (NewConsole auto_config)).1 <> Ret tt /\
  RPPort (config (Initialize busy_platform (NewConsole auto_config)).2) = 3901 /\
  0 < RPPort (config (Initialize busy_platform (NewConsole auto_config)).2).
Proof.
  destruct (Initialize_always_renders busy_platform (NewConsole auto_config))
    as (_ & _ & H & Hpos & _).
  split; [vm_compute; discriminate|].
  split; [rewrite H; vm_compute; reflexivity|apply Hpos; reflexivity].
Defined.

(** ** Serving before, between and after the calls *)


Lemma ServeHTTP_same_setup (pf : Platform) (c c' : Console) (r : Request) :
  same_setup c c' -> ServeHTTP pf c' r = ServeHTTP pf c r.
Proof.
  intros (Hc & Hh & Hm).
  unfold ServeHTTP, Handler_ServeHTTP, consoleHandler, proxySDKHandler.
  rewrite Hc, Hh, Hm. reflexivity.
Qed.



(** X11: [Stop] on a session with a server closes that server, the one
    the last [Start] made, and returns what closing returned; from then on
    the server of the session answers no request, also when closing
    returned an error.  The setup and the port stay, a further [Stop]
    closes the same server again, and the server a new [Start] makes
    answers as one made without the [Stop] would.  [Stop] closes that one
    server only: a [Start] on a session that has a server launches
    another one and closes nothing, and the [Stop] after it closes one
    server, the new one. *)
Theorem Stop_closes_listener (pf : Platform) (c : Console) (srv : Server) :
  server c = Some srv ->
  let c' := (Stop pf c).1.2 in
  (Stop pf c).1.1
  = match server_Close pf with Some e => Err e | None => Ret tt end /\
  (Stop pf c).2 = [CloseServer (Addr srv)] /\
  ~ started c' /\
  (forall pf' r, Server_serve pf' c' r = None) /\
  same_setup c c' /\ GetPort c' = GetPort c /\
  (forall pf', (Stop pf' c').1.2 = c' /\
               (Stop pf' c').2 = [CloseServer (Addr srv)]) /\
  started (Start c').1.2 /\
  (forall pf' r,
     Server_serve pf' (Start c').1.2 r = Server_serve pf' (Start c).1.2 r) /\
  (let addr := ":" +:+ Itoa (serverPort c) in
   (Start c).2 = [GoListenAndServeTLS addr "server.crt" "server.key"; Sleep 500] /\
   server (Start c).1.2 = Some {| Addr := addr; inShutdown := false |} /\
   forall pf', (Stop pf' (Start c).1.2).2 = [CloseServer addr]).
Proof.
  intros Hsrv c'. pose proof (Stop_setup pf c) as Hsame. fold c' in Hsame.
  assert (Hc' : c' = {| config := config c; serverPort := serverPort c;
                        server := Some {| Addr := Addr srv; inShutdown := true |};
                        consoleHTML := consoleHTML c; mux := mux c |}).
  { subst c'. unfold Stop. rewrite Hsrv. reflexivity. }
  split; [unfold Stop; rewrite Hsrv; reflexivity|].
  split; [unfold Stop; rewrite Hsrv; reflexivity|].
  split.
  { intros (srv' & H1 & H2). rewrite Hc' in H1. cbn [server] in H1.
    injection H1 as <-. discriminate H2. }
  split.
  { intros pf' r. unfold Server_serve. rewrite Hc'. reflexivity. }
  split; [exact Hsame|].
  split; [rewrite Hc'; reflexivity|].
  split.
  { intros pf'. unfold Stop. rewrite Hc'. cbn [server Addr]. split; reflexivity. }
  split; [eexists; split; reflexivity|].
  split; [|repeat split].
  intros pf' r.
  rewrite (Server_serve_cases pf' (Start c').1.2 r)
    by (eexists; split; reflexivity).
  rewrite (Server_serve_cases pf' (Start c).1.2 r)
    by (eexists; split; reflexivity).
  f_equal. destruct (_ && _); [reflexivity|].
  rewrite (ServeHTTP_same_setup pf' c (Start c).1.2 r) by apply Start_setup.
  apply ServeHTTP_same_setup.
  eapply same_setup_trans; [exact Hsame|apply Start_setup].
Qed.

Lemma Stop_closes_listener_witness :
  (Stop lab_platform lab_started).1.1 = Ret tt /\
  (Stop lab_platform lab_started).2 = [CloseServer ":8443"] /\
  Server_serve lab_platform (Stop lab_platform lab_started).1.2 (GET "/") = None.
Proof.
  destruct (Stop_closes_listener lab_platform lab_started
              {| Addr := ":8443"; inShutdown := false |} eq_refl)
    as (H1 & H2 & _ & H3 & _).
  split; [exact H1|]. split; [exact H2|]. apply H3.
Defined.

(** [LaunchAndOpen] on a session without handlers. *)
Lemma LaunchAndOpen_new (pf : Platform) (c : Console) :
  mux c = NewServeMux ->
  LaunchAndOpen pf c =
  match prepared pf c with
  | (Ret port, c1) =>
      let c2 := with_mux installed (with_serverPort port c1) in
      (match browser_Start pf (GetURL c2) (UseFirefox (config c2)) with
       | Some e => Err e
       | None => Ret tt
       end,
       (Start c2).1.2,
       [GoListenAndServeTLS (":" +:+ Itoa port) "server.crt" "server.key";
        Sleep 500; LaunchBrowser (GetURL c2)])
  | (Err e, c1) => (Err e, c1, [])
  | (Panic msg, c1) => (Panic msg, c1, [])
  end.
Proof.
  intros Hm. unfold LaunchAndOpen. rewrite (Initialize_new pf c Hm).
  destruct (prepared pf c) as [[port|e|msg] c1]; reflexivity.
Qed.

(** The session [LaunchAndOpen] leaves when [Initialize] returned nil. *)
Lemma launched_in_service (pf : Platform) (c c1 : Console) :
  session c -> Initialize pf c = (Ret tt, c1) ->
  in_service (Start c1).1.2 /\ started (Start c1).1.2.
Proof.
  intros Hsess Hi. split; [|eexists; split; reflexivity].
  exists c1. split; [exists pf, c; split; [exact Hsess|exact Hi]|].
  apply rtc_once. exact (step_call pf CallStart c1).
Qed.

Lemma LaunchAndOpen_cases (pf : Platform) (c : Console) :
  session c -> mux c = NewServeMux ->
  match LaunchAndOpen pf c with
  | (Ret _, c', eff) =>
      launched pf c c' eff /\
      browser_Start pf (GetURL c') (UseFirefox (config c')) = None
  | (Err e, c', eff) =>
      (eff = [] /\ server c' = server c /\ mux c' = NewServeMux /\
       ServerPort (config c) = 0 /\
       exists e', net_Listen0 pf = inl e' /\
                  e = "failed to find available port: " +:+ e') \/
      (launched pf c c' eff /\
       browser_Start pf (GetURL c') (UseFirefox (config c')) = Some e)
  | (Panic _, _, _) => False
  end.
Proof.
  intros Hsess Hm.
  pose proof (Initialize_new pf c Hm) as Hi.
  rewrite (LaunchAndOpen_new pf c Hm).
  unfold prepared in *.
  set (c1 := {| config := resolved pf (config c); serverPort := serverPort c;
                server := server c;
                consoleHTML := render (resolved pf (config c));
                mux := mux c |}) in *.
  assert (Hok : forall port,
            Initialize pf c = (Ret tt, with_mux installed (with_serverPort port c1)) ->
            (if bool_decide (ServerPort (config c) = 0)
             then net_Listen0 pf = inr port else port = ServerPort (config c)) ->
            launched pf c (Start (with_mux installed (with_serverPort port c1))).1.2
              [GoListenAndServeTLS (":" +:+ Itoa port) "server.crt" "server.key";
               Sleep 500;
               LaunchBrowser (GetURL (with_mux installed (with_serverPort port c1)))]).
  { intros port Hinit Hport.
    destruct (launched_in_service pf c _ Hsess Hinit) as [Hin Hst].
    split; [exact Hin|]. split; [exact Hst|]. split; [exact Hport|].
    split; reflexivity. }
  assert (Hb : forall port,
            browser_Start pf
              (GetURL (with_mux installed (with_serverPort port c1)))
              (UseFirefox (config (with_mux installed (with_serverPort port c1))))
            = browser_Start pf
                (GetURL (Start (with_mux installed (with_serverPort port c1))).1.2)
                (UseFirefox (config (Start (with_mux installed (with_serverPort port c1))).1.2)))
    by reflexivity.
  case_bool_decide as Hsp.
  - destruct (net_Listen0 pf) as [e|port] eqn:El.
    + left. split; [reflexivity|]. split; [reflexivity|]. split; [exact Hm|].
      split; [exact Hsp|]. exists e. split; reflexivity.
    + specialize (Hok port Hi eq_refl). cbv zeta. rewrite Hb.
      destruct (browser_Start pf _ _) as [e|] eqn:Eb.
      * right. split; [exact Hok|reflexivity].
      * split; [exact Hok|reflexivity].
  - specialize (Hok (ServerPort (config c)) Hi eq_refl). cbv zeta. rewrite Hb.
    destruct (browser_Start pf _ _) as [e|] eqn:Eb.
    + right. split; [exact Hok|reflexivity].
    + split; [exact Hok|reflexivity].
Qed.

(** X12: on a session without handlers, [LaunchAndOpen] never panics.  If
    it returns nil, the session is in service with a server started and
    the browser was launched last, after the server and the wait.  If no
    port is found it returns that error and has started nothing.  If the
    browser fails to start it returns the browser's error, yet the server
    it started stays: the session is in service and started. *)
Theorem LaunchAndOpen_outcomes (pf : Platform) (c : Console) :
  session c -> mux c = NewServeMux ->
  match LaunchAndOpen pf c with
  | (Ret _, c', eff) =>
      in_service c' /\ started c' /\
      browser_Start pf (GetURL c') (UseFirefox (config c')) = None /\
      eff = [GoListenAndServeTLS (":" +:+ Itoa (GetPort c')) "server.crt"
               "server.key";
             Sleep 500; LaunchBrowser (GetURL c')]
  | (Err e, c', eff) =>
      (eff = [] /\ server c' = server c /\ mux c' = NewServeMux /\
       ServerPort (config c) = 0 /\
       exists e', net_Listen0 pf = inl e' /\
                  e = "failed to find available port: " +:+ e') \/
      (in_service c' /\ started c' /\
       browser_Start pf (GetURL c') (UseFirefox (config c')) = Some e /\
       eff = [GoListenAndServeTLS (":" +:+ Itoa (GetPort c')) "server.crt"
                "server.key";
              Sleep 500; LaunchBrowser (GetURL c')])
  | (Panic _, _, _) => False
  end.
Proof.
  intros Hsess Hm. pose proof (LaunchAndOpen_cases pf c Hsess Hm) as H.
  destruct (LaunchAndOpen pf c) as [[[[]|e|msg] c'] eff].
  - destruct H as ((H1 & H2 & _ & _ & H4) & H3).
    split; [exact H1|]. split; [exact H2|]. split; [exact H3|exact H4].
  - destruct H as [H|((H1 & H2 & _ & _ & H4) & H3)]; [left; exact H|].
    right. split; [exact H1|]. split; [exact H2|]. split; [exact H3|exact H4].
  - exact H.
Qed.

Lemma LaunchAndOpen_outcomes_witness :
  (LaunchAndOpen headless_platform (NewConsole lab_config)).1.1
  = Err "failed to open browser: exec: no command" /\
  started (LaunchAndOpen headless_platform (NewConsole lab_config)).1.2.
Proof.
  assert (Hsess : session (NewConsole lab_config)).
  { exists lab_config. apply rtc_refl. }
  assert (E : LaunchAndOpen headless_platform (NewConsole lab_config)
              = (Err "failed to open browser: exec: no command", lab_started,
                 [GoListenAndServeTLS ":8443" "server.crt" "server.key";
                  Sleep 500; LaunchBrowser "https://localhost:8443"])).
  { vm_compute. reflexivity. }
  pose proof (LaunchAndOpen_outcomes headless_platform (NewConsole lab_config)
                Hsess eq_refl) as H.
  rewrite E in H |- *.
  destruct H as [(Heff & _)|(_ & Hst & _)]; [discriminate Heff|].
  split; [reflexivity|exact Hst].
Defined.

(** ** More on the relay *)

Lemma http_Error_fresh (msg : string) :
  let w := http_Error msg StatusInternalServerError ResponseWriter.fresh in
  status w = 500 /\
  written w = msg +:+ String (ascii_of_nat 10) "" /\
  Header.Values (sentHeader w) "Content-Type" = ["text/plain; charset=utf-8"] /\
  Header.Values (sentHeader w) "X-Content-Type-Options" = ["nosniff"].
Proof.
  cbn. split; [reflexivity|]. split; [reflexivity|]. split; reflexivity.
Qed.

(** What the server answers to a request the mux hands to the proxy. *)
Lemma Server_serve_proxied (pf : Platform) (c : Console) (r : Request) :
  in_service c -> started c ->
  allowListed (URL_Path r) = true ->
  Method r = "CONNECT" \/ cleanPath (URL_Path r) = URL_Path r ->
  Server_serve pf c r =
  Some (let '(w, sent) := proxySDKHandler pf c ResponseWriter.fresh r in
        (Handled w, sent)).
Proof.
  intros Hserv Hst Hal Hclean.
  destruct (in_service_ready c Hserv) as (Hmux & _).
  destruct (allowListed_not_cert _ Hal) as (_ & _ & Hstar).
  rewrite (Server_serve_started pf c r Hst Hstar).
  rewrite (ServeHTTP_not_star pf c r Hstar).
  rewrite Hmux, (proj2 (proxied_iff r) (conj Hal Hclean)). reflexivity.
Qed.

(** X13: a request for the proxy that cannot be sent on is answered with
    status 500 and a plain-text line, for script paths too: "Failed to
    create request" when no request could be built, and then nothing is
    sent to the BMC; "Failed to fetch from BMC" when the one request sent
    got no answer.  There is no second attempt. *)
Theorem relay_failure_answers (pf : Platform) (c : Console) (r : Request) :
  in_service c -> started c ->
  allowListed (URL_Path r) = true ->
  Method r = "CONNECT" \/ cleanPath (URL_Path r) = URL_Path r ->
  let url := "https://" +:+ BMCIP (config c) +:+ URL_Path r in
  let req := {| cMethod := if bool_decide (Method r = "") then "GET" else Method r;
                cURL := url;
                cHeader := Header.copy_into ∅ (ReqHeader r);
                cBody := None |} in
  (http_NewRequest_ok pf (Method r) url = false ->
   exists w : ResponseWriter,
     Server_serve pf c r = Some (Handled w, []) /\
     status w = 500 /\
     written w = "Failed to create request" +:+ String (ascii_of_nat 10) "" /\
     Header.Values (sentHeader w) "Content-Type" = ["text/plain; charset=utf-8"]) /\
  (http_NewRequest_ok pf (Method r) url = true -> client_Do pf req = None ->
   exists w : ResponseWriter,
     Server_serve pf c r = Some (Handled w, [req]) /\
     status w = 500 /\
     written w = "Failed to fetch from BMC" +:+ String (ascii_of_nat 10) "" /\
     Header.Values (sentHeader w) "Content-Type" = ["text/plain; charset=utf-8"]).
Proof.
  intros Hserv Hst Hal Hclean url req.
  rewrite (Server_serve_proxied pf c r Hserv Hst Hal Hclean).
  unfold proxySDKHandler, http_NewRequest. fold url. split.
  - intros Hno. rewrite Hno.
    destruct (http_Error_fresh "Failed to create request") as (H1 & H2 & H3 & _).
    eexists. split; [reflexivity|]. split; [exact H1|]. split; [exact H2|exact H3].
  - intros Hok Hdo. rewrite Hok.
    unfold with_cHeader. cbn [cMethod cURL cHeader cBody]. fold req.
    rewrite Hdo.
    destruct (http_Error_fresh "Failed to fetch from BMC") as (H1 & H2 & H3 & _).
    eexists. split; [reflexivity|]. split; [exact H1|]. split; [exact H2|exact H3].
Qed.

Lemma relay_failure_answers_witness :
  exists w : ResponseWriter,
    Server_serve unreachable_platform lab_started (GET "/utility.js")
    = Some (Handled w,
            [ {| cMethod := "GET";
                 cURL := "https://10.145.127.12/utility.js";
                 cHeader := Header.copy_into ∅ (ReqHeader (GET "/utility.js"));
                 cBody := None |} ]) /\
    status w = 500 /\
    Header.Values (sentHeader w) "Content-Type" = ["text/plain; charset=utf-8"].
Proof.
  assert (Hal : allowListed (URL_Path (GET "/utility.js")) = true)
    by (vm_compute; reflexivity).
  assert (Hcl : Method (GET "/utility.js") = "CONNECT" \/
                cleanPath (URL_Path (GET "/utility.js"))
                = URL_Path (GET "/utility.js"))
    by (right; vm_compute; reflexivity).
  destruct (relay_failure_answers unreachable_platform lab_started
              (GET "/utility.js") lab_started_in_service lab_started_started
              Hal Hcl) as (_ & H).
  destruct (H eq_refl eq_refl) as (w & Hs & Hst & _ & Hct).
  exists w. split; [exact Hs|]. split; [exact Hst|exact Hct].
Defined.

(** X14: the handlers of a session in service hand a request over to the
    HTTP client only for an allow-listed path and only when the outgoing
    request can be built, and never more than one for an incoming request.
    With the routing of the Go 1.21 mux, which goes by the decoded path,
    they do so exactly when the path is moreover one the mux takes as it
    is: a clean path, or the path of a CONNECT request.  (What the client
    makes of the request, such as following a redirect of the BMC, is not
    part of the statement.  The Go 1.22 mux goes by the escaped path and
    also lets a path with escaped dots through to the relay.) *)
Theorem upstream_contact_iff (pf : Platform) (c : Console) (r : Request) :
  in_service c ->
  ((ServeHTTP pf c r).2 <> [] <->
   allowListed (URL_Path r) = true /\
   (Method r = "CONNECT" \/ cleanPath (URL_Path r) = URL_Path r) /\
   http_NewRequest_ok pf (Method r)
     ("https://" +:+ BMCIP (config c) +:+ URL_Path r) = true) /\
  (length (ServeHTTP pf c r).2 <= 1)%nat.
Proof.
  intros Hserv. destruct (in_service_ready c Hserv) as (Hmux & _).
  assert (Hsent : forall w,
            (proxySDKHandler pf c w r).2 <> [] <->
            http_NewRequest_ok pf (Method r)
              ("https://" +:+ BMCIP (config c) +:+ URL_Path r) = true).
  { intros w. unfold proxySDKHandler, http_NewRequest.
    destruct (http_NewRequest_ok pf _ _); cbn [snd].
    - destruct (client_Do pf _); cbn [snd io_ReadAll]; split; intros; done.
    - split; intros; done. }
  assert (Hlen : forall w, (length (proxySDKHandler pf c w r).2 <= 1)%nat).
  { intros w. unfold proxySDKHandler, http_NewRequest.
    destruct (http_NewRequest_ok pf _ _); cbn [snd length]; [|lia].
    destruct (client_Do pf _); cbn [snd io_ReadAll length]; lia. }
  unfold ServeHTTP. case_bool_decide as Hstar.
  - cbn [snd length]. split; [|lia]. split; [done|].
    intros (Hal & _). destruct (allowListed_not_cert _ Hal) as (_ & _ & Hn).
    contradiction.
  - rewrite Hmux.
    destruct (mux_Handler installed r) as [[]|url code|] eqn:Eh;
      cbn [Handler_ServeHTTP snd length].
    1,2,4,5: split; [|lia]; split; [done|];
      intros (Hal & Hcl & _);
      rewrite (proj2 (proxied_iff r) (conj Hal Hcl)) in Eh; discriminate Eh.
    destruct (proj1 (proxied_iff r) Eh) as [Hal Hcl].
    specialize (Hsent ResponseWriter.fresh). specialize (Hlen ResponseWriter.fresh).
    destruct (proxySDKHandler pf c ResponseWriter.fresh r) as [w sent].
    cbn [snd] in *. split; [|exact Hlen].
    rewrite Hsent. split; [intros H; split; [exact Hal|split; [exact Hcl|exact H]]|].
    intros (_ & _ & H). exact H.
Qed.

Lemma upstream_contact_iff_witness :
  (ServeHTTP lab_platform lab_started (GET "/SDK_Pilot4/../utility.js")).2 = [] /\
  (ServeHTTP lab_platform lab_started (GET "/utility.js")).2 <> [].
Proof.
  split.
  - destruct (upstream_contact_iff lab_platform lab_started
                (GET "/SDK_Pilot4/../utility.js") lab_started_in_service)
      as (H & _).
    destruct (ServeHTTP lab_platform lab_started
                (GET "/SDK_Pilot4/../utility.js")).2 as [|x l] eqn:E;
      [reflexivity|].
    exfalso. destruct (proj1 H ltac:(discriminate)) as (_ & [Hc|Hc] & _).
    + revert Hc. vm_compute. discriminate.
    + revert Hc. vm_compute. discriminate.
  - apply (upstream_contact_iff lab_platform lab_started (GET "/utility.js")
             lab_started_in_service).
    split; [vm_compute; reflexivity|].
    split; [right; vm_compute; reflexivity|reflexivity].
Defined.

(** X15: a started session in service answers a request for [/cert.pem],
    whatever its method, with status 200, content type [text/html] and the
    fixed helper page; the answer does not depend on the session, and the
    BMC is not contacted. *)
Theorem cert_page_static (pf : Platform) (c : Console) (r : Request) :
  in_service c -> started c -> URL_Path r = "/cert.pem" ->
  exists w : ResponseWriter,
    Server_serve pf c r = Some (Handled w, []) /\
    status w = StatusOK /\
    Header.Values (sentHeader w) "Content-Type" = ["text/html"] /\
    written w = certHTML /\
    w = certHandler ResponseWriter.fresh (GET "/cert.pem").
Proof.
  intros Hserv Hst Hp.
  destruct (in_service_ready c Hserv) as (Hmux & _).
  assert (Hstar : URL_Path r <> "*") by (rewrite Hp; discriminate).
  rewrite (Server_serve_started pf c r Hst Hstar).
  rewrite (ServeHTTP_not_star pf c r Hstar).
  rewrite Hmux, canonical_dispatch.
  - rewrite Hp. cbn [bool_decide Handler_ServeHTTP].
    eexists. split; [reflexivity|].
    split; [reflexivity|]. split; [reflexivity|]. split; reflexivity.
  - rewrite Hp. vm_compute. reflexivity.
  - rewrite Hp. discriminate.
Qed.

Lemma cert_page_static_witness :
  exists w : ResponseWriter,
    Server_serve lab_platform lab_started
      {| Method := "POST"; URL_Path := "/cert.pem"; ReqHeader := ∅;
         ReqBody := "" |} = Some (Handled w, []) /\
    status w = 200 /\ written w = certHTML.
Proof.
  destruct (cert_page_static lab_platform lab_started
              {| Method := "POST"; URL_Path := "/cert.pem"; ReqHeader := ∅;
                 ReqBody := "" |}
              lab_started_in_service lab_started_started eq_refl)
    as (w & H1 & H2 & _ & H3 & _).
  exists w. split; [exact H1|]. split; [exact H2|exact H3].
Defined.

(** X16: with the routing of the Go 1.21 mux, which goes by the decoded
    path, a request other than CONNECT whose decoded path is not clean (it
    has a doubled slash or a dot element) is not served or relayed, not
    even below [/SDK_Pilot4/]: the answer is a permanent redirect (301) to
    the clean path, and so is the answer to [/SDK_Pilot4] without its
    slash.  (The Go 1.22 mux goes by the escaped path instead: it lets a
    path with escaped dots through to the relay.) *)
Theorem unclean_path_redirected (pf : Platform) (c : Console) (r : Request) :
  in_service c -> started c ->
  Method r <> "CONNECT" -> URL_Path r <> "*" ->
  cleanPath (URL_Path r) <> URL_Path r \/ URL_Path r = "/SDK_Pilot4" ->
  Server_serve pf c r =
  Some (Redirect (if bool_decide (cleanPath (URL_Path r) = "/SDK_Pilot4")
                  then "/SDK_Pilot4/" else cleanPath (URL_Path r))
                 StatusMovedPermanently, []).
Proof.
  intros Hserv Hst Hconn Hstar Hun.
  destruct (in_service_ready c Hserv) as (Hmux & _).
  rewrite (Server_serve_started pf c r Hst Hstar).
  rewrite (ServeHTTP_not_star pf c r Hstar).
  rewrite Hmux, mux_Handler_installed.
  rewrite (bool_decide_eq_false_2 _ Hconn). cbn zeta.
  case_bool_decide as Esdk.
  - rewrite Esdk. reflexivity.
  - destruct Hun as [Hne|Heq].
    + rewrite (bool_decide_eq_false_2 _ Hne). reflexivity.
    + exfalso. apply Esdk. rewrite Heq. vm_compute. reflexivity.
Qed.

Lemma unclean_path_redirected_witness :
  Server_serve lab_platform lab_started (GET "/SDK_Pilot4/../../etc/passwd")
  = Some (Redirect "/etc/passwd" 301, []).
Proof.
  rewrite (unclean_path_redirected lab_platform lab_started
             (GET "/SDK_Pilot4/../../etc/passwd")
             lab_started_in_service lab_started_started).
  - vm_compute. reflexivity.
  - discriminate.
  - discriminate.
  - left. vm_compute. discriminate.
Defined.

Lemma unrooted_not_allowListed (p : string) :
  HasPrefix p "/" = false -> allowListed p = false.
Proof.
  destruct p as [|a p]; [reflexivity|]. cbn [HasPrefix]. intros Ha.
  destruct (Ascii.eqb a "/") eqn:E; [discriminate|clear Ha].
  unfold allowListed, sdkPatterns. cbn [existsb].
  repeat match goal with
  | |- context [bool_decide (Strings.last ?pat = Some "/"%char)] =>
      let b := eval vm_compute in
                 (bool_decide (Strings.last pat = Some "/"%char)) in
      change (bool_decide (Strings.last pat = Some "/"%char)) with b; cbv iota
  end.
  cbn [HasPrefix]. rewrite E.
  repeat (rewrite bool_decide_eq_false_2;
          [|intros [= -> _]; discriminate E]).
  reflexivity.
Qed.

(** X17: what a started session in service answers without a handler of
    the package (routing of the Go 1.21 mux).  It answers not found
    exactly to a CONNECT request whose path does not start with a slash
    and is not [*], and then without contacting the BMC.  The server
    itself answers [OPTIONS *], with its empty 200, and the mux answers
    every other request for [*] with bad request, both exactly then.  A
    redirect is permanent (301) and is given without contacting the BMC.
    Every other request is answered by a handler of the package: with the
    page, the helper page or a relayed answer. *)
Theorem not_found_only_for_connect (pf : Platform) (c : Console) (r : Request)
    (a : Answer) (sent : list ClientRequest) :
  in_service c -> started c ->
  Server_serve pf c r = Some (a, sent) ->
  (a = NotFound <->
   Method r = "CONNECT" /\ HasPrefix (URL_Path r) "/" = false /\
   URL_Path r <> "*") /\
  (a = GlobalOptions <-> Method r = "OPTIONS" /\ URL_Path r = "*") /\
  (a = BadRequest <-> Method r <> "OPTIONS" /\ URL_Path r = "*") /\
  (forall url code, a = Redirect url code -> code = StatusMovedPermanently) /\
  ((exists w, a = Handled w) \/ sent = []) /\
  (URL_Path r <> "*" ->
   Method r <> "CONNECT" \/ HasPrefix (URL_Path r) "/" = true ->
   (exists w, a = Handled w) \/
   (exists url, a = Redirect url StatusMovedPermanently)).
Proof.
  intros Hserv Hst.
  destruct (in_service_ready c Hserv) as (Hmux & _).
  rewrite (Server_serve_cases pf c r Hst).
  destruct (decide (URL_Path r = "*")) as [Hstar|Hstar].
  { rewrite (bool_decide_eq_true_2 _ Hstar), andb_true_r.
    unfold ServeHTTP. rewrite (bool_decide_eq_true_2 _ Hstar).
    destruct (decide (Method r = "OPTIONS")) as [Hopt|Hopt].
    - rewrite (bool_decide_eq_true_2 _ Hopt). intros [= <- <-].
      split; [split; [done|by intros (_ & _ & ?)]|].
      split; [done|]. split; [split; [done|by intros [? _]]|].
      split; [done|]. split; [by right|done].
    - rewrite (bool_decide_eq_false_2 _ Hopt). intros [= <- <-].
      split; [split; [done|by intros (_ & _ & ?)]|].
      split; [split; [done|by intros [? _]]|]. split; [done|].
      split; [done|]. split; [by right|done]. }
  rewrite (bool_decide_eq_false_2 _ Hstar), andb_false_r.
  rewrite (ServeHTTP_not_star pf c r Hstar), Hmux. intros [= Ha].
  assert (a <> GlobalOptions /\ a <> BadRequest) as [HnG HnB].
  { destruct (mux_Handler installed r) as [[]|url code|];
      cbn [Handler_ServeHTTP] in Ha;
      try destruct (proxySDKHandler pf c ResponseWriter.fresh r);
      injection Ha as <- _; done. }
  assert ((forall url code, a = Redirect url code -> code = StatusMovedPermanently)
          /\ ((exists w, a = Handled w) \/ sent = [])
          /\ (a = NotFound <->
              Method r = "CONNECT" /\ HasPrefix (URL_Path r) "/" = false))
    as (Hred & Hsent & Hnf).
  { revert Ha. rewrite mux_Handler_installed. cbv zeta.
    set (p := if bool_decide (Method r = "CONNECT") then URL_Path r
              else cleanPath (URL_Path r)).
    assert (Method r = "CONNECT" -> p = URL_Path r) as Hpc
      by (intros H; subst p; by rewrite (bool_decide_eq_true_2 _ H)).
    assert (Method r <> "CONNECT" -> p = cleanPath (URL_Path r)) as Hpo
      by (intros H; subst p; by rewrite (bool_decide_eq_false_2 _ H)).
    clearbody p.
    destruct (decide (p = "/SDK_Pilot4")) as [Esdk|Esdk].
    { rewrite (bool_decide_eq_true_2 _ Esdk). cbn [Handler_ServeHTTP].
      intros [= <- <-]. split; [by intros ? ? [= _ <-]|].
      split; [by right|]. split; [done|]. intros [Hc Hp].
      rewrite <- (Hpc Hc), Esdk in Hp. discriminate Hp. }
    rewrite (bool_decide_eq_false_2 _ Esdk).
    destruct (decide (p = URL_Path r)) as [Eeq|Eeq].
    2:{ rewrite (bool_decide_eq_false_2 _ Eeq). cbn [negb Handler_ServeHTTP].
        intros [= <- <-]. split; [by intros ? ? [= _ <-]|].
        split; [by right|]. split; [done|]. intros [Hc Hp].
        destruct (Eeq (Hpc Hc)). }
    rewrite (bool_decide_eq_true_2 _ Eeq). cbn [negb].
    rewrite mux_handler_installed.
    destruct (decide (URL_Path r = "/cert.pem")) as [Ecert|Ecert].
    { rewrite (bool_decide_eq_true_2 _ Ecert). cbn [Handler_ServeHTTP].
      intros [= <- <-]. split; [done|].
      split; [left; by eexists|]. split; [done|]. intros [_ Hp].
      rewrite Ecert in Hp. discriminate Hp. }
    rewrite (bool_decide_eq_false_2 _ Ecert).
    destruct (allowListed (URL_Path r)) eqn:Hal.
    { cbn [Handler_ServeHTTP].
      destruct (proxySDKHandler pf c ResponseWriter.fresh r) as [w s'].
      intros [= <- <-]. split; [done|]. split; [left; by eexists|].
      split; [done|]. intros [_ Hp].
      rewrite (unrooted_not_allowListed _ Hp) in Hal. discriminate Hal. }
    destruct (HasPrefix (URL_Path r) "/") eqn:Hp.
    { cbn [Handler_ServeHTTP]. intros [= <- <-]. split; [done|].
      split; [left; by eexists|]. split; [done|]. by intros [_ ?]. }
    cbn [Handler_ServeHTTP]. intros [= <- <-]. split; [done|].
    split; [by right|]. split; [intros _|done]. split; [|done].
    destruct (decide (Method r = "CONNECT")) as [|Hm]; [done|].
    pose proof (cleanPath_rooted (URL_Path r)) as Hr.
    rewrite <- (Hpo Hm), Eeq in Hr. congruence. }
  split; [rewrite Hnf; split; [intros [? ?]; done|intros (? & ? & _); done]|].
  split; [split; [done|by intros [_ ?]]|].
  split; [split; [done|by intros [_ ?]]|].
  split; [exact Hred|]. split; [exact Hsent|].
  intros _ Hother. destruct a as [w|url code| | |].
  - left. by eexists.
  - right. exists url. by rewrite (Hred url code eq_refl).
  - destruct (proj1 Hnf eq_refl) as [Hc Hp].
    destruct Hother as [Hm|Hr]; [destruct (Hm Hc)|congruence].
  - done.
  - done.
Qed.

Lemma not_found_only_for_connect_witness :
  Server_serve lab_platform lab_started
    {| Method := "CONNECT"; URL_Path := ""; ReqHeader := ∅; ReqBody := "" |}
  = Some (NotFound, []) /\
  Method {| Method := "CONNECT"; URL_Path := ""; ReqHeader := ∅;
            ReqBody := "" |} = "CONNECT".
Proof.
  assert (E : Server_serve lab_platform lab_started
                {| Method := "CONNECT"; URL_Path := ""; ReqHeader := ∅;
                   ReqBody := "" |} = Some (NotFound, []))
    by (vm_compute; reflexivity).
  split; [exact E|].
  destruct (not_found_only_for_connect lab_platform lab_started _ _ _
              lab_started_in_service lab_started_started E) as (Hnf & _).
  exact (proj1 (proj1 Hnf eq_refl)).
Defined.

(** X18: the relay does not notice a body that breaks off: when reading
    the answer of the BMC ends in an error, the caller still gets the
    status code and the headers of the BMC and the bytes received until
    then, not an error answer. *)
Theorem relay_ignores_read_error (pf : Platform) (c : Console) (r : Request)
    (resp : Response) (e : string) :
  in_service c -> started c ->
  allowListed (URL_Path r) = true ->
  Method r = "CONNECT" \/ cleanPath (URL_Path r) = URL_Path r ->
  let req := {| cMethod := if bool_decide (Method r = "") then "GET" else Method r;
                cURL := "https://" +:+ BMCIP (config c) +:+ URL_Path r;
                cHeader := Header.copy_into ∅ (ReqHeader r);
                cBody := None |} in
  http_NewRequest_ok pf (Method r) (cURL req) = true ->
  client_Do pf req = Some resp ->
  readErr (RespBody resp) = Some e ->
  exists w : ResponseWriter,
    Server_serve pf c r = Some (Handled w, [req]) /\
    status w = StatusCode resp /\
    written w = received (RespBody resp) /\
    forall key,
      Header.Values (sentHeader w) key =
      if HasSuffix (URL_Path r) ".js" && bool_decide (key = "Content-Type")
      then ["application/javascript"]
      else Header.Values (RespHeader resp) key.
Proof.
  intros Hserv Hst Hal Hclean req Hok Hdo _.
  rewrite (Server_serve_proxied pf c r Hserv Hst Hal Hclean).
  subst req. cbn [cURL] in Hok.
  unfold proxySDKHandler, http_NewRequest. rewrite Hok.
  unfold with_cHeader. cbn [cMethod cURL cHeader cBody].
  rewrite Hdo. unfold io_ReadAll.
  eexists. split; [reflexivity|].
  destruct (HasSuffix (URL_Path r) ".js");
    cbn [ResponseWriter.with_Header ResponseWriter.WriteHeader
         ResponseWriter.Write ResponseWriter.fresh handlerHeader wroteHeader
         status sentHeader written andb];
    (split; [reflexivity|]); (split; [reflexivity|]); intros key.
  - rewrite Values_Set. destruct (decide (key = "Content-Type")) as [->|Hk].
    + rewrite (bool_decide_eq_true_2 _ eq_refl), decide_True by reflexivity.
      reflexivity.
    + rewrite (bool_decide_eq_false_2 _ Hk), decide_False by congruence.
      apply Values_copy_into_empty.
  - apply Values_copy_into_empty.
Qed.

Lemma relay_ignores_read_error_witness :
  exists w : ResponseWriter,
    (Server_serve broken_platform lab_started (GET "/utility.js")
     = Some (Handled w,
             [ {| cMethod := "GET";
                  cURL := "https://10.145.127.12/utility.js";
                  cHeader := Header.copy_into ∅ (ReqHeader (GET "/utility.js"));
                  cBody := None |} ])) /\
    status w = 200 /\ written w = "var RP".
Proof.
  assert (Hal : allowListed (URL_Path (GET "/utility.js")) = true)
    by (vm_compute; reflexivity).
  assert (Hcl : Method (GET "/utility.js") = "CONNECT" \/
                cleanPath (URL_Path (GET "/utility.js"))
                = URL_Path (GET "/utility.js"))
    by (right; vm_compute; reflexivity).
  destruct (relay_ignores_read_error broken_platform lab_started
              (GET "/utility.js") broken_answer "unexpected EOF"
              lab_started_in_service lab_started_started Hal Hcl
              eq_refl eq_refl eq_refl) as (w & Hs & Hst & Hw & _).
  exists w. split; [exact Hs|]. split; [exact Hst|exact Hw].
Defined.

(** ** The URL and the page *)

Lemma Itoa_inj (a b : Z) : Itoa a = Itoa b -> a = b.
Proof.
  unfold Itoa. intros H.
  assert (Hn : forall n,
            NilZero.int_of_string (NilZero.string_of_int (Z.to_int n))
            = Some (Z.to_int n)).
  { intros n. apply NilZero.isi; destruct n; simpl; try discriminate;
      intros E; injection E as E;
      exact (DecimalPos.Unsigned.to_uint_nonnil _ E). }
  pose proof (Hn a) as Ha. rewrite H, Hn in Ha. injection Ha as Ha.
  rewrite <- (DecimalZ.of_to a), <- (DecimalZ.of_to b), Ha. reflexivity.
Qed.

Lemma append_inj_l (p a b : string) : p +:+ a = p +:+ b -> a = b.
Proof.
  induction p as [|ch p IH]; [rewrite !append_nil_l; auto|].
  rewrite !append_cons. intros H. injection H as H. exact (IH H).
Qed.

(** X19: [GetURL] is [https://localhost:] followed by the listen port in
    decimal, so two sessions have the same URL exactly when they have the
    same port; before [Initialize] the port in it is 0, whatever is
    configured; and right after [Start] the URL names the address the
    server was made for. *)
Theorem GetURL_names_listener (c : Console) :
  (forall c' : Console, GetURL c = GetURL c' <-> GetPort c = GetPort c') /\
  (forall cfg : ConsoleConfig, GetURL (NewConsole cfg) = "https://localhost:0") /\
  exists srv : Server,
    server (Start c).1.2 = Some srv /\ inShutdown srv = false /\
    GetURL (Start c).1.2 = "https://localhost" +:+ Addr srv.
Proof.
  split.
  - intros c'. unfold GetURL, GetPort. split.
    + intros H. apply Itoa_inj. exact (append_inj_l _ _ _ H).
    + intros ->. reflexivity.
  - split; [intros cfg; reflexivity|].
    eexists. split; [reflexivity|]. split; [reflexivity|].
    unfold GetURL. cbn [Start fst snd serverPort Addr].
    rewrite <- append_assoc. reflexivity.
Qed.

Lemma GetURL_names_listener_witness :
  GetURL lab_session <> GetURL auto_session.
Proof.
  intros H.
  apply (proj1 (GetURL_names_listener lab_session)) in H.
  revert H. vm_compute. discriminate.
Defined.

Lemma allBytes_app (p : ascii -> bool) (a b : string) :
  allBytes p (a +:+ b) = allBytes p a && allBytes p b.
Proof.
  induction a as [|c a IH]; [rewrite append_nil_l; reflexivity|].
  rewrite append_cons. cbn [allBytes]. rewrite IH, andb_assoc. reflexivity.
Qed.

Lemma jsStr_unreplaced_safe (c : ascii) :
  jsStrReplacement c = None -> negb (breaking c) = true.
Proof.
  intros H.
  destruct c as [[] [] [] [] [] [] [] []]; vm_compute in H;
    try discriminate H; vm_compute; reflexivity.
Qed.

Lemma htmlReplacement_safe (c : ascii) (repl : string) :
  htmlReplacement c = Some repl ->
  allBytes (fun b => negb (markup b)) repl = true.
Proof.
  intros H.
  destruct c as [[] [] [] [] [] [] [] []]; vm_compute in H;
    try discriminate H; injection H as <-; vm_compute; reflexivity.
Qed.

Lemma html_unreplaced_safe (c : ascii) :
  htmlReplacement c = None -> negb (markup c) = true.
Proof.
  intros H.
  destruct c as [[] [] [] [] [] [] [] []]; vm_compute in H;
    try discriminate H; vm_compute; reflexivity.
Qed.

Lemma htmlEscaper_safe (s : string) :
  allBytes (fun b => negb (markup b)) (htmlEscaper s) = true.
Proof.
  induction s as [|c s IH]; [reflexivity|]. cbn [htmlEscaper].
  destruct (htmlReplacement c) as [repl|] eqn:E.
  - rewrite allBytes_app, (htmlReplacement_safe c repl E), IH. reflexivity.
  - cbn [allBytes]. rewrite (html_unreplaced_safe c E), IH. reflexivity.
Qed.

(** *** The values in their places *)

Lemma jsStrReplacement_backslash (c : ascii) (repl : string) :
  jsStrReplacement c = Some repl -> exists t, repl = String (chr 92) t.
Proof.
  intros H.
  destruct c as [[] [] [] [] [] [] [] []]; vm_compute in H;
    try discriminate H; injection H as <-; eexists; reflexivity.
Qed.

(** A replacement is read as a whole: after it the reader is in the text
    of the string again. *)
Lemma jsStrBody_replacement (c : ascii) (repl rest : string) :
  jsStrReplacement c = Some repl ->
  jsStrBody jsPlain (repl +:+ rest) = jsStrBody jsPlain rest.
Proof.
  intros H.
  destruct c as [[] [] [] [] [] [] [] []]; vm_compute in H;
    try discriminate H; injection H as <-;
    rewrite ?append_cons, append_nil_l; reflexivity.
Qed.

Lemma jsStr_unreplaced_not_backslash (c : ascii) :
  jsStrReplacement c = None -> (nat_of_ascii c =? 92)%nat = false.
Proof.
  intros H.
  destruct c as [[] [] [] [] [] [] [] []]; vm_compute in H;
    try discriminate H; reflexivity.
Qed.

(** A byte without a replacement that starts no separator is copied. *)
Lemma jsStrEscaper_unreplaced (c : ascii) (s : string) :
  jsStrReplacement c = None ->
  isSeparator (String c s) = false ->
  jsStrEscaper (String c s) = String c (jsStrEscaper s).
Proof.
  intros Hr Hs. cbn [jsStrEscaper]. rewrite Hr.
  destruct s as [|c1 [|c2 s]]; [reflexivity..|].
  destruct ((nat_of_ascii c =? 226)%nat && (nat_of_ascii c1 =? 128)%nat
            && ((nat_of_ascii c2 =? 168)%nat || (nat_of_ascii c2 =? 169)%nat))
    eqn:E; [|reflexivity].
  exfalso. apply andb_prop in E as [E E2]. apply andb_prop in E as [E0 E1].
  apply Nat.eqb_eq in E0, E1.
  apply (f_equal ascii_of_nat) in E0, E1. rewrite ascii_nat_embedding in E0, E1.
  subst c c1. apply orb_prop in E2.
  destruct E2 as [E2|E2]; apply Nat.eqb_eq in E2;
    apply (f_equal ascii_of_nat) in E2; rewrite ascii_nat_embedding in E2;
    subst c2; vm_compute in Hs; discriminate Hs.
Qed.

(** A separator is written as [u4]. *)
Lemma jsStrEscaper_separator (c : ascii) (s : string) :
  jsStrReplacement c = None ->
  isSeparator (String c s) = true ->
  exists (n : nat) (s' : string),
    (n = 64 * 128 + 40 \/ n = 64 * 128 + 41)%nat /\ String.length s = S (S (String.length s')) /\
    jsStrEscaper (String c s) = u4 n +:+ jsStrEscaper s'.
Proof.
  intros Hr Hs. cbn [jsStrEscaper]. rewrite Hr.
  unfold isSeparator in Hs. apply orb_prop in Hs.
  destruct Hs as [Hs|Hs]; apply HasPrefix_spec in Hs as [t Ht];
    rewrite !append_cons, append_nil_l in Ht; injection Ht as -> ->.
  - exists (64 * 128 + 40)%nat, t. split; [by left|]. split; reflexivity.
  - exists (64 * 128 + 41)%nat, t. split; [by right|]. split; reflexivity.
Qed.

(** What [jsStrEscaper] writes starts with a backslash or with the first
    byte of its argument, which it then goes on from. *)
Lemma jsStrEscaper_head (s : string) (x : ascii) (T : string) :
  jsStrEscaper s = String x T ->
  (nat_of_ascii x =? 92)%nat = false ->
  exists s1, s = String x s1 /\ jsStrReplacement x = None /\
             (isSeparator s = false -> T = jsStrEscaper s1).
Proof.
  destruct s as [|c s1]; [discriminate|]. intros H Hx.
  destruct (jsStrReplacement c) as [repl|] eqn:Hr.
  - exfalso. cbn [jsStrEscaper] in H. rewrite Hr in H.
    destruct (jsStrReplacement_backslash c repl Hr) as [t ->].
    rewrite append_cons in H. injection H as <- _. discriminate Hx.
  - destruct (isSeparator (String c s1)) eqn:Hs.
    + exfalso.
      destruct (jsStrEscaper_separator c s1 Hr Hs) as (n & s' & _ & _ & E).
      rewrite E in H. unfold u4 in H. rewrite append_cons in H.
      injection H as <- _. discriminate Hx.
    + rewrite (jsStrEscaper_unreplaced c s1 Hr Hs) in H. injection H as <- <-.
      exists s1. split; [reflexivity|]. split; [exact Hr|]. reflexivity.
Qed.

(** [jsStrEscaper] writes no separator as it is. *)
Lemma jsStrEscaper_no_separator (c : ascii) (s : string) :
  jsStrReplacement c = None ->
  isSeparator (String c s) = false ->
  isSeparator (String c (jsStrEscaper s)) = false.
Proof.
  intros Hr Hs.
  destruct (isSeparator (String c (jsStrEscaper s))) eqn:E; [|reflexivity].
  exfalso.
  assert (exists x2 T, (nat_of_ascii x2 =? 168)%nat || (nat_of_ascii x2 =? 169)%nat
                       = true /\
                       c = chr 226 /\
                       jsStrEscaper s = String (chr 128) (String x2 T))
    as (x2 & T & Hx2 & -> & HX).
  { unfold isSeparator in E. apply orb_prop in E.
    destruct E as [E|E]; apply HasPrefix_spec in E as [t Ht];
      rewrite !append_cons, append_nil_l in Ht; injection Ht as -> Ht;
      rewrite Ht; eexists _, t; (split; [|split; reflexivity]); reflexivity. }
  destruct (jsStrEscaper_head s _ _ HX eq_refl) as (s1 & -> & _ & HT).
  specialize (HT eq_refl).
  assert ((nat_of_ascii x2 =? 92)%nat = false) as Hx92.
  { apply orb_prop in Hx2. destruct Hx2 as [H|H]; apply Nat.eqb_eq in H;
      rewrite H; reflexivity. }
  symmetry in HT.
  destruct (jsStrEscaper_head s1 _ _ HT Hx92) as (s2 & -> & _ & _).
  apply orb_prop in Hx2.
  destruct Hx2 as [H|H]; apply Nat.eqb_eq in H;
    apply (f_equal ascii_of_nat) in H; rewrite ascii_nat_embedding in H;
    subst x2; vm_compute in Hs; discriminate Hs.
Qed.

Lemma jsStrEscaper_body_upto (n : nat) (s : string) :
  (String.length s <= n)%nat -> jsStrBody jsPlain (jsStrEscaper s) = true.
Proof.
  revert s. induction n as [|n IH]; intros s Hlen.
  - destruct s; [reflexivity|]. cbn [String.length] in Hlen. lia.
  - destruct s as [|c s']; [reflexivity|]. cbn [String.length] in Hlen.
    destruct (jsStrReplacement c) as [repl|] eqn:Hr.
    + cbn [jsStrEscaper]. rewrite Hr.
      rewrite (jsStrBody_replacement c repl _ Hr). apply IH. lia.
    + destruct (isSeparator (String c s')) eqn:Hs.
      * destruct (jsStrEscaper_separator c s' Hr Hs) as (k & s'' & Hk & Hl & ->).
        assert (jsStrBody jsPlain (u4 k +:+ jsStrEscaper s'')
                = jsStrBody jsPlain (jsStrEscaper s'')) as ->
          by (destruct Hk as [-> | ->]; unfold u4;
              rewrite ?append_cons, append_nil_l; reflexivity).
        apply IH. lia.
      * rewrite (jsStrEscaper_unreplaced c s' Hr Hs). cbn [jsStrBody].
        rewrite (jsStr_unreplaced_not_backslash c Hr).
        pose proof (jsStr_unreplaced_safe c Hr) as Hb.
        apply negb_true_iff in Hb. rewrite Hb.
        rewrite (jsStrEscaper_no_separator c s' Hr Hs). cbn [orb].
        apply IH. lia.
Qed.

Lemma jsStrEscaper_body (s : string) :
  jsStrBody jsPlain (jsStrEscaper s) = true.
Proof. apply (jsStrEscaper_body_upto (String.length s)). lia. Qed.

(** A value that can stand in a quoted string leaves the reader of the
    template's text where it was: in the string, with no backslash
    pending. *)
Lemma escapeText_jsStr (st : jsStrPos) (s : string) :
  jsStrBody st s = true ->
  escapeText (stateJSStr "'" (match st with jsAfterBackslash => true
                                           | _ => false end)) s
  = (stateJSStr "'" false, s).
Proof.
  revert st. induction s as [|c s IH]; intros st H.
  - destruct st; [reflexivity|discriminate H..].
  - cbn [jsStrBody] in H. cbn [escapeText]. destruct st as [| |k].
    + destruct (nat_of_ascii c =? 92)%nat eqn:E92.
      * rewrite (IH jsAfterBackslash H). reflexivity.
      * destruct (breaking c) eqn:Eb; [discriminate H|].
        destruct (isSeparator (String c s)); [discriminate H|]. cbn [orb] in H.
        assert (Ascii.eqb c "'" = false) as ->.
        { apply Ascii.eqb_neq. intros ->. vm_compute in Eb. discriminate Eb. }
        rewrite (IH jsPlain H). reflexivity.
    + destruct ((nat_of_ascii c =? 116)%nat || (nat_of_ascii c =? 110)%nat
                || (nat_of_ascii c =? 102)%nat || (nat_of_ascii c =? 114)%nat
                || (nat_of_ascii c =? 47)%nat || (nat_of_ascii c =? 92)%nat).
      * rewrite (IH jsPlain H). reflexivity.
      * destruct (nat_of_ascii c =? 117)%nat; [|discriminate H].
        rewrite (IH (jsInU 3) H). reflexivity.
    + destruct (json.isHex c) eqn:Eh; [|discriminate H].
      assert ((nat_of_ascii c =? 92)%nat = false /\ Ascii.eqb c "'" = false)
        as [-> ->].
      { clear -Eh. destruct c as [[] [] [] [] [] [] [] []];
          vm_compute in Eh; try discriminate Eh; split; reflexivity. }
      destruct k as [|k]; [rewrite (IH jsPlain H)|rewrite (IH (jsInU k) H)];
        reflexivity.
Qed.

Lemma escapeText_markup_free (s : string) :
  allBytes (fun b => negb (markup b)) s = true ->
  escapeText stateText s = (stateText, s).
Proof.
  induction s as [|c s IH]; [reflexivity|]. cbn [allBytes].
  intros [Hc Hs]%andb_prop. cbn [escapeText HasPrefix].
  assert (Ascii.eqb c "<" = false) as ->.
  { apply Ascii.eqb_neq. intros ->. vm_compute in Hc. discriminate Hc. }
  rewrite (IH Hs). reflexivity.
Qed.

Lemma escapeText_numeric (s : string) :
  allBytes numeric s = true -> escapeText stateJS s = (stateJS, s).
Proof.
  induction s as [|c s IH]; [reflexivity|]. cbn [allBytes].
  intros [Hc Hs]%andb_prop. cbn [escapeText HasPrefix].
  assert (Ascii.eqb c "<" = false /\
          (nat_of_ascii c =? 34)%nat || (nat_of_ascii c =? 39)%nat
          || (nat_of_ascii c =? 96)%nat = false /\
          (nat_of_ascii c =? 47)%nat = false) as (-> & -> & ->).
  { clear -Hc. destruct c as [[] [] [] [] [] [] [] []];
      vm_compute in Hc; try discriminate Hc; repeat split. }
  rewrite (IH Hs). reflexivity.
Qed.

Lemma uint_numeric (d : Decimal.uint) :
  allBytes numeric (NilEmpty.string_of_uint d) = true.
Proof. induction d; cbn [NilEmpty.string_of_uint allBytes]; auto. Qed.

Lemma jsValEscaper_int_numeric (n : Z) :
  allBytes numeric (jsValEscaper_int n) = true.
Proof.
  unfold jsValEscaper_int. rewrite !allBytes_app.
  assert (allBytes numeric (Itoa n) = true) as ->.
  { unfold Itoa, NilZero.string_of_int, NilZero.string_of_uint.
    destruct (Z.to_int n) as [d|d]; destruct d; cbn [allBytes];
      try reflexivity; apply uint_numeric. }
  reflexivity.
Qed.

(** X20: whatever the target host, the user name and the password are,
    none of the five values [generateHTML] puts into the page between the
    stretches of the template's text leaves its place.  The host in the
    list item stands in element text and holds no angle bracket and no
    quote.  The host, the user name and the password in the script stand
    each in a string in single quotes, and what is written there can be
    read as the body of such a string: every backslash in it starts a
    whole escape, the last one included, and outside the escapes there is
    no quote of any kind, no angle bracket, no ampersand, no line break
    and no line or paragraph separator.  The port stands in the script
    itself and consists of digits, a minus sign and spaces.  So a reader
    of the page that keeps track of the context as [html/template] does
    is, after each value, in the context it was in before it. *)
Theorem rendered_values_stay_in_place (cfg : ConsoleConfig) :
  exists h j1 v j2 j3 : string,
    render cfg =
    escaped0.2 +:+ h +:+ escaped1.2 +:+ j1 +:+ escaped2.2 +:+ v
    +:+ escaped3.2 +:+ j2 +:+ escaped4.2 +:+ j3 +:+ escaped5.2 /\
    (escaped0.1 = stateText /\
     allBytes (fun b => negb (markup b)) h = true /\
     escapeText escaped0.1 h = (escaped0.1, h)) /\
    (escaped1.1 = stateJSStr "'" false /\
     jsStrBody jsPlain j1 = true /\
     escapeText escaped1.1 j1 = (escaped1.1, j1)) /\
    (escaped2.1 = stateJS /\
     allBytes numeric v = true /\
     escapeText escaped2.1 v = (escaped2.1, v)) /\
    (escaped3.1 = stateJSStr "'" false /\
     jsStrBody jsPlain j2 = true /\
     escapeText escaped3.1 j2 = (escaped3.1, j2)) /\
    (escaped4.1 = stateJSStr "'" false /\
     jsStrBody jsPlain j3 = true /\
     escapeText escaped4.1 j3 = (escaped4.1, j3)).
Proof.
  exists (htmlEscaper (BMCIP cfg)), (jsStrEscaper (BMCIP cfg)),
    (jsValEscaper_int (RPPort cfg)), (jsStrEscaper (Username cfg)),
    (jsStrEscaper (Password cfg)).
  split; [apply render_unfold|].
  assert (forall s, escapeText (stateJSStr "'" false) (jsStrEscaper s)
                    = (stateJSStr "'" false, jsStrEscaper s)) as Hj
    by (intros s; exact (escapeText_jsStr jsPlain _ (jsStrEscaper_body s))).
  split; [|split; [|split; [|split]]].
  - split; [reflexivity|]. split; [apply htmlEscaper_safe|].
    exact (escapeText_markup_free _ (htmlEscaper_safe _)).
  - split; [reflexivity|]. split; [apply jsStrEscaper_body|apply Hj].
  - split; [reflexivity|]. split; [apply jsValEscaper_int_numeric|].
    exact (escapeText_numeric _ (jsValEscaper_int_numeric _)).
  - split; [reflexivity|]. split; [apply jsStrEscaper_body|apply Hj].
  - split; [reflexivity|]. split; [apply jsStrEscaper_body|apply Hj].
Qed.

(** A password that ends in a backslash: the backslash is doubled, so the
    quote after it still ends the string.  A lone backslash, a quote or a
    line feed could not stand in a string. *)
Example backslash_doubled :
  jsStrEscaper ("pw" +:+ String (chr 92) "")
  = "pw" +:+ String (chr 92) (String (chr 92) "") /\
  jsStrBody jsPlain ("pw" +:+ String (chr 92) "") = false /\
  jsStrBody jsPlain "O'Brien" = false /\
  jsStrBody jsPlain (String (chr 10) "") = false /\
  jsStrBody jsPlain (jsStrEscaper "O'Brien") = true.
Proof. repeat split; vm_compute; reflexivity. Qed.

(** ** The command *)

Lemma main_short (unicode_map : string -> string) (pf_lookup pf_launch : Platform)
    (os_Args : list string) :
  (length os_Args < 4)%nat ->
  main unicode_map pf_lookup pf_launch os_Args = (Exit 1, []).
Proof.
  intros Hlen. destruct os_Args as [|a0 [|a1 [|a2 [|a3 rest]]]]; try reflexivity.
  cbn [length] in Hlen. lia.
Qed.

(** The configuration [main] builds from four or more arguments, and what
    it does with it. *)
Lemma main_launch (unicode_map : string -> string) (pf_lookup pf_launch : Platform)
    (a0 bmcIP username password : string) (rest : list string) :
  main unicode_map pf_lookup pf_launch
    (a0 :: bmcIP :: username :: password :: rest) =
  match LaunchAndOpen pf_launch
          (NewConsole
             {| BMCIP := bmcIP; Username := username; Password := password;
                RPPort := (GetRPPort pf_lookup bmcIP username password).1;
                UseFirefox :=
                  match rest with
                  | arg4 :: _ =>
                      bool_decide (strings_ToLower unicode_map arg4 = "firefox")
                  | [] => false
                  end;
                ServerPort := 0 |}) with
  | (Ret _, c, eff) => (WaitForever c, eff)
  | (Err _, _, eff) => (Exit 1, eff)
  | (Panic msg, _, eff) => (Panics msg, eff)
  end.
Proof.
  unfold main.
  pose proof (GetRPPort_no_error pf_lookup bmcIP username password) as Hne.
  destruct (GetRPPort pf_lookup bmcIP username password) as [rpPort err].
  cbn [fst snd] in *. subst err. reflexivity.
Qed.


(** X22: when [main] gets to wait, the session it leaves is in service for
    the host, user name and password of the first three arguments; its
    remote-presence port is the positive one [GetRPPort] gave [main], and
    the launch does not look it up again; no listen port is configured;
    Firefox is preferred exactly when a fourth argument is there and is
    "firefox" in lower case, and further arguments are ignored. *)
Theorem main_session (unicode_map : string -> string)
    (pf_lookup pf_launch : Platform) (os_Args : list string) (c : Console)
    (eff : list Effect) :
  main unicode_map pf_lookup pf_launch os_Args = (WaitForever c, eff) ->
  exists (a0 bmcIP username password : string) (rest : list string),
    os_Args = a0 :: bmcIP :: username :: password :: rest /\
    config c =
      {| BMCIP := bmcIP; Username := username; Password := password;
         RPPort := (GetRPPort pf_lookup bmcIP username password).1;
         UseFirefox :=
           match rest with
           | arg4 :: _ =>
               bool_decide (strings_ToLower unicode_map arg4 = "firefox")
           | [] => false
           end;
         ServerPort := 0 |} /\
    0 < RPPort (config c) /\
    consoleHTML c = render (config c) /\
    in_service c /\ started c.
Proof.
  intros Hmain.
  destruct (decide (length os_Args < 4)%nat) as [Hshort|Hlong].
  { rewrite (main_short _ _ _ _ Hshort) in Hmain. discriminate Hmain. }
  destruct os_Args as [|a0 [|bmcIP [|username [|password rest]]]];
    try (cbn [length] in Hlong; lia).
  exists a0, bmcIP, username, password, rest. split; [reflexivity|].
  rewrite main_launch in Hmain.
  set (cfg := {| BMCIP := bmcIP; Username := username; Password := password;
                 RPPort := _; UseFirefox := _; ServerPort := 0 |}) in *.
  assert (Hsess : session (NewConsole cfg)) by (exists cfg; apply rtc_refl).
  pose proof (LaunchAndOpen_cases pf_launch (NewConsole cfg) Hsess eq_refl) as H.
  destruct (LaunchAndOpen pf_launch (NewConsole cfg)) as [[[[]|e|msg] c'] eff'];
    try discriminate Hmain.
  injection Hmain as -> ->.
  destruct H as ((Hin & Hst & _ & Hcfg & _) & _).
  pose proof (GetRPPort_positive pf_lookup bmcIP username password) as Hpos.
  assert (Hc : config c = cfg).
  { rewrite Hcfg. apply resolved_fixed. cbn [NewConsole config cfg RPPort]. lia. }
  split; [exact Hc|].
  split; [rewrite Hc; exact Hpos|].
  split; [exact (proj2 (proj2 (in_service_ready c Hin)))|].
  split; [exact Hin|exact Hst].
Qed.

Lemma main_session_witness :
  main (fun s => s) lab_platform unreachable_platform lab_Args
  = (WaitForever lab_main_session,
     [GoListenAndServeTLS ":49152" "server.crt" "server.key"; Sleep 500;
      LaunchBrowser "https://localhost:49152"]) /\
  RPPort (config lab_main_session) = 3901 /\
  UseFirefox (config lab_main_session) = true.
Proof.
  assert (E : main (fun s => s) lab_platform unreachable_platform lab_Args
              = (WaitForever lab_main_session,
                 [GoListenAndServeTLS ":49152" "server.crt" "server.key";
                  Sleep 500; LaunchBrowser "https://localhost:49152"])).
  { vm_compute. reflexivity. }
  split; [exact E|].
  destruct (main_session _ _ _ _ _ _ E)
    as (a0 & bmcIP & username & password & rest & Hargs & Hcfg & _).
  injection Hargs as <- <- <- <- <-.
  rewrite Hcfg. split; vm_compute; reflexivity.
Defined.

(** X23: on a system [getBrowserCommand] does not know, [LaunchAndOpen]
    with a port at hand still initializes the session and starts the
    server, and only then returns "unsupported platform:" and the system's
    name, from [getBrowserCommand]: no command was made and none started,
    and the server is left running.  [main] then exits with status 1
    whatever its arguments. *)
Theorem LaunchAndOpen_unsupported_system (sys : System) (pf : Platform)
    (c : Console) :
  session c -> mux c = NewServeMux ->
  supported (GOOS sys) = false ->
  ServerPort (config c) <> 0 \/ (exists port, net_Listen0 pf = inr port) ->
  (exists (c' : Console) (eff : list Effect),
     LaunchAndOpen_on sys pf c
     = (Err ("unsupported platform: " +:+ GOOS sys), c', eff, []) /\
     in_service c' /\ started c' /\
     eff = [GoListenAndServeTLS (":" +:+ Itoa (GetPort c')) "server.crt"
              "server.key";
            Sleep 500] /\
     (LaunchAndOpen (on_system sys pf) c).1
     = (Err ("unsupported platform: " +:+ GOOS sys), c')) /\
  forall (unicode_map : string -> string) (pf_lookup : Platform)
         (os_Args : list string),
    (main unicode_map pf_lookup (on_system sys pf) os_Args).1 = Exit 1.
Proof.
  intros Hsess Hm Hs Hport.
  assert (Hb : forall url ff,
            browser_Start (on_system sys pf) url ff
            = Some ("unsupported platform: " +:+ GOOS sys)).
  { intros url ff. unfold on_system. cbn [browser_Start].
    rewrite (getBrowserCommand_unsupported sys _ url Hs). reflexivity. }
  split.
  - assert (exists c1, Initialize pf c = (Ret tt, c1)) as [c1 Hi].
    { rewrite (Initialize_new pf c Hm). unfold prepared.
      case_bool_decide as Hsp.
      - destruct Hport as [Hne|[port Hl]]; [contradiction|].
        rewrite Hl. eexists. reflexivity.
      - eexists. reflexivity. }
    assert (Initialize (on_system sys pf) c = (Ret tt, c1)) as Hi'.
    { rewrite <- Hi. reflexivity. }
    destruct (launched_in_service pf c c1 Hsess Hi) as [Hin Hst].
    exists (Start c1).1.2, (Start c1).2.
    split; [|split; [exact Hin|split; [exact Hst|split; [reflexivity|]]]].
    + unfold LaunchAndOpen_on. rewrite Hi. unfold Start at 1.
      unfold OpenInBrowser_on.
      rewrite (getBrowserCommand_unsupported sys _ _ Hs). reflexivity.
    + unfold LaunchAndOpen. rewrite Hi'. unfold Start at 1, OpenInBrowser.
      rewrite Hb. reflexivity.
  - intros unicode_map pf_lookup os_Args.
    destruct (decide (length os_Args < 4)%nat) as [Hshort|Hlong].
    { rewrite (main_short _ _ _ _ Hshort). reflexivity. }
    destruct os_Args as [|a0 [|bmcIP [|username [|password rest]]]];
      try (cbn [length] in Hlong; lia).
    rewrite main_launch.
    set (cfg := {| BMCIP := bmcIP; Username := username; Password := password;
                   RPPort := _; UseFirefox := _; ServerPort := 0 |}).
    assert (Hsess' : session (NewConsole cfg)) by (exists cfg; apply rtc_refl).
    pose proof (LaunchAndOpen_cases (on_system sys pf) (NewConsole cfg)
                  Hsess' eq_refl) as H.
    destruct (LaunchAndOpen (on_system sys pf) (NewConsole cfg))
      as [[[[]|e|msg] c'] eff].
    + destruct H as (_ & H). rewrite Hb in H. discriminate H.
    + reflexivity.
    + contradiction.
Qed.

Lemma LaunchAndOpen_unsupported_system_witness :
  (LaunchAndOpen_on freebsd_system lab_platform (NewConsole lab_config)).1.1.1
  = Err "unsupported platform: freebsd" /\
  (LaunchAndOpen_on freebsd_system lab_platform (NewConsole lab_config)).2 = [] /\
  (main (fun s => s) lab_platform (on_system freebsd_system lab_platform)
     lab_Args).1 = Exit 1.
Proof.
  assert (Hsess : session (NewConsole lab_config)).
  { exists lab_config. apply rtc_refl. }
  assert (Hport : ServerPort (config (NewConsole lab_config)) <> 0 \/
                  (exists port, net_Listen0 lab_platform = inr port)).
  { right. exists 49152. reflexivity. }
  pose proof (LaunchAndOpen_unsupported_system freebsd_system lab_platform
                (NewConsole lab_config) Hsess eq_refl eq_refl Hport) as H.
  destruct H as [H Hmain]. split; [|split; [|exact (Hmain _ _ _)]];
    destruct H as (c' & eff & E & _).
  - exact (f_equal (fun x => x.1.1.1) E).
  - exact (f_equal (fun x => x.2) E).
Defined.
